(** * Knative serving backend of pywren-ibm-cloud: runtime lifecycle and
      invocation retry, embedded from

      - [pywren_ibm_cloud/compute/backends/knative/knative.py]
      - [pywren_ibm_cloud/compute/compute.py]

    Python values are modelled as follows: [str] as [string] (one [ascii]
    per character; the strings at hand, names of images and of cluster
    objects, are ASCII, and a [string] stands for a [str] of characters
    below 128), [int] as [Z], dictionaries that the code uses as maps
    as [gmap], parsed YAML/JSON documents as the tree type [json], and
    methods that touch [self], the cluster or the network as computations
    in a state-and-exception monad over [world]. *)

From Stdlib Require Import ZArith String Ascii List Bool Lia DecimalString DecimalZ.
From stdpp Require Import base option list gmap strings.
From Equations Require Import Equations.

Local Open Scope string_scope.
Local Open Scope Z_scope.

(** ** Python [str] and [int] primitives used by the backend *)

Module PyStr.

(** [s[n:]] *)
Fixpoint skip (n : nat) (s : string) : string :=
  match n, s with
  | O, _ => s
  | S n', String _ s' => skip n' s'
  | S _, EmptyString => EmptyString
  end.

(** [s.startswith(p)] *)
Fixpoint startswith (p s : string) : bool :=
  match p with
  | EmptyString => true
  | String a p' =>
      match s with
      | EmptyString => false
      | String b s' => Ascii.eqb a b && startswith p' s'
      end
  end.

(** [sub in s] *)
Fixpoint contains (sub s : string) : bool :=
  startswith sub s ||
  match s with
  | EmptyString => false
  | String _ s' => contains sub s'
  end.

(** [s.replace('', new, count)]: [new] is inserted before every character
    and at the end, at most [count] times when [count] is not negative. *)
Fixpoint replace_empty (new : string) (count : Z) (s : string) : string :=
  if count =? 0 then s
  else match s with
       | EmptyString => new
       | String c s' => new +:+ String c (replace_empty new (count - 1) s')
       end.

(** [s.replace(String a old', new, count)]: occurrences are found from the
    left and do not overlap; a negative [count] replaces all of them. *)
Equations? replace_ne (a : ascii) (old' new : string) (count : Z) (s : string)
  : string by wf (String.length s) lt :=
  replace_ne a old' new count EmptyString := EmptyString;
  replace_ne a old' new count (String c s')
    with (count =? 0) => {
    | true := String c s'
    | false with startswith (String a old') (String c s') => {
      | true := new +:+ replace_ne a old' new (count - 1) (skip (String.length old') s')
      | false := String c (replace_ne a old' new count s') } }.
Proof.
  clear. revert s'. induction (String.length old') as [|n IH]; intros s'.
  - simpl. lia.
  - destruct s' as [|d s']; simpl; [lia|]. specialize (IH s'). lia.
Qed.

Definition replace (old new : string) (count : Z) (s : string) : string :=
  match old with
  | EmptyString => replace_empty new count s
  | String a old' => replace_ne a old' new count s
  end.

(** [s.rsplit(sep, 1)] for a non-empty [sep], when it has two parts: the
    split is at the rightmost occurrence of [sep]. [None] stands for the
    one-element list [[s]] that Python returns when [sep] does not occur. *)
Fixpoint rsplit1 (sep s : string) : option (string * string) :=
  match s with
  | EmptyString => None
  | String c s' =>
      match rsplit1 sep s' with
      | Some (l, r) => Some (String c l, r)
      | None => if startswith sep s
                then Some (EmptyString, skip (String.length sep) s)
                else None
      end
  end.

(** Characters that [int()] strips from both ends of an ASCII argument:
    tab, line feed, vertical tab, form feed, carriage return and space. *)
Definition isspace (c : ascii) : bool :=
  let n := N_of_ascii c in
  ((9 <=? n) && (n <=? 13) || (n =? 32))%N.

Fixpoint lstrip (s : string) : string :=
  match s with
  | String c s' => if isspace c then lstrip s' else s
  | EmptyString => EmptyString
  end.

Fixpoint rstrip (s : string) : string :=
  match s with
  | EmptyString => EmptyString
  | String c s' =>
      match rstrip s' with
      | EmptyString => if isspace c then EmptyString else String c EmptyString
      | t => String c t
      end
  end.

Definition isdigit (c : ascii) : bool :=
  let n := N_of_ascii c in ((48 <=? n) && (n <=? 57))%N.

(** Digits of a decimal literal: single underscores are allowed between
    digits and are dropped. [prev] tells whether the previous character was
    a digit. *)
Fixpoint digits_of (prev : bool) (s : string) : option string :=
  match s with
  | EmptyString => if prev then Some EmptyString else None
  | String c s' =>
      if isdigit c then option_map (String c) (digits_of true s')
      else if Ascii.eqb c "_" then (if prev then digits_of false s' else None)
      else None
  end.

Definition Z_of_digits (ds : string) : option Z :=
  option_map Z.of_uint (NilEmpty.uint_of_string ds).

(** [int(s)] on an ASCII string, base 10; [None] stands for [ValueError]. *)
Definition int (s : string) : option Z :=
  match rstrip (lstrip s) with
  | EmptyString => None
  | String c t =>
      if Ascii.eqb c "-" then option_map Z.opp (digits_of false t ≫= Z_of_digits)
      else if Ascii.eqb c "+" then digits_of false t ≫= Z_of_digits
      else digits_of false (String c t) ≫= Z_of_digits
  end.

(** [str(n)], also what ['{}'.format(n)] prints for an [int]. *)
Definition str (n : Z) : string := NilZero.string_of_int (Z.to_int n).

End PyStr.

(** ** Exceptions, results and JSON documents *)

(** Parsed JSON / YAML: what [yaml.safe_load], [json.loads] and the cluster
    client hand to the code. [JNull] is Python's [None]. *)
#[local] Set Warnings "-register-all".
Inductive json : Type :=
| JNull
| JBool (b : bool)
| JNum (n : Z)
| JStr (s : string)
| JList (l : list json)
| JObj (kvs : list (string * json)).

(** The exception classes that the modelled code can raise. [ApiException]
    carries the HTTP status of a failed cluster call; [InvalidURL] is
    [http.client.InvalidURL]; [Exception msg] is a bare
    [raise Exception(msg)] of the source. [ExceptionOf msg e] is
    [Exception(msg.format(e))] and [ExceptionAbout msg v] is
    [Exception(msg.format(v))]: the message is [msg] with the printed form
    of the exception [e], or of the value [v], in the place of its [{}]. *)
Inductive exn : Type :=
| ValueError
| KeyError (key : string)
| IndexError
| TypeError
| AttributeError
| UnboundLocalError (var : string)
| ApiException (status : Z)
| ConnectionError
| InvalidURL
| Exception (msg : string)
| ExceptionOf (msg : string) (e : exn)
| ExceptionAbout (msg : string) (v : json).

Inductive result (A : Type) : Type :=
| Ok (a : A)
| Raise (e : exn).
Arguments Ok {A} a.
Arguments Raise {A} e.

Definition is_ok {A} (r : result A) : bool :=
  match r with Ok _ => true | Raise _ => false end.

Module Json.

Fixpoint assoc (k : string) (kvs : list (string * json)) : option json :=
  match kvs with
  | [] => None
  | (k', v) :: rest => if String.eqb k k' then Some v else assoc k rest
  end.

Fixpoint assoc_set (k : string) (v : json) (kvs : list (string * json))
  : list (string * json) :=
  match kvs with
  | [] => [(k, v)]
  | (k', v') :: rest =>
      if String.eqb k k' then (k, v) :: rest else (k', v') :: assoc_set k v rest
  end.

(** [j[k]] with a string key. *)
Definition getitem (j : json) (k : string) : result json :=
  match j with
  | JObj kvs => match assoc k kvs with Some v => Ok v | None => Raise (KeyError k) end
  | _ => Raise TypeError
  end.

(** [j.get(k)]: [None] when the key is missing; only dictionaries have the
    method. *)
Definition get (j : json) (k : string) : result json :=
  match j with
  | JObj kvs => Ok (default JNull (assoc k kvs))
  | _ => Raise AttributeError
  end.

(** [j[i]] with an integer index that is not negative. *)
Definition index (j : json) (i : nat) : result json :=
  match j with
  | JList l => match nth_error l i with Some v => Ok v | None => Raise IndexError end
  | JStr s => match String.get i s with
              | Some c => Ok (JStr (String c EmptyString))
              | None => Raise IndexError
              end
  | JObj _ => Raise (KeyError (PyStr.str (Z.of_nat i)))
  | _ => Raise TypeError
  end.

(** [j[k] = v] *)
Definition setitem (j : json) (k : string) (v : json) : result json :=
  match j with
  | JObj kvs => Ok (JObj (assoc_set k v kvs))
  | _ => Raise TypeError
  end.

(** [j[p1]...[pn][k] = v], returning the updated document. *)
Fixpoint set_path (j : json) (path : list string) (k : string) (v : json)
  : result json :=
  match path with
  | [] => setitem j k v
  | p :: path' =>
      match getitem j p with
      | Raise e => Raise e
      | Ok sub =>
          match set_path sub path' k v with
          | Raise e => Raise e
          | Ok sub' => setitem j p sub'
          end
      end
  end.

(** [j[p1]...[pn]] *)
Fixpoint get_path (j : json) (path : list string) : result json :=
  match path with
  | [] => Ok j
  | p :: path' =>
      match getitem j p with
      | Raise e => Raise e
      | Ok sub => get_path sub path'
      end
  end.

(** Python truth value: [bool(j)]. *)
Definition truthy (j : json) : bool :=
  match j with
  | JNull => false
  | JBool b => b
  | JNum n => negb (n =? 0)
  | JStr s => negb (String.eqb s "")
  | JList l => match l with [] => false | _ => true end
  | JObj kvs => match kvs with [] => false | _ => true end
  end.

(** [j == s] for a string literal [s]. *)
Definition eq_str (j : json) (s : string) : bool :=
  match j with
  | JStr t => String.eqb t s
  | _ => false
  end.

Definition is_none (j : json) : bool :=
  match j with JNull => true | _ => false end.

(** [j[p1]...[pn].append(v)], returning the updated document. *)
Fixpoint append_path (j : json) (path : list string) (v : json) : result json :=
  match path with
  | [] => match j with
          | JList l => Ok (JList (l ++ [v]))
          | _ => Raise AttributeError
          end
  | p :: path' =>
      match getitem j p with
      | Raise e => Raise e
      | Ok sub =>
          match append_path sub path' v with
          | Raise e => Raise e
          | Ok sub' => setitem j p sub'
          end
      end
  end.

(** [s in j] for a string literal [s]: a key of a dictionary, an element
    of a list, a substring of a string. *)
Definition contains (s : string) (j : json) : result bool :=
  match j with
  | JObj kvs => Ok (bool_decide (is_Some (assoc s kvs)))
  | JList l => Ok (existsb (fun x => eq_str x s) l)
  | JStr t => Ok (PyStr.contains s t)
  | _ => Raise TypeError
  end.

End Json.

(** ** The world: the backend object, the cluster and the network *)

(** A pod as the typed client returns it: [pod.status.phase]. *)
Record V1PodStatus : Type := { phase : option string }.
Record V1Pod : Type := { status : option V1PodStatus }.

(** A namespaced object of the cluster: its kind (the API's [plural]) and
    its body. *)
Record resource : Type := { r_plural : string; r_body : json }.

(** What one HTTP POST to a service produces: a transport-level failure, or
    a status code with the body as [json.loads] parses it ([None] when the
    body is not JSON). *)
Inductive http_outcome : Type :=
| HttpFail (e : exn)
| HttpResponse (status : Z) (data : option json).

Record http_request : Type := {
  rq_endpoint : string;
  rq_route : json;
  rq_headers : gmap string string;
  rq_payload : gmap string json
}.

(** The attributes of [KnativeServingBackend] that the methods read or
    write ([self.knative_config], [self.endpoint], [self.service_hosts],
    [self.namespace], [self.headers]), followed by the collaborators: the
    objects of the namespace, the event streams a watch delivers (by the
    name in the field selector), the registry's answer to an existence
    check, what [HTTPConnection(urlparse(endpoint).netloc)] answers for an
    endpoint (the libraries raise for an address they cannot read, as for
    a port that is not a number), the answer to the n-th POST, the
    requests sent so far, the draws of [random.choice] and the sleeps
    performed. *)
Record world : Type := {
  knative_config : gmap string string;
  endpoint : option string;
  service_hosts : gmap string string;
  namespace : string;
  headers : gmap string string;
  objects : list resource;
  service_events : string -> list json;
  taskrun_events : json -> list json;
  pod_events : json -> list V1Pod;
  registry : string -> string -> result Z;
  connection : string -> result unit;
  http : nat -> http_outcome;
  http_sent : list http_request;
  rand : nat -> nat;
  rand_drawn : nat;
  slept : list Z
}.

Definition set_endpoint (v : option string) (w : world) : world :=
  {| knative_config := knative_config w; endpoint := v;
     service_hosts := service_hosts w; namespace := namespace w;
     headers := headers w; objects := objects w;
     service_events := service_events w; taskrun_events := taskrun_events w;
     pod_events := pod_events w; registry := registry w;
     connection := connection w; http := http w;
     http_sent := http_sent w; rand := rand w; rand_drawn := rand_drawn w;
     slept := slept w |}.

Definition set_service_hosts (v : gmap string string) (w : world) : world :=
  {| knative_config := knative_config w; endpoint := endpoint w;
     service_hosts := v; namespace := namespace w;
     headers := headers w; objects := objects w;
     service_events := service_events w; taskrun_events := taskrun_events w;
     pod_events := pod_events w; registry := registry w;
     connection := connection w; http := http w;
     http_sent := http_sent w; rand := rand w; rand_drawn := rand_drawn w;
     slept := slept w |}.

Definition set_headers (v : gmap string string) (w : world) : world :=
  {| knative_config := knative_config w; endpoint := endpoint w;
     service_hosts := service_hosts w; namespace := namespace w;
     headers := v; objects := objects w;
     service_events := service_events w; taskrun_events := taskrun_events w;
     pod_events := pod_events w; registry := registry w;
     connection := connection w; http := http w;
     http_sent := http_sent w; rand := rand w; rand_drawn := rand_drawn w;
     slept := slept w |}.

Definition set_objects (v : list resource) (w : world) : world :=
  {| knative_config := knative_config w; endpoint := endpoint w;
     service_hosts := service_hosts w; namespace := namespace w;
     headers := headers w; objects := v;
     service_events := service_events w; taskrun_events := taskrun_events w;
     pod_events := pod_events w; registry := registry w;
     connection := connection w; http := http w;
     http_sent := http_sent w; rand := rand w; rand_drawn := rand_drawn w;
     slept := slept w |}.

Definition set_http_sent (v : list http_request) (w : world) : world :=
  {| knative_config := knative_config w; endpoint := endpoint w;
     service_hosts := service_hosts w; namespace := namespace w;
     headers := headers w; objects := objects w;
     service_events := service_events w; taskrun_events := taskrun_events w;
     pod_events := pod_events w; registry := registry w;
     connection := connection w; http := http w;
     http_sent := v; rand := rand w; rand_drawn := rand_drawn w;
     slept := slept w |}.

Definition set_rand_drawn (v : nat) (w : world) : world :=
  {| knative_config := knative_config w; endpoint := endpoint w;
     service_hosts := service_hosts w; namespace := namespace w;
     headers := headers w; objects := objects w;
     service_events := service_events w; taskrun_events := taskrun_events w;
     pod_events := pod_events w; registry := registry w;
     connection := connection w; http := http w;
     http_sent := http_sent w; rand := rand w; rand_drawn := v;
     slept := slept w |}.

Definition set_slept (v : list Z) (w : world) : world :=
  {| knative_config := knative_config w; endpoint := endpoint w;
     service_hosts := service_hosts w; namespace := namespace w;
     headers := headers w; objects := objects w;
     service_events := service_events w; taskrun_events := taskrun_events w;
     pod_events := pod_events w; registry := registry w;
     connection := connection w; http := http w;
     http_sent := http_sent w; rand := rand w; rand_drawn := rand_drawn w;
     slept := v |}.

(** ** The monad of the methods: state passing with exceptions. A raised
    exception keeps the state reached when it was raised. *)

Definition M (A : Type) : Type := world -> result A * world.

Definition ret {A} (a : A) : M A := fun w => (Ok a, w).

Definition raise {A} (e : exn) : M A := fun w => (Raise e, w).

Definition bind {A B} (m : M A) (k : A -> M B) : M B :=
  fun w => match m w with
           | (Ok a, w') => k a w'
           | (Raise e, w') => (Raise e, w')
           end.

Notation "x <- m ;; k" := (bind m (fun x => k))
  (at level 100, m at next level, right associativity).
Notation "m ;; k" := (bind m (fun _ => k))
  (at level 100, right associativity).

(** [try: m except Exception as e: h e] *)
Definition try_except {A} (m : M A) (h : exn -> M A) : M A :=
  fun w => match m w with
           | (Ok a, w') => (Ok a, w')
           | (Raise e, w') => h e w'
           end.

Definition lift {A} (r : result A) : M A := fun w => (r, w).

Definition gets {A} (f : world -> A) : M A := fun w => (Ok (f w), w).

Definition modify (f : world -> world) : M unit := fun w => (Ok tt, f w).

(** [d[k]] on a dictionary of strings. *)
Definition lookup_key {V} (d : gmap string V) (k : string) : M V :=
  match d !! k with
  | Some v => ret v
  | None => raise (KeyError k)
  end.

(** [time.sleep(secs)]: [ValueError] for a negative length. *)
Definition sleep (secs : Z) : M unit :=
  if secs <? 0 then raise ValueError
  else modify (fun w => set_slept (slept w ++ [secs]) w).

(** ** The cluster API, on the objects of the backend's namespace

    [self.api] (custom objects) and [self.v1] (secrets, service accounts)
    are one store here, told apart by [plural]. An object is addressed by
    the [metadata.name] of its body. *)

Module Api.

Definition name_of (body : json) : option string :=
  match Json.get_path body ["metadata"; "name"] with
  | Ok (JStr n) => Some n
  | _ => None
  end.

Definition is_obj (plural name : string) (r : resource) : bool :=
  String.eqb (r_plural r) plural &&
  match name_of (r_body r) with
  | Some n => String.eqb n name
  | None => false
  end.

(** [get_namespaced_custom_object]: 404 when there is no such object. *)
Definition get (plural name : string) : M json :=
  objs <- gets objects ;;
  match List.find (is_obj plural name) objs with
  | Some r => ret (r_body r)
  | None => raise (ApiException 404)
  end.

(** [delete_namespaced_custom_object], [delete_namespaced_secret],
    [delete_namespaced_service_account]: 404 when there is no such object. *)
Definition delete (plural name : string) : M unit :=
  objs <- gets objects ;;
  if existsb (is_obj plural name) objs
  then modify (fun w =>
         set_objects (List.filter (fun r => negb (is_obj plural name r)) (objects w)) w)
  else raise (ApiException 404).

(** [create_namespaced_custom_object], [create_namespaced_secret],
    [create_namespaced_service_account]: 422 for a body without a name,
    409 when the name is taken. *)
Definition create (plural : string) (body : json) : M unit :=
  match name_of body with
  | Some name =>
      objs <- gets objects ;;
      if existsb (is_obj plural name) objs then raise (ApiException 409)
      else modify (fun w =>
             set_objects (objects w ++ [{| r_plural := plural; r_body := body |}]) w)
  | None => raise (ApiException 422)
  end.

(** The ['items'] of [list_namespaced_custom_object]. *)
Definition list_items (plural : string) : M (list json) :=
  objs <- gets objects ;;
  ret (List.map r_body (List.filter (fun r => String.eqb (r_plural r) plural) objs)).

End Api.

(** ** [knative.py]: class [KnativeServingBackend] *)

(** The constants of the backend's [config] module ([kconfig]) that the
    class reads; the YAML templates are given as [yaml.safe_load] parses
    them. The module itself is not part of the sources at hand, so its
    values are parameters. *)
Record Kconfig : Type := {
  RUNTIME_DEFAULT_35 : string;
  RUNTIME_DEFAULT_36 : string;
  RUNTIME_DEFAULT_37 : string;
  DOCKER_REPO_DEFAULT : string;
  GIT_URL_DEFAULT : string;
  secret_res : json;
  account_res : json;
  git_res : json;
  task_def : json;
  task_run : json;
  service_res : json
}.

Module Knative.

Import PyStr.

Definition _format_service_name (runtime_name : string) (runtime_memory : Z) : string :=
  let runtime_name := replace ":" "--" (-1) (replace "/" "--" (-1) runtime_name) in
  runtime_name +:+ "--" +:+ str runtime_memory +:+ "mb".

(** The two-name unpacking of [rsplit]'s result and [int] both raise
    [ValueError]. *)
Definition _unformat_service_name (service_name : string) : result (string * Z) :=
  match rsplit1 "--" service_name with
  | None => Raise ValueError
  | Some (runtime_name, memory) =>
      let image_name := replace "--" "/" 1 runtime_name in
      let image_name := replace "--" ":" (-1) image_name in
      match int (replace "mb" "" (-1) memory) with
      | Some n => Ok (image_name, n)
      | None => Raise ValueError
      end
  end.

(** [svc['status']['url'][7:]] and [service_url[7:]]: the URL is a string
    in the service's schema; any other value is a [TypeError] here. *)
Definition slice7 (url : json) : result string :=
  match url with
  | JStr s => Ok (skip 7 s)
  | _ => Raise TypeError
  end.

(** The URL as [self.endpoint] holds it. *)
Definition url_string (url : json) : result string :=
  match url with
  | JStr s => Ok s
  | _ => Raise TypeError
  end.

Definition _get_service_host (service_name : string) : M string :=
  hosts <- gets service_hosts ;;
  match hosts !! service_name with
  | Some h => ret h
  | None =>
      service_host <-
        try_except
          (svc <- Api.get "services" service_name ;;
           st <- lift (Json.getitem svc "status") ;;
           url <- lift (Json.getitem st "url") ;;
           lift (slice7 url))
          (fun e =>
             match e with
             | ApiException code =>
                 (* [raise(log_msg)] raises a [str], which is a [TypeError] *)
                 if code =? 404 then raise TypeError else raise e
             | _ =>
                 (* [e.body] of an exception that has none *)
                 raise AttributeError
             end) ;;
      modify (fun w => set_service_hosts (<[service_name := service_host]> (service_hosts w)) w) ;;
      ret service_host
  end.

(** [urlparse(self.endpoint)] and [HTTPConnection(parsed_url.netloc)]:
    the connection object, or the exception of the libraries. Nothing is
    sent yet. *)
Definition http_connection : M unit :=
  fun w => (connection w (default "" (endpoint w)), w).

(** One POST over the connection: the request is recorded and the outcome
    is that of the n-th request; a transport failure raises. *)
Definition http_post (route : json) (payload : gmap string json) : M (Z * option json) :=
  fun w =>
    let rq := {| rq_endpoint := default "" (endpoint w);
                 rq_route := route;
                 rq_headers := headers w;
                 rq_payload := payload |} in
    let w' := set_http_sent (http_sent w ++ [rq]) w in
    match http w (length (http_sent w)) with
    | HttpFail e => (Raise e, w')
    | HttpResponse st data => (Ok (st, data), w')
    end.

(** [invoke]; the result [JNull] is Python's [None], which is also what
    falling off the end of the method returns. The [except] clause begins
    with [conn.close()]: an exception raised in the [try] before [conn] is
    bound ends in [UnboundLocalError]. *)
Definition invoke (docker_image_name : string) (memory : Z)
    (payload : gmap string json) (return_result : bool) : M json :=
  let service_name := _format_service_name docker_image_name memory in
  host <- _get_service_host service_name ;;
  modify (fun w => set_headers (<["Host" := host]> (headers w)) w) ;;
  ep <- gets endpoint ;;
  match ep with
  | None =>
      h <- _get_service_host service_name ;;
      modify (set_endpoint (Some ("http://" +:+ h)))
  | Some _ => ret tt
  end ;;
  let route := default (JStr "/") (payload !! "service_route") in
  (* the [try] up to the binding of [conn] *)
  conn <- try_except (http_connection ;; ret true) (fun e => ret false) ;;
  if conn then
    try_except
      (resp <- http_post route payload ;;
       let '(resp_status, resp_data) := resp in
       if (resp_status =? 200) || (resp_status =? 202) then
         data <- match resp_data with
                 | Some d => ret d
                 | None => raise ValueError
                 end ;;
         if return_result then ret data
         else lift (Json.getitem data "activationId")
       else if resp_status =? 404 then
         raise (Exception "PyWren runtime is not deployed in your k8s cluster")
       else ret JNull)
      (fun e => (* [conn.close()] and a log message *) ret JNull)
  else
    (* [conn.close()] of the [except] clause, with [conn] not bound *)
    raise (UnboundLocalError "conn").

(** The body of the loop of [list_runtimes] for one service, inside its
    [try]: [Ok None] when the service is not appended. *)
Definition runtime_of_service (docker_image_name : string) (service : json)
  : result (option (string * Z)) :=
  match Json.get_path service ["spec"; "template"; "metadata"; "labels"; "type"] with
  | Raise e => Raise e
  | Ok ty =>
      if Json.eq_str ty "pywren-runtime" then
        match Json.get_path service ["metadata"; "name"] with
        | Raise e => Raise e
        | Ok (JStr runtime_name) =>
            match _unformat_service_name runtime_name with
            | Raise e => Raise e
            | Ok (image_name, memory) =>
                if String.eqb docker_image_name image_name
                   || String.eqb docker_image_name "all"
                then Ok (Some (image_name, memory))
                else Ok None
            end
        | Ok _ => Raise AttributeError
        end
      else Ok None
  end.

Fixpoint list_runtimes_loop (docker_image_name : string) (items : list json)
    (runtimes : list (string * Z)) : list (string * Z) :=
  match items with
  | [] => runtimes
  | service :: rest =>
      match runtime_of_service docker_image_name service with
      | Ok (Some r) => list_runtimes_loop docker_image_name rest (runtimes ++ [r])
      | Ok None => list_runtimes_loop docker_image_name rest runtimes
      | Raise _ =>
          (* It is not a pywren runtime *)
          list_runtimes_loop docker_image_name rest runtimes
      end
  end.

Definition list_runtimes (docker_image_name : string) : M (list (string * Z)) :=
  knative_services <- Api.list_items "services" ;;
  ret (list_runtimes_loop docker_image_name knative_services []).

Definition delete_runtime (docker_image_name : string) (memory : Z) : M unit :=
  let service_name := _format_service_name docker_image_name memory in
  try_except (Api.delete "services" service_name) (fun _ => ret tt).

Fixpoint delete_each (runtimes : list (string * Z)) : M unit :=
  match runtimes with
  | [] => ret tt
  | (docker_image_name, memory) :: rest =>
      delete_runtime docker_image_name memory ;; delete_each rest
  end.

Definition delete_all_runtimes : M unit :=
  runtimes <- list_runtimes "all" ;;
  delete_each runtimes.

(** The readiness test of [_create_service] on the [conditions] of one
    event; [and] evaluates from the left and stops at the first false
    operand. *)
Definition condition_true (conditions : json) (i : nat) : result bool :=
  match Json.index conditions i with
  | Raise e => Raise e
  | Ok c =>
      match Json.getitem c "status" with
      | Raise e => Raise e
      | Ok s => Ok (Json.eq_str s "True")
      end
  end.

Definition conditions_ready (conditions : json) : result bool :=
  if Json.truthy conditions then
    match condition_true conditions 0 with
    | Raise e => Raise e
    | Ok false => Ok false
    | Ok true =>
        match condition_true conditions 1 with
        | Raise e => Raise e
        | Ok false => Ok false
        | Ok true => condition_true conditions 2
        end
    end
  else Ok false.

(** The watch loop of [_create_service] over the objects of the events
    that the stream delivers. [service_url] is [None] while the local
    variable is unbound. After [w.stop()] no further event is taken. *)
Fixpoint watch_service (events : list json) (service_url : option json)
  : M (option json) :=
  match events with
  | [] => ret service_url
  | object :: rest =>
      st <- lift (Json.get object "status") ;;
      cu <- (if negb (Json.is_none st) then
               st' <- lift (Json.getitem object "status") ;;
               conditions <- lift (Json.getitem st' "conditions") ;;
               u <- lift (Json.get st' "url") ;;
               if negb (Json.is_none u) then
                 url <- lift (Json.getitem st' "url") ;;
                 ret (conditions, Some url)
               else ret (conditions, service_url)
             else ret (JNull, service_url)) ;;
      let '(conditions, service_url) := cu in
      ready <- lift (conditions_ready conditions) ;;
      if ready then
        (* Workaround to prevent invoking the service immediately after creation. *)
        sleep 1 ;; ret service_url
      else watch_service rest service_url
  end.

(** The first watch loop of [_build_docker_image_from_git], on the task
    run. *)
Fixpoint watch_task_run (events : list json) (pod_name : json) : M json :=
  match events with
  | [] => ret pod_name
  | object :: rest =>
      st <- lift (Json.get object "status") ;;
      if negb (Json.is_none st) then
        st' <- lift (Json.getitem object "status") ;;
        lift (Json.getitem st' "podName")
      else watch_task_run rest pod_name
  end.

Definition pod_phase (pod : V1Pod) : result (option string) :=
  match status pod with
  | Some st => Ok (phase st)
  | None => Raise AttributeError
  end.

Definition phase_is (ph : option string) (s : string) : bool :=
  match ph with
  | Some t => String.eqb t s
  | None => false
  end.

(** The second watch loop of [_build_docker_image_from_git], on the pod
    that builds the image. *)
Fixpoint watch_pod (events : list V1Pod) : M unit :=
  match events with
  | [] => ret tt
  | pod :: rest =>
      ph <- lift (pod_phase pod) ;;
      let stopped := phase_is ph "Succeeded" in
      ph' <- lift (pod_phase pod) ;;
      if phase_is ph' "Failed" then
        raise (Exception "Unable to create the Docker image from the git repository")
      else if stopped then ret tt
      else watch_pod rest
  end.

(** A delete call whose [name] argument was read from a document. *)
Definition delete_named (plural : string) (name : json) : M unit :=
  match name with
  | JStr n => Api.delete plural n
  | _ => raise (ApiException 404)
  end.

Section Lifecycle.

Context (kconfig : Kconfig).
(** [pywren_ibm_cloud.version.__version__] and
    [version_str(sys.version_info)] *)
Context (__version__ : string) (this_version_str : string).

Definition _get_default_runtime_image_name : M string :=
  cfg <- gets knative_config ;;
  docker_user <- lookup_key cfg "docker_user" ;;
  image_name <-
    (if String.eqb this_version_str "3.5" then ret (RUNTIME_DEFAULT_35 kconfig)
     else if String.eqb this_version_str "3.6" then ret (RUNTIME_DEFAULT_36 kconfig)
     else if String.eqb this_version_str "3.7" then ret (RUNTIME_DEFAULT_37 kconfig)
     else raise (UnboundLocalError "image_name")) ;;
  ret (replace "<USER>" docker_user (-1) image_name).

Definition _create_account_resources : M unit :=
  cfg <- gets knative_config ;;
  user <- lookup_key cfg "docker_user" ;;
  token <- lookup_key cfg "docker_token" ;;
  let string_data := JObj [("username", JStr user); ("password", JStr token)] in
  secret <- lift (Json.setitem (secret_res kconfig) "stringData" string_data) ;;
  repo <- lookup_key cfg "docker_repo" ;;
  secret <- (if negb (String.eqb repo (DOCKER_REPO_DEFAULT kconfig)) then
               lift (Json.set_path secret ["metadata"; "annotations"]
                       "tekton.dev/docker-0" (JStr repo))
             else ret secret) ;;
  let account := account_res kconfig in
  secret_res_name <- lift (Json.get_path secret ["metadata"; "name"]) ;;
  account_res_name <- lift (Json.get_path account ["metadata"; "name"]) ;;
  try_except
    (delete_named "secrets" secret_res_name ;;
     delete_named "serviceaccounts" account_res_name)
    (fun _ => ret tt) ;;
  Api.create "secrets" secret ;;
  Api.create "serviceaccounts" account.

Definition _create_build_resources : M unit :=
  let git := git_res kconfig in
  git_res_name <- lift (Json.get_path git ["metadata"; "name"]) ;;
  let task := task_def kconfig in
  task_name <- lift (Json.get_path task ["metadata"; "name"]) ;;
  cfg <- gets knative_config ;;
  let git_url_param :=
    JObj [("name", JStr "url");
          ("value", JStr (default (GIT_URL_DEFAULT kconfig) (cfg !! "git_url")))] in
  let revision := if contains "SNAPSHOT" __version__ then "master" else __version__ in
  let git_rev_param :=
    JObj [("name", JStr "revision");
          ("value", JStr (default revision (cfg !! "git_rev")))] in
  git <- lift (Json.set_path git ["spec"] "params" (JList [git_url_param; git_rev_param])) ;;
  try_except (delete_named "tasks" task_name) (fun _ => ret tt) ;;
  try_except (delete_named "pipelineresources" git_res_name) (fun _ => ret tt) ;;
  Api.create "pipelineresources" git ;;
  Api.create "tasks" task.

(** The existence check of [_build_docker_image_from_git]: [true] when the
    method returns before building. *)
Definition image_already_created (docker_image_name revision : string) : M bool :=
  cfg <- gets knative_config ;;
  repo <- lookup_key cfg "docker_repo" ;;
  if String.eqb repo "docker.io" && negb (String.eqb revision "latest") then
    reg <- gets registry ;;
    status_code <- lift (reg docker_image_name revision) ;;
    ret (status_code =? 200)
  else ret false.

Definition _build_docker_image_from_git (docker_image_name : string) : M unit :=
  let revision := if contains "SNAPSHOT" __version__ then "latest" else __version__ in
  skip_build <- image_already_created docker_image_name revision ;;
  if skip_build then ret tt
  else
    cfg <- gets knative_config ;;
    repo <- lookup_key cfg "docker_repo" ;;
    let image_url :=
      JObj [("name", JStr "imageUrl");
            ("value", JStr (repo +:+ "/" +:+ docker_image_name))] in
    tr <- lift (Json.append_path (task_run kconfig) ["spec"; "inputs"; "params"] image_url) ;;
    let image_tag := JObj [("name", JStr "imageTag"); ("value", JStr revision)] in
    tr <- lift (Json.append_path tr ["spec"; "inputs"; "params"] image_tag) ;;
    _create_account_resources ;;
    _create_build_resources ;;
    task_run_name <- lift (Json.get_path tr ["metadata"; "name"]) ;;
    try_except (delete_named "taskruns" task_run_name) (fun _ => ret tt) ;;
    Api.create "taskruns" tr ;;
    events <- gets (fun w => taskrun_events w task_run_name) ;;
    pod_name <- watch_task_run events JNull ;;
    if Json.is_none pod_name then
      raise (Exception "Unable to get the pod name from the task that is building the runtime")
    else
      pods <- gets (fun w => pod_events w pod_name) ;;
      watch_pod pods ;;
      delete_named "taskruns" task_run_name.

Definition _create_service (docker_image_name : string) (runtime_memory timeout : Z)
  : M json :=
  let svc := service_res kconfig in
  let revision := if contains "SNAPSHOT" __version__ then "latest" else __version__ in
  let service_name := _format_service_name docker_image_name runtime_memory in
  svc <- lift (Json.set_path svc ["metadata"] "name" (JStr service_name)) ;;
  ns <- gets namespace ;;
  svc <- lift (Json.set_path svc ["metadata"] "namespace" (JStr ns)) ;;
  svc <- lift (Json.set_path svc ["spec"; "template"; "spec"] "timeoutSeconds" (JNum timeout)) ;;
  cfg <- gets knative_config ;;
  repo <- lookup_key cfg "docker_repo" ;;
  let docker_image := repo +:+ "/" +:+ docker_image_name in
  svc <- lift (Json.set_path svc ["spec"; "template"; "spec"; "container"] "image"
                 (JStr (docker_image +:+ ":" +:+ revision))) ;;
  svc <- lift (Json.set_path svc
                 ["spec"; "template"; "spec"; "container"; "resources"; "limits"]
                 "memory" (JStr (str runtime_memory +:+ "Mi"))) ;;
  try_except (Api.delete "services" service_name) (fun _ => ret tt) ;;
  Api.create "services" svc ;;
  events <- gets (fun w => service_events w service_name) ;;
  service_url <- watch_service events None ;;
  match service_url with
  | None => raise (UnboundLocalError "service_url")
  | Some url =>
      host <- lift (slice7 url) ;;
      modify (fun w => set_service_hosts (<[service_name := host]> (service_hosts w)) w) ;;
      ret url
  end.

Definition _generate_runtime_meta (docker_image_name : string) (memory : Z) : M json :=
  let payload : gmap string json := {["service_route" := JStr "/preinstalls"]} in
  runtime_meta <-
    try_except (invoke docker_image_name memory payload true)
               (fun e => raise (ExceptionOf "Unable to invoke 'modules' action {}" e)) ;;
  if negb (Json.truthy runtime_meta) then
    raise (ExceptionAbout "Failed getting runtime metadata: {}" runtime_meta)
  else
    has <- lift (Json.contains "preinstalls" runtime_meta) ;;
    if negb has then
      raise (ExceptionAbout "Failed getting runtime metadata: {}" runtime_meta)
    else ret runtime_meta.

Definition create_runtime (docker_image_name : string) (memory timeout : Z) : M json :=
  default_runtime_img_name <- _get_default_runtime_image_name ;;
  docker_image_name <-
    (if String.eqb docker_image_name "default"
        || String.eqb docker_image_name default_runtime_img_name
     then
       (* We only build the default image. *)
       _build_docker_image_from_git default_runtime_img_name ;;
       ret default_runtime_img_name
     else ret docker_image_name) ;;
  service_url <- _create_service docker_image_name memory timeout ;;
  ep <- gets endpoint ;;
  match ep with
  | None => u <- lift (url_string service_url) ;; modify (set_endpoint (Some u))
  | Some _ => ret tt
  end ;;
  _generate_runtime_meta docker_image_name memory.

End Lifecycle.

End Knative.

(** ** [compute.py]: class [Compute] *)

(** The methods a backend module's [ComputeBackend] class offers to
    [Compute]; [h_invoke] is [invoke] called with three arguments, so with
    [return_result=False]. *)
Record ComputeBackend : Type := {
  h_invoke : string -> Z -> gmap string json -> M json;
  h_create_runtime : string -> Z -> Z -> M json;
  h_delete_runtime : string -> Z -> M unit;
  h_delete_all_runtimes : M unit;
  h_list_runtimes : string -> M (list (string * Z))
}.

Record Compute : Type := {
  invocation_retry : bool;
  retry_sleeps : list Z;
  retries : Z;
  compute_handler : ComputeBackend
}.

Module ComputeM.

(** [random.choice(seq)]: [IndexError] on an empty sequence. *)
Definition random_choice (seq : list Z) : M Z :=
  fun w =>
    match seq with
    | [] => (Raise IndexError, w)
    | x :: _ =>
        let i := (rand w (rand_drawn w) mod length seq)%nat in
        (Ok (nth i seq x), set_rand_drawn (S (rand_drawn w)) w)
    end.

(** The body of the [while] loop of [invoke], after [attempts += 1]. *)
Definition retry_body (self : Compute) (runtime_name : string) (memory : Z)
    (payload : gmap string json) : M json :=
  selected_sleep <- random_choice (retry_sleeps self) ;;
  exec_id <- lookup_key payload "executor_id" ;;
  call_id <- lookup_key payload "call_id" ;;
  sleep selected_sleep ;;
  h_invoke (compute_handler self) runtime_name memory payload.

(** [while not act_id and self.invocation_retry and attempts < self.retries] *)
Equations? retry_loop (self : Compute) (runtime_name : string) (memory : Z)
    (payload : gmap string json) (act_id : json) (attempts : Z) (w : world)
  : result json * world by wf (Z.to_nat (retries self - attempts)) lt :=
  retry_loop self runtime_name memory payload act_id attempts w
    with Z_lt_dec attempts (retries self) => {
    | right _ := (Ok act_id, w)
    | left Hlt with negb (Json.truthy act_id) && invocation_retry self => {
      | false := (Ok act_id, w)
      | true with retry_body self runtime_name memory payload w => {
        | (Raise e, w') := (Raise e, w')
        | (Ok act_id', w') :=
            retry_loop self runtime_name memory payload act_id' (attempts + 1) w' } } }.
Proof. lia. Qed.

Definition invoke (self : Compute) (runtime_name : string) (memory : Z)
    (payload : gmap string json) : M json :=
  act_id <- h_invoke (compute_handler self) runtime_name memory payload ;;
  retry_loop self runtime_name memory payload act_id 1.

Definition create_runtime (self : Compute) (runtime_name : string) (memory timeout : Z)
  : M json :=
  h_create_runtime (compute_handler self) runtime_name memory timeout.

Definition delete_runtime (self : Compute) (runtime_name : string) (memory : Z) : M unit :=
  h_delete_runtime (compute_handler self) runtime_name memory.

Definition delete_all_runtimes (self : Compute) : M unit :=
  h_delete_all_runtimes (compute_handler self).

Definition list_runtimes (self : Compute) (runtime_name : string) : M (list (string * Z)) :=
  h_list_runtimes (compute_handler self) runtime_name.

End ComputeM.

(** The Knative backend as a [ComputeBackend]. *)
Definition knative_backend (kconfig : Kconfig) (__version__ this_version_str : string)
  : ComputeBackend :=
  {| h_invoke := fun name memory payload => Knative.invoke name memory payload false;
     h_create_runtime := Knative.create_runtime kconfig __version__ this_version_str;
     h_delete_runtime := Knative.delete_runtime;
     h_delete_all_runtimes := Knative.delete_all_runtimes;
     h_list_runtimes := Knative.list_runtimes |}.

(** ** [knative.py]: the constructor and the runtime key *)

Module PyPath.

Import PyStr.

(** [s.endswith(suf)] *)
Fixpoint endswith (suf s : string) : bool :=
  String.eqb suf s ||
  match s with
  | EmptyString => false
  | String _ s' => endswith suf s'
  end.

(** One round of the loop of [os.path.join] (POSIX): an absolute component
    starts the path again. *)
Definition join_step (path b : string) : string :=
  if startswith "/" b then b
  else if String.eqb path "" || endswith "/" path then path +:+ b
  else path +:+ "/" +:+ b.

(** [os.path.join(a, *p)] *)
Definition join (a : string) (p : list string) : string :=
  fold_left join_step p a.

End PyPath.

(** The parts of [urlparse(url)] that [get_runtime_key] reads. *)
Record ParseResult : Type := { netloc : string; path : string }.

(** What the constructor reads of the [istio-ingressgateway] service and
    of the nodes, as the typed client returns them: [spec.ports] with
    [port] and [node_port], [status.load_balancer.ingress] with [ip], and
    [status.addresses] with [address]. A field that may be [None] is an
    option. *)
Record V1ServicePort : Type := { port : Z; node_port : option Z }.
Record V1LoadBalancerIngress : Type := { ip : option string }.
Record V1Service : Type := {
  spec_ports : list V1ServicePort;
  load_balancer_ingress : option (list V1LoadBalancerIngress)
}.
Record V1NodeAddress : Type := { address : option string }.
Record V1Node : Type := { status_addresses : list V1NodeAddress }.

Module KnativeInit.

Import PyStr.

(** ['{}'.format(v)] of a value that may be [None]. *)
Definition format_opt {A} (show : A -> string) (v : option A) : string :=
  match v with
  | Some a => show a
  | None => "None"
  end.

(** [l[0]] *)
Definition first {A} (l : list A) : result A :=
  match l with
  | x :: _ => Ok x
  | [] => Raise IndexError
  end.

(** The body of the [try] of the constructor: the endpoint of the ingress
    gateway. [ingress] is what [read_namespaced_service] answers and
    [nodes] the items that [list_node] answers. *)
Definition ingress_endpoint (ingress : result V1Service)
    (nodes : result (list V1Node)) : result string :=
  match ingress with
  | Raise e => Raise e
  | Ok ingress =>
      match first (List.filter (fun p => port p =? 80) (spec_ports ingress)) with
      | Raise e => Raise e
      | Ok p80 =>
          let http_port := node_port p80 in
          match first (List.filter (fun p => port p =? 443) (spec_ports ingress)) with
          | Raise e => Raise e
          | Ok p443 =>
              let https_port := node_port p443 in
              match
                match load_balancer_ingress ingress with
                | Some lb =>
                    (* get loadbalancer ip *)
                    match first lb with
                    | Raise e => Raise e
                    | Ok i => Ok (ip i)
                    end
                | None =>
                    (* for minikube or a baremetal cluster that has no
                       external load balancer *)
                    match nodes with
                    | Raise e => Raise e
                    | Ok items =>
                        match first items with
                        | Raise e => Raise e
                        | Ok node =>
                            match first (status_addresses node) with
                            | Raise e => Raise e
                            | Ok a => Ok (address a)
                            end
                        end
                    end
                end
              with
              | Raise e => Raise e
              | Ok ip =>
                  Ok ("http://" +:+ format_opt id ip +:+ ":" +:+ format_opt str http_port)
              end
          end
      end
  end.

(** [__init__]: the attributes of the new backend, in a world whose
    cluster and network are those of [env]. [context] is the ['context']
    entry of the current kube-config context. An exception of the ingress
    lookup is logged and leaves [self.endpoint] as it was. *)
Definition __init__ (knative_config : gmap string string)
    (context : gmap string string) (ingress : result V1Service)
    (nodes : result (list V1Node)) (env : world) : world :=
  {| knative_config := knative_config;
     endpoint :=
       match knative_config !! "endpoint" with
       | Some e => Some e
       | None =>
           match ingress_endpoint ingress nodes with
           | Ok e => Some e
           | Raise _ => None
           end
       end;
     service_hosts := ∅;
     namespace := default "default" (context !! "namespace");
     headers := {[ "content-type" := "application/json" ]};
     objects := objects env;
     service_events := service_events env;
     taskrun_events := taskrun_events env;
     pod_events := pod_events env;
     registry := registry env;
     connection := connection env;
     http := http env;
     http_sent := http_sent env;
     rand := rand env;
     rand_drawn := rand_drawn env;
     slept := slept env |}.

(** [get_runtime_key]; [urlparse] is the library's parser and [cluster]
    the value of [self.cluster]. *)
Definition get_runtime_key (urlparse : string -> ParseResult) (cluster : string)
    (docker_image_name : string) (runtime_memory : Z) : M string :=
  let service_name := Knative._format_service_name docker_image_name runtime_memory in
  let cluster_key :=
    if negb (String.eqb (netloc (urlparse cluster)) "") then netloc (urlparse cluster)
    else path (urlparse cluster) in
  ns <- gets namespace ;;
  ret (PyPath.join cluster_key [ns; service_name]).

End KnativeInit.

(** * Vocabulary of the statements *)

Module Spec.

Import PyStr.

(** Character-wise substitution, the meaning of [replace] for a pattern of
    one character. *)
Fixpoint subst_char (a : ascii) (new s : string) : string :=
  match s with
  | EmptyString => EmptyString
  | String x s' =>
      if Ascii.eqb a x then new +:+ subst_char a new s'
      else String x (subst_char a new s')
  end.

(** The image part of a service name: every ['/'] and [':'] becomes
    ["--"]. *)
Fixpoint enc (s : string) : string :=
  match s with
  | EmptyString => EmptyString
  | String x s' =>
      if Ascii.eqb "/" x || Ascii.eqb ":" x then "--" +:+ enc s'
      else String x (enc s')
  end.

(** Absence of a character. *)
Fixpoint no_char (a : ascii) (s : string) : bool :=
  match s with
  | EmptyString => true
  | String x s' => negb (Ascii.eqb a x) && no_char a s'
  end.

(** Where a ['/'] may stand in an image name that decodes to itself: no
    [':'] before the first ['/'] and no second ['/']. *)
Fixpoint shape_ok (s : string) : bool :=
  match s with
  | EmptyString => true
  | String x s' =>
      if Ascii.eqb "/" x then no_char "/" s'
      else if Ascii.eqb ":" x then false
      else shape_ok s'
  end.

(** Decimal numerals. *)
Fixpoint all_digits (s : string) : bool :=
  match s with
  | EmptyString => true
  | String x s' => isdigit x && all_digits s'
  end.

(** Image names that a service name gives back: a ['/'] only as the first
    separator, at most one of it, no ["--"], and no ['-'] directly before a
    separator. *)
Definition decodable_image (s : string) : bool :=
  shape_ok s && negb (contains "--" s) && negb (contains "-/" s)
  && negb (contains "-:" s).

(** The services of the namespace, as [list_namespaced_custom_object]
    returns their bodies. *)
Definition services (w : world) : list json :=
  List.map r_body (List.filter (fun r => String.eqb (r_plural r) "services") (objects w)).

(** A service carries the ownership label when
    [spec.template.metadata.labels.type] is ['pywren-runtime']. *)
Definition has_ownership_label (service : json) : bool :=
  match Json.get_path service ["spec"; "template"; "metadata"; "labels"; "type"] with
  | Ok ty => Json.eq_str ty "pywren-runtime"
  | Raise _ => false
  end.

(** The [(image, memory)] pair that the name of a service decodes to, when
    it does. *)
Definition decoded (service : json) : option (string * Z) :=
  match Api.name_of service with
  | Some name =>
      match Knative._unformat_service_name name with
      | Ok r => Some r
      | Raise _ => None
      end
  | None => None
  end.

Definition owned_runtime (service : json) : option (string * Z) :=
  if has_ownership_label service then decoded service else None.

(** The runtimes of a namespace: its labelled services that decode, in the
    order of the listing. *)
Definition owned_runtimes (w : world) : list (string * Z) :=
  omap owned_runtime (services w).

(** The service names that [delete_all_runtimes] asks the cluster to
    delete: the names that the listed pairs encode to. *)
Definition deletion_targets (w : world) : list string :=
  List.map (fun r => Knative._format_service_name (fst r) (snd r)) (owned_runtimes w).

Definition is_target (targets : list string) (r : resource) : bool :=
  existsb (fun n => Api.is_obj "services" n r) targets.

(** The world after the pause between two attempts of [Compute.invoke]: one
    draw of [random.choice(self.retry_sleeps)] and the sleep of that
    length. *)
Definition pause (self : Compute) (w : world) : world :=
  match retry_sleeps self with
  | [] => w
  | x :: _ =>
      let i := (rand w (rand_drawn w) mod length (retry_sleeps self))%nat in
      set_slept (slept w ++ [nth i (retry_sleeps self) x])
                (set_rand_drawn (S (rand_drawn w)) w)
  end.

(** The number of POST requests sent so far. *)
Definition posts (w : world) : nat := length (http_sent w).

(** A condition whose [status] is ['True']. *)
Definition has_true_status (c : json) : bool :=
  match Json.getitem c "status" with
  | Ok s => Json.eq_str s "True"
  | Raise _ => false
  end.

Definition has_type (ty : string) (c : json) : bool :=
  match Json.getitem c "type" with
  | Ok t => Json.eq_str t ty
  | Raise _ => false
  end.

(** Readiness by condition type, as the specification words it: every
    required type has a condition in the array, and that condition
    reports true. *)
Definition ready_by_type (required : list string) (conditions : list json) : bool :=
  forallb (fun ty =>
             match List.find (has_type ty) conditions with
             | Some c => has_true_status c
             | None => false
             end) required.

(** The [status.conditions] of the object of an event, when it has them. *)
Definition event_conditions (object : json) : list json :=
  match Json.get_path object ["status"; "conditions"] with
  | Ok (JList l) => l
  | _ => []
  end.

(** A condition type has been observed true in a stream of events. *)
Definition observed_true (ty : string) (events : list json) : bool :=
  existsb (fun object =>
             existsb (fun c => has_type ty c && has_true_status c)
                     (event_conditions object)) events.

(** The object of an event makes the watch loop of [_create_service]
    stop. *)
Definition ready_event (object : json) : Prop :=
  exists st conditions,
    Json.getitem object "status" = Ok st
    /\ Json.getitem st "conditions" = Ok conditions
    /\ Knative.conditions_ready conditions = Ok true.

(** What [create_runtime] does once the image name is settled: create the
    service, record the endpoint when none is known, and probe the
    runtime's metadata. *)
Definition deploy (kconfig : Kconfig) (version : string) (docker_image_name : string)
    (memory timeout : Z) : M json :=
  service_url <- Knative._create_service kconfig version docker_image_name memory timeout ;;
  ep <- gets endpoint ;;
  match ep with
  | None => u <- lift (Knative.url_string service_url) ;; modify (set_endpoint (Some u))
  | Some _ => ret tt
  end ;;
  Knative._generate_runtime_meta docker_image_name memory.

(** The tag that the build gives the image and the service refers to. *)
Definition revision (version : string) : string :=
  if PyStr.contains "SNAPSHOT" version then "latest" else version.

End Spec.

(** * Concrete worlds, for the examples *)

Module Sample.

(** A Knative service document with the given name, label value and,
    when given, status. *)
Definition service (name label : string) (st : option json) : json :=
  JObj ([("metadata", JObj [("name", JStr name)]);
         ("spec", JObj [("template",
            JObj [("metadata", JObj [("labels", JObj [("type", JStr label)])])])])]
        ++ match st with Some s => [("status", s)] | None => [] end).

Definition svc (name label : string) (st : option json) : resource :=
  {| r_plural := "services"; r_body := service name label st |}.

Definition condition (type status : string) : json :=
  JObj [("type", JStr type); ("status", JStr status)].

(** A namespace with nothing in it, no cached host, and a network that
    refuses every connection. *)
Definition empty : world :=
  {| knative_config := {[ "docker_user" := "jsampe"; "docker_token" := "t0k3n";
                          "docker_repo" := "docker.io" ]};
     endpoint := None;
     service_hosts := ∅;
     namespace := "default";
     headers := {[ "content-type" := "application/json" ]};
     objects := [];
     service_events := fun _ => [];
     taskrun_events := fun _ => [];
     pod_events := fun _ => [];
     registry := fun _ _ => Ok 404;
     connection := fun _ => Ok tt;
     http := fun _ => HttpFail ConnectionError;
     http_sent := [];
     rand := fun _ => O;
     rand_drawn := O;
     slept := [] |}.

Definition with_http (f : nat -> http_outcome) (w : world) : world :=
  {| knative_config := knative_config w; endpoint := endpoint w;
     service_hosts := service_hosts w; namespace := namespace w;
     headers := headers w; objects := objects w;
     service_events := service_events w; taskrun_events := taskrun_events w;
     pod_events := pod_events w; registry := registry w;
     connection := connection w; http := f;
     http_sent := http_sent w; rand := rand w; rand_drawn := rand_drawn w;
     slept := slept w |}.


(** The invocation payload of a function call. *)
Definition payload : gmap string json :=
  {[ "executor_id" := JStr "e1"; "job_id" := JStr "j1"; "call_id" := JStr "00001" ]}.

(** Constants and templates in the shape of the backend's [config]
    module. *)
Definition kconfig : Kconfig :=
  {| RUNTIME_DEFAULT_35 := "<USER>/pywren-kn-runtime-v35";
     RUNTIME_DEFAULT_36 := "<USER>/pywren-kn-runtime-v36";
     RUNTIME_DEFAULT_37 := "<USER>/pywren-kn-runtime-v37";
     DOCKER_REPO_DEFAULT := "docker.io";
     GIT_URL_DEFAULT := "https://github.com/pywren/pywren-ibm-cloud";
     secret_res :=
       JObj [("apiVersion", JStr "v1"); ("kind", JStr "Secret");
             ("metadata", JObj [("name", JStr "dockerhub-user-token");
                                ("annotations",
                                 JObj [("tekton.dev/docker-0",
                                        JStr "https://index.docker.io/v1/")])]);
             ("type", JStr "kubernetes.io/basic-auth")];
     account_res :=
       JObj [("apiVersion", JStr "v1"); ("kind", JStr "ServiceAccount");
             ("metadata", JObj [("name", JStr "pywren-build-pipeline")]);
             ("secrets", JList [JObj [("name", JStr "dockerhub-user-token")]])];
     git_res :=
       JObj [("apiVersion", JStr "tekton.dev/v1alpha1");
             ("kind", JStr "PipelineResource");
             ("metadata", JObj [("name", JStr "pywren-git")]);
             ("spec", JObj [("type", JStr "git"); ("params", JList [])])];
     task_def :=
       JObj [("apiVersion", JStr "tekton.dev/v1alpha1"); ("kind", JStr "Task");
             ("metadata", JObj [("name", JStr "git-source-to-image")]);
             ("spec", JObj [("steps", JList [])])];
     task_run :=
       JObj [("apiVersion", JStr "tekton.dev/v1alpha1"); ("kind", JStr "TaskRun");
             ("metadata", JObj [("name", JStr "image-from-git")]);
             ("spec", JObj [("serviceAccount", JStr "pywren-build-pipeline");
                            ("taskRef", JObj [("name", JStr "git-source-to-image")]);
                            ("inputs", JObj [("params", JList [])])])];
     service_res :=
       JObj [("apiVersion", JStr "serving.knative.dev/v1alpha1");
             ("kind", JStr "Service");
             ("metadata", JObj [("name", JStr "pywren-runtime");
                                ("namespace", JStr "default")]);
             ("spec", JObj [("template",
                JObj [("metadata", JObj [("labels", JObj [("type", JStr "pywren-runtime")])]);
                      ("spec", JObj [("containerConcurrency", JNum 1);
                                     ("timeoutSeconds", JNum 300);
                                     ("container",
                                      JObj [("image", JStr "IMAGE");
                                            ("resources",
                                             JObj [("limits",
                                                    JObj [("memory", JStr "256Mi");
                                                          ("cpu", JStr "1000m")])])])])])])] |}.

(** A [Compute] object on the Knative backend, with retries enabled and at
    most three attempts. *)
Definition compute (max_attempts : Z) : Compute :=
  {| invocation_retry := true;
     retry_sleeps := [1; 5; 10];
     retries := max_attempts;
     compute_handler := knative_backend kconfig "1.2.0" "3.7" |}.

(** A world in which the runtime [jsampe/kn-runtime] with 256 MB is
    deployed, its host is cached and the endpoint is known. *)
Definition deployed : world :=
  set_endpoint (Some "http://10.0.0.1:31380")
    (set_service_hosts {[ "jsampe--kn-runtime--256mb" := "kn.default.example.com" ]}
       (set_objects [svc "jsampe--kn-runtime--256mb" "pywren-runtime"
                         (Some (JObj [("url", JStr "http://kn.default.example.com")]))]
          empty)).

Definition with_connection (f : string -> result unit) (w : world) : world :=
  {| knative_config := knative_config w; endpoint := endpoint w;
     service_hosts := service_hosts w; namespace := namespace w;
     headers := headers w; objects := objects w;
     service_events := service_events w; taskrun_events := taskrun_events w;
     pod_events := pod_events w; registry := registry w;
     connection := f; http := http w;
     http_sent := http_sent w; rand := rand w; rand_drawn := rand_drawn w;
     slept := slept w |}.

(** The deployed runtime behind an endpoint whose port is not a number,
    as the constructor makes it for a gateway without a node port; the
    HTTP library refuses it. *)
Definition unreadable_port : world :=
  with_connection
    (fun ep => if String.eqb ep "http://10.0.0.1:None" then Raise InvalidURL else Ok tt)
    (set_endpoint (Some "http://10.0.0.1:None") deployed).

Definition with_events (sv : string -> list json) (tr : json -> list json)
    (pods : json -> list V1Pod) (w : world) : world :=
  {| knative_config := knative_config w; endpoint := endpoint w;
     service_hosts := service_hosts w; namespace := namespace w;
     headers := headers w; objects := objects w;
     service_events := sv; taskrun_events := tr;
     pod_events := pods; registry := registry w;
     connection := connection w; http := http w;
     http_sent := http_sent w; rand := rand w; rand_drawn := rand_drawn w;
     slept := slept w |}.

Definition pod (ph : string) : V1Pod := {| status := Some {| phase := Some ph |} |}.

Definition ready_conditions : json :=
  JList [condition "ConfigurationsReady" "True"; condition "Ready" "True";
         condition "RoutesReady" "True"].

(** A cluster that builds the image and brings the service up: the task
    run is given a pod, the pod runs and succeeds, the service becomes
    ready at its second event, and the runtime answers the probe. *)
Definition building : world :=
  with_http
    (fun _ => HttpResponse 200 (Some (JObj [("preinstalls", JList [JStr "numpy"])])))
    (with_events
       (fun name =>
          [service name "pywren-runtime" None;
           service name "pywren-runtime"
             (Some (JObj [("conditions", ready_conditions);
                          ("url", JStr ("http://" +:+ name +:+ ".default.example.com"))]))])
       (fun _ => [JObj [("metadata", JObj [("name", JStr "image-from-git")])];
                  JObj [("metadata", JObj [("name", JStr "image-from-git")]);
                        ("status", JObj [("podName", JStr "image-from-git-pod-1")])]])
       (fun _ => [pod "Pending"; pod "Running"; pod "Succeeded"])
       empty).

End Sample.

(** * Further vocabulary *)

Module More.

(** What [invoke] returns for the outcome of its request. *)
Definition invocation_result (return_result : bool) (outcome : http_outcome) : json :=
  match outcome with
  | HttpFail _ => JNull
  | HttpResponse st data =>
      if (st =? 200) || (st =? 202) then
        match data with
        | Some d =>
            if return_result then d
            else match Json.getitem d "activationId" with
                 | Ok a => a
                 | Raise _ => JNull
                 end
        | None => JNull
        end
      else JNull
  end.

(** The request that [invoke] sends for a runtime whose host is [host]. *)
Definition request_of (host : string) (payload : gmap string json) (w : world)
  : http_request :=
  {| rq_endpoint := default ("http://" +:+ host) (endpoint w);
     rq_route := default (JStr "/") (payload !! "service_route");
     rq_headers := <["Host" := host]> (headers w);
     rq_payload := payload |}.

(** The endpoint that [invoke] addresses for a runtime whose host is
    [host]: the known one, or the host itself. *)
Definition endpoint_for (host : string) (w : world) : string :=
  default ("http://" +:+ host) (endpoint w).

(** The state in which [invoke] enters its [try], in a world where the
    host is known: the [Host] header and the endpoint are set. *)
Definition before_post (host : string) (w : world) : world :=
  set_endpoint (Some (endpoint_for host w))
    (set_headers (<["Host" := host]> (headers w)) w).

(** The state in which [invoke] leaves a world where the host is known,
    when it has sent its request. *)
Definition after_invoke (host : string) (payload : gmap string json) (w : world)
  : world :=
  set_http_sent (http_sent w ++ [request_of host payload w]) (before_post host w).

(** Every labelled service of the namespace bears a name that
    [_format_service_name] makes: the namespace holds no labelled service
    but those that the backend created. *)
Definition system_names (w : world) : Prop :=
  forall service,
    In service (Spec.services w) -> Spec.has_ownership_label service = true ->
    exists image memory,
      0 <= memory
      /\ Api.name_of service = Some (Knative._format_service_name image memory).

(** Two paths of keys part ways: at some position, after equal keys, they
    have different keys. Neither is then a prefix of the other. *)
Fixpoint diverge (p q : list string) : bool :=
  match p, q with
  | a :: p', b :: q' => if String.eqb a b then diverge p' q' else true
  | _, _ => false
  end.

(** The paths of the fields that [_create_service] writes in the service
    template. *)
Definition written_paths : list (list string) :=
  [["metadata"; "name"];
   ["metadata"; "namespace"];
   ["spec"; "template"; "spec"; "timeoutSeconds"];
   ["spec"; "template"; "spec"; "container"; "image"];
   ["spec"; "template"; "spec"; "container"; "resources"; "limits"; "memory"]].

(** A computation keeps the host cache, whatever its outcome; and a
    computation keeps it whenever it raises. *)
Definition keeps_hosts {A} (m : M A) : Prop :=
  forall w r w', m w = (r, w') -> service_hosts w' = service_hosts w.

Definition raises_keeping_hosts {A} (m : M A) : Prop :=
  forall w e w', m w = (Raise e, w') -> service_hosts w' = service_hosts w.



End More.

(** * Properties *)

(** ** Python string primitives *)

Example replace_ex1 : PyStr.replace "--" "/" 1 "a--b--c" = "a/b--c".
Proof. reflexivity. Qed.
Example replace_ex2 : PyStr.replace "--" ":" (-1) "a---b----c" = "a:-b::c".
Proof. reflexivity. Qed.
Example replace_ex3 : PyStr.replace "" "-" 2 "abc" = "-a-bc".
Proof. reflexivity. Qed.
Example rsplit_ex1 : PyStr.rsplit1 "--" "a--b---256mb" = Some ("a--b-", "256mb").
Proof. reflexivity. Qed.
Example int_ex1 : PyStr.int " +1_000 " = Some 1000.
Proof. reflexivity. Qed.
Example int_ex2 : PyStr.int "1__0" = None /\ PyStr.int "" = None /\ PyStr.int "-" = None
   /\ PyStr.int "0256" = Some 256 /\ PyStr.int "-7" = Some (-7) /\ PyStr.int "bar" = None.
Proof. repeat split; reflexivity. Qed.
Example str_ex1 : PyStr.str 256 = "256" /\ PyStr.str 0 = "0" /\ PyStr.str (-5) = "-5".
Proof. repeat split; reflexivity. Qed.

Module PyStrFacts.

Import PyStr Spec.

#[local] Arguments Ascii.eqb : simpl never.

Lemma replace_ne_zero a o n s : replace_ne a o n 0 s = s.
Proof. destruct s; simp replace_ne; reflexivity. Qed.

Lemma replace_ne_miss a o n c x s :
  c <> 0 -> startswith (String a o) (String x s) = false ->
  replace_ne a o n c (String x s) = String x (replace_ne a o n c s).
Proof.
  intros Hc Hp. rewrite replace_ne_equation_2.
  destruct (Z.eqb_spec c 0) as [|_]; [contradiction|].
  rewrite replace_ne_clause_2_equation_2, Hp.
  apply replace_ne_clause_2_clause_2_equation_2.
Qed.

Lemma replace_ne_hit a o n c x s :
  c <> 0 -> startswith (String a o) (String x s) = true ->
  replace_ne a o n c (String x s)
  = n +:+ replace_ne a o n (c - 1) (skip (String.length o) s).
Proof.
  intros Hc Hp. rewrite replace_ne_equation_2.
  destruct (Z.eqb_spec c 0) as [|_]; [contradiction|].
  rewrite replace_ne_clause_2_equation_2, Hp.
  apply replace_ne_clause_2_clause_2_equation_1.
Qed.

Lemma length_skip_le n s : (String.length (skip n s) <= String.length s)%nat.
Proof.
  revert s. induction n as [|n IH]; intros s; [simpl; lia|].
  destruct s as [|x s]; simpl; [lia|]. specialize (IH s). lia.
Qed.

(** With a negative count the number of replacements is not limited. *)
Lemma replace_ne_neg_indep a o n k :
  forall s c c', (String.length s <= k)%nat -> c < 0 -> c' < 0 ->
  replace_ne a o n c s = replace_ne a o n c' s.
Proof.
  induction k as [|k IH]; intros s c c' Hlen Hc Hc'.
  - destruct s; [reflexivity | simpl in Hlen; lia].
  - destruct s as [|x s]; [reflexivity|]. simpl in Hlen.
    destruct (startswith (String a o) (String x s)) eqn:Hp.
    + rewrite !replace_ne_hit by (assumption || lia). f_equal.
      apply IH; try lia. pose proof (length_skip_le (String.length o) s). lia.
    + rewrite !replace_ne_miss by (assumption || lia). f_equal.
      apply IH; lia.
Qed.

Lemma replace_ne_neg_hit a o n c x s :
  c < 0 -> startswith (String a o) (String x s) = true ->
  replace_ne a o n c (String x s)
  = n +:+ replace_ne a o n c (skip (String.length o) s).
Proof.
  intros Hc Hp. rewrite replace_ne_hit by (assumption || lia). f_equal.
  apply (replace_ne_neg_indep _ _ _ (String.length (skip (String.length o) s))); lia.
Qed.

Lemma startswith_char a x s :
  startswith (String a EmptyString) (String x s) = Ascii.eqb a x.
Proof. simpl. apply andb_true_r. Qed.

Lemma replace_char_all a n c s :
  c < 0 -> replace (String a EmptyString) n c s = subst_char a n s.
Proof.
  intros Hc. unfold replace. induction s as [|x s IH]; [reflexivity|].
  simpl subst_char. destruct (Ascii.eqb a x) eqn:E.
  - rewrite replace_ne_neg_hit; [|assumption|rewrite startswith_char; assumption].
    simpl skip. rewrite IH. reflexivity.
  - rewrite replace_ne_miss; [|lia|rewrite startswith_char; assumption].
    rewrite IH. reflexivity.
Qed.

Lemma subst_colon_dashes s :
  subst_char ":" "--" ("--" +:+ s) = "--" +:+ subst_char ":" "--" s.
Proof. reflexivity. Qed.

Lemma enc_replace s : replace ":" "--" (-1) (replace "/" "--" (-1) s) = enc s.
Proof.
  rewrite !replace_char_all by lia.
  induction s as [|x s IH]; [reflexivity|]. cbn [subst_char enc].
  destruct (Ascii.eqb "/" x) eqn:E1.
  - rewrite subst_colon_dashes, IH. reflexivity.
  - cbn [subst_char orb]. destruct (Ascii.eqb ":" x) eqn:E2; rewrite IH; reflexivity.
Qed.

Lemma contains_cons sub x s :
  contains sub (String x s) = false ->
  startswith sub (String x s) = false /\ contains sub s = false.
Proof. simpl contains at 1. intros H. apply orb_false_iff in H. exact H. Qed.

Lemma enc_no_slash s :
  no_char "/" s = true -> enc s = subst_char ":" "--" s.
Proof.
  induction s as [|x s IH]; [reflexivity|]. simpl. intros H.
  apply andb_true_iff in H as [H1 H2]. apply negb_true_iff in H1.
  rewrite H1, IH by assumption. reflexivity.
Qed.


Lemma startswith_cons a p x s :
  startswith (String a p) (String x s) = Ascii.eqb a x && startswith p s.
Proof. reflexivity. Qed.

Lemma startswith_dash_enc t :
  startswith "-" t = false -> startswith "/" t = false ->
  startswith ":" t = false -> startswith "-" (enc t) = false.
Proof.
  destruct t as [|y t]; [reflexivity|].
  rewrite !startswith_char. intros H1 H2 H3. cbn [enc].
  rewrite H2, H3. cbn [orb]. rewrite startswith_char. exact H1.
Qed.

Lemma startswith_dash_subst t :
  startswith "-" t = false -> startswith ":" t = false ->
  startswith "-" (subst_char ":" "--" t) = false.
Proof.
  destruct t as [|y t]; [reflexivity|].
  rewrite !startswith_char. intros H1 H3. cbn [subst_char].
  rewrite H3. rewrite startswith_char. exact H1.
Qed.

Lemma startswith_2 a b x s :
  startswith (String a (String b EmptyString)) (String x s)
  = Ascii.eqb a x && startswith (String b EmptyString) s.
Proof. reflexivity. Qed.

(** Decoding, second step: turning the remaining ["--"] into [':']. *)
Lemma replace_dashes_colon s c :
  c < 0 -> contains "--" s = false -> contains "-:" s = false ->
  replace "--" ":" c (subst_char ":" "--" s) = s.
Proof.
  intros Hc. unfold replace. induction s as [|x s IH]; intros H1 H2; [reflexivity|].
  apply contains_cons in H1 as [P1 C1]. apply contains_cons in H2 as [P2 C2].
  rewrite startswith_2 in P1, P2. cbn [subst_char].
  destruct (Ascii.eqb_spec ":" x) as [<-|Hx].
  - change ("--" +:+ subst_char ":" "--" s)
      with (String "-" (String "-" (subst_char ":" "--" s))).
    rewrite replace_ne_neg_hit by (assumption || reflexivity).
    cbn [skip String.length]. rewrite IH by assumption. reflexivity.
  - rewrite replace_ne_miss; [rewrite IH by assumption; reflexivity | lia |].
    rewrite startswith_2. destruct (Ascii.eqb_spec "-" x) as [<-|Hd]; [|reflexivity].
    cbn [andb] in *. apply startswith_dash_subst; assumption.
Qed.

(** Decoding, first step: the first ["--"] becomes ['/']. *)
Lemma replace_first_dashes s :
  shape_ok s = true -> contains "--" s = false -> contains "-/" s = false ->
  contains "-:" s = false ->
  replace "--" "/" 1 (enc s) = subst_char ":" "--" s.
Proof.
  unfold replace. induction s as [|x s IH]; intros Hs H1 H2 H3; [reflexivity|].
  apply contains_cons in H1 as [P1 C1]. apply contains_cons in H2 as [P2 C2].
  apply contains_cons in H3 as [P3 C3].
  rewrite startswith_2 in P1, P2, P3. cbn [shape_ok] in Hs. cbn [enc subst_char].
  destruct (Ascii.eqb_spec "/" x) as [<-|Hx].
  - cbn [orb]. change (Ascii.eqb ":" "/") with false. cbv iota.
    change ("--" +:+ enc s) with (String "-" (String "-" (enc s))).
    rewrite replace_ne_hit by (lia || reflexivity).
    cbn [skip String.length]. change (1 - 1) with 0. rewrite replace_ne_zero.
    rewrite enc_no_slash by assumption. reflexivity.
  - cbn [orb]. destruct (Ascii.eqb_spec ":" x) as [<-|Hc]; [discriminate|].
    rewrite replace_ne_miss; [rewrite IH by assumption; reflexivity | lia |].
    rewrite startswith_2. destruct (Ascii.eqb_spec "-" x) as [<-|Hd]; [|reflexivity].
    cbn [andb] in *. apply startswith_dash_enc; assumption.
Qed.

(** Encoding undoes both steps of the decoding, on any string. *)
Lemma enc_replace_dashes new k :
  new = "/" \/ new = ":" ->
  forall s c, (String.length s <= k)%nat -> enc (replace "--" new c s) = enc s.
Proof.
  intros Hnew. unfold replace.
  induction k as [|k IH]; intros s c Hlen.
  - destruct s; [reflexivity | simpl in Hlen; lia].
  - destruct s as [|x s]; [reflexivity|]. simpl in Hlen.
    destruct (Z.eqb_spec c 0) as [->|Hc]; [rewrite replace_ne_zero; reflexivity|].
    destruct (startswith "--" (String x s)) eqn:Hp.
    + rewrite replace_ne_hit by assumption.
      rewrite startswith_2 in Hp. apply andb_true_iff in Hp as [Hx Hs].
      apply Ascii.eqb_eq in Hx. subst x.
      destruct s as [|y s]; [discriminate|].
      rewrite startswith_char in Hs. apply Ascii.eqb_eq in Hs. subst y.
      cbn [skip String.length]. simpl in Hlen.
      assert (E : enc (replace_ne "-" "-" new (c - 1) s) = enc s) by (apply IH; lia).
      destruct Hnew as [-> | ->].
      * change (enc ("/" +:+ replace_ne "-" "-" "/" (c - 1) s))
          with (String "-" (String "-" (enc (replace_ne "-" "-" "/" (c - 1) s)))).
        rewrite E. reflexivity.
      * change (enc (":" +:+ replace_ne "-" "-" ":" (c - 1) s))
          with (String "-" (String "-" (enc (replace_ne "-" "-" ":" (c - 1) s)))).
        rewrite E. reflexivity.
    + rewrite replace_ne_miss by assumption. cbn [enc].
      rewrite IH by lia. reflexivity.
Qed.

Lemma enc_idempotent s : enc (enc s) = enc s.
Proof.
  induction s as [|x s IH]; [reflexivity|]. cbn [enc].
  destruct (Ascii.eqb "/" x || Ascii.eqb ":" x) eqn:E.
  - change (enc ("--" +:+ enc s)) with (String "-" (String "-" (enc (enc s)))).
    rewrite IH. reflexivity.
  - cbn [enc]. rewrite E, IH. reflexivity.
Qed.

(** [rsplit] after the last separator. *)
Lemma rsplit1_no_dash t : no_char "-" t = true -> rsplit1 "--" t = None.
Proof.
  induction t as [|x t IH]; [reflexivity|]. cbn [no_char]. intros H.
  apply andb_true_iff in H as [H1 H2]. apply negb_true_iff in H1.
  cbn [rsplit1]. rewrite IH by assumption. rewrite startswith_2, H1. reflexivity.
Qed.

Lemma rsplit1_last a b :
  no_char "-" b = true -> b <> EmptyString ->
  rsplit1 "--" (a +:+ "--" +:+ b) = Some (a, b).
Proof.
  intros Hb Hne. induction a as [|x a IH].
  - change ("" +:+ "--" +:+ b) with (String "-" (String "-" b)).
    cbn [rsplit1]. rewrite rsplit1_no_dash by assumption.
    destruct b as [|y b]; [contradiction|].
    cbn [no_char] in Hb. apply andb_true_iff in Hb as [H1 H2].
    apply negb_true_iff in H1. rewrite startswith_2, startswith_char, H1.
    reflexivity.
  - change (String x a +:+ "--" +:+ b) with (String x (a +:+ "--" +:+ b)).
    cbn [rsplit1]. rewrite IH. reflexivity.
Qed.

Lemma all_digits_uint d : all_digits (NilEmpty.string_of_uint d) = true.
Proof. induction d; simpl; auto. Qed.

Lemma str_nonneg n :
  0 <= n ->
  exists d, str n = NilEmpty.string_of_uint d /\ str n <> EmptyString
            /\ Z.of_uint d = n.
Proof.
  intros Hn. unfold str. destruct n as [|p|p]; [| |lia].
  - exists (Decimal.D0 Decimal.Nil). repeat split; discriminate.
  - pose proof (DecimalZ.of_to (Zpos p)) as Hz.
    change (Z.of_uint (Pos.to_uint p) = Zpos p) in Hz.
    change (Z.to_int (Zpos p)) with (Decimal.Pos (Pos.to_uint p)).
    change (NilZero.string_of_int (Decimal.Pos (Pos.to_uint p)))
      with (NilZero.string_of_uint (Pos.to_uint p)).
    exists (Pos.to_uint p). destruct (Pos.to_uint p) eqn:E;
      try (repeat split; (reflexivity || discriminate || exact Hz)).
Qed.

Lemma isdigit_not a x : isdigit a = false -> isdigit x = true -> Ascii.eqb a x = false.
Proof.
  intros Ha Hx. destruct (Ascii.eqb_spec a x) as [->|]; [congruence|reflexivity].
Qed.

Lemma all_digits_no_char a s :
  isdigit a = false -> all_digits s = true -> no_char a s = true.
Proof.
  intros Ha. induction s as [|x s IH]; [reflexivity|]. cbn [all_digits no_char].
  intros H. apply andb_true_iff in H as [H1 H2].
  rewrite (isdigit_not a x), IH by assumption. reflexivity.
Qed.

Lemma no_char_app a s t :
  no_char a (s +:+ t) = no_char a s && no_char a t.
Proof.
  induction s as [|x s IH]; [reflexivity|]. cbn [no_char String.app].
  change (String x s +:+ t) with (String x (s +:+ t)). cbn [no_char].
  rewrite IH, andb_assoc. reflexivity.
Qed.

(** [memory.replace('mb', '')] on a numeral followed by ["mb"]. *)
Lemma replace_mb ds : all_digits ds = true -> replace "mb" "" (-1) (ds +:+ "mb") = ds.
Proof.
  unfold replace. induction ds as [|x ds IH]; intros H.
  - reflexivity.
  - cbn [all_digits] in H. apply andb_true_iff in H as [H1 H2].
    change (String x ds +:+ "mb") with (String x (ds +:+ "mb")).
    rewrite replace_ne_miss; [rewrite IH by assumption; reflexivity | lia |].
    rewrite startswith_2, (isdigit_not "m" x) by (assumption || reflexivity).
    reflexivity.
Qed.

Lemma lstrip_digits s : all_digits s = true -> lstrip s = s.
Proof.
  destruct s as [|x s]; [reflexivity|]. cbn [all_digits lstrip]. intros H.
  apply andb_true_iff in H as [H1 _].
  destruct (isspace x) eqn:E; [|reflexivity].
  exfalso. revert H1 E. unfold isdigit, isspace.
  destruct (N_of_ascii x) as [|p]; intros H1 E; [discriminate|].
  apply andb_true_iff in H1 as [A B]. apply N.leb_le in A, B.
  apply orb_true_iff in E as [E|E].
  - apply andb_true_iff in E as [C D]. apply N.leb_le in C, D. lia.
  - apply N.eqb_eq in E. lia.
Qed.

Lemma isdigit_not_space x : isdigit x = true -> isspace x = false.
Proof.
  unfold isdigit, isspace. intros H1.
  apply andb_true_iff in H1 as [A B]. apply N.leb_le in A, B.
  apply orb_false_iff; split.
  - apply andb_false_iff. right. apply N.leb_gt. lia.
  - apply N.eqb_neq. lia.
Qed.

Lemma rstrip_digits s : all_digits s = true -> rstrip s = s.
Proof.
  induction s as [|x s IH]; [reflexivity|]. cbn [all_digits rstrip]. intros H.
  apply andb_true_iff in H as [H1 H2]. rewrite IH by assumption.
  destruct s; [|reflexivity]. rewrite isdigit_not_space by assumption. reflexivity.
Qed.

Lemma digits_of_digits s prev :
  all_digits s = true -> (prev = true \/ s <> EmptyString) ->
  digits_of prev s = Some s.
Proof.
  revert prev. induction s as [|x s IH]; intros prev H Hp.
  - destruct Hp as [->|Hp]; [reflexivity|contradiction].
  - cbn [all_digits] in H. apply andb_true_iff in H as [H1 H2].
    cbn [digits_of]. rewrite H1. rewrite IH; auto.
Qed.

Lemma int_str n : 0 <= n -> int (str n) = Some n.
Proof.
  intros Hn. destruct (str_nonneg n Hn) as (d & Hd & Hne & Hz).
  assert (Hall : all_digits (str n) = true) by (rewrite Hd; apply all_digits_uint).
  unfold int. rewrite lstrip_digits, rstrip_digits by assumption.
  destruct (str n) as [|c t] eqn:E; [contradiction|].
  pose proof Hall as Hall'. cbn [all_digits] in Hall'.
  apply andb_true_iff in Hall' as [Hc _].
  rewrite (Ascii.eqb_sym c "-"), (isdigit_not "-" c) by (assumption || reflexivity).
  rewrite (Ascii.eqb_sym c "+"), (isdigit_not "+" c) by (assumption || reflexivity).
  rewrite digits_of_digits by (assumption || (right; discriminate)).
  cbn [mbind option_bind]. unfold Z_of_digits. rewrite Hd, NilEmpty.usu.
  simpl. rewrite Hz. reflexivity.
Qed.

(** *** What the decoder produces *)

Lemma no_char_enc a s :
  a = "/"%char \/ a = ":"%char -> no_char a (enc s) = true.
Proof.
  intros Ha. induction s as [|x s IH]; [reflexivity|]. cbn [enc].
  destruct (Ascii.eqb "/" x || Ascii.eqb ":" x) eqn:E.
  - change ("--" +:+ enc s) with (String "-" (String "-" (enc s))).
    cbn [no_char]. rewrite IH. destruct Ha as [-> | ->]; reflexivity.
  - cbn [no_char]. rewrite IH, andb_true_r. apply orb_false_iff in E as [E1 E2].
    destruct Ha as [-> | ->]; [rewrite E1 | rewrite E2]; reflexivity.
Qed.

Lemma no_char_cons a x s :
  no_char a (String x s) = true -> Ascii.eqb a x = false /\ no_char a s = true.
Proof.
  cbn [no_char]. intros H. apply andb_true_iff in H as [H1 H2].
  apply negb_true_iff in H1. auto.
Qed.

Lemma no_char_contains a b s :
  no_char b s = true -> contains (String a (String b EmptyString)) s = false.
Proof.
  induction s as [|x s IH]; [reflexivity|]. intros H.
  pose proof H as H'. apply no_char_cons in H' as [_ Hs].
  cbn [contains]. rewrite IH by assumption. rewrite orb_false_r, startswith_2.
  destruct s as [|y s]; [apply andb_false_r|].
  apply no_char_cons in Hs as [Hy _]. rewrite startswith_char, Hy. apply andb_false_r.
Qed.

(** The output of the second step, on a string without separators. *)
Lemma replace_colon_output k :
  forall s c, (String.length s <= k)%nat -> c < 0 ->
  no_char "/" s = true -> no_char ":" s = true ->
  let o := replace "--" ":" c s in
  contains "--" o = false /\ contains "-:" o = false /\ no_char "/" o = true
  /\ (startswith "-" o = true -> startswith "-" s = true /\ startswith "--" s = false)
  /\ (startswith ":" o = true -> startswith "--" s = true).
Proof.
  unfold replace. induction k as [|k IH]; intros s c Hlen Hc Hs Hcol.
  - destruct s; [|simpl in Hlen; lia]. repeat split; try reflexivity; discriminate.
  - destruct s as [|x s]; [repeat split; try reflexivity; discriminate|].
    simpl in Hlen.
    pose proof Hs as Hs'. apply no_char_cons in Hs' as [Hx1 Hs1].
    pose proof Hcol as Hc'. apply no_char_cons in Hc' as [Hx2 Hs2].
    destruct (startswith "--" (String x s)) eqn:Hp.
    + rewrite replace_ne_neg_hit by assumption.
      rewrite startswith_2 in Hp. apply andb_true_iff in Hp as [Hx Hd].
      apply Ascii.eqb_eq in Hx. subst x.
      destruct s as [|y s]; [discriminate|].
      rewrite startswith_char in Hd. apply Ascii.eqb_eq in Hd. subst y.
      cbn [skip String.length]. simpl in Hlen.
      apply no_char_cons in Hs1 as [_ Hs1]. apply no_char_cons in Hs2 as [_ Hs2].
      destruct (IH s c) as (A & B & C & _ & _); try assumption; try lia.
      change (":" +:+ replace_ne "-" "-" ":" c s)
        with (String ":" (replace_ne "-" "-" ":" c s)).
      cbn [contains no_char]. rewrite A, B, C.
      repeat split; try reflexivity; discriminate.
    + rewrite replace_ne_miss by (assumption || lia).
      destruct (IH s c) as (A & B & C & D & E); try assumption; try lia.
      cbn [contains no_char]. rewrite A, B, C, Hx1, !orb_false_r. cbn [negb andb].
      rewrite !startswith_2, !startswith_char.
      rewrite startswith_2 in Hp.
      split; [|split; [|split; [reflexivity|split]]].
      * destruct (Ascii.eqb "-" x) eqn:Ex; [|reflexivity]. cbn [andb] in *.
        destruct (startswith "-" (replace_ne "-" "-" ":" c s)) eqn:F; [|reflexivity].
        destruct (D eq_refl) as [D1 _]. congruence.
      * destruct (Ascii.eqb "-" x) eqn:Ex; [|reflexivity]. cbn [andb] in *.
        destruct (startswith ":" (replace_ne "-" "-" ":" c s)) eqn:F; [|reflexivity].
        pose proof (E eq_refl) as E1.
        destruct s as [|y s]; [discriminate|].
        rewrite startswith_2 in E1. apply andb_true_iff in E1 as [E1 _].
        rewrite startswith_char in Hp. congruence.
      * intros H. split; [exact H | reflexivity].
      * intros H. congruence.
Qed.

Lemma startswith_dash_first s :
  startswith "-" (replace "--" "/" 1 s) = true -> startswith "-" s = true.
Proof.
  unfold replace. destruct s as [|x s]; [discriminate|].
  destruct (startswith "--" (String x s)) eqn:Hp.
  - rewrite replace_ne_hit by (assumption || lia). discriminate.
  - rewrite replace_ne_miss by (assumption || lia). rewrite !startswith_char. auto.
Qed.

(** The two steps of the decoder, seen as one scan. *)
Lemma decode_hit s :
  replace "--" ":" (-1) (replace "--" "/" 1 (String "-" (String "-" s)))
  = String "/" (replace "--" ":" (-1) s).
Proof.
  unfold replace. rewrite replace_ne_hit by (lia || reflexivity).
  cbn [skip String.length]. change (1 - 1) with 0. rewrite replace_ne_zero.
  change ("/" +:+ s) with (String "/" s).
  rewrite replace_ne_miss by (lia || reflexivity). reflexivity.
Qed.

Lemma decode_miss x s :
  startswith "--" (String x s) = false ->
  replace "--" ":" (-1) (replace "--" "/" 1 (String x s))
  = String x (replace "--" ":" (-1) (replace "--" "/" 1 s)).
Proof.
  intros Hp. unfold replace. rewrite (replace_ne_miss _ _ _ 1) by (assumption || lia).
  rewrite replace_ne_miss; [reflexivity | lia |].
  rewrite startswith_2 in *. destruct (Ascii.eqb "-" x); [|reflexivity].
  cbn [andb] in *.
  destruct (startswith "-" (replace_ne "-" "-" "/" 1 s)) eqn:F; [|reflexivity].
  apply (startswith_dash_first s) in F. congruence.
Qed.

Lemma decoded_output s :
  no_char "/" s = true -> no_char ":" s = true ->
  let o := replace "--" ":" (-1) (replace "--" "/" 1 s) in
  shape_ok o = true /\ contains "--" o = false /\ contains "-/" o = false
  /\ contains "-:" o = false
  /\ (startswith "-" o = true -> startswith "-" s = true /\ startswith "--" s = false)
  /\ (startswith "/" o = true -> startswith "--" s = true)
  /\ startswith ":" o = false.
Proof.
  induction s as [|x s IH]; intros Hs Hc.
  - repeat split; try reflexivity; discriminate.
  - pose proof Hs as Hs'. apply no_char_cons in Hs' as [Hx1 Hs1].
    pose proof Hc as Hc'. apply no_char_cons in Hc' as [Hx2 Hs2].
    destruct (startswith "--" (String x s)) eqn:Hp.
    + pose proof Hp as Hp'.
      rewrite startswith_2 in Hp'. apply andb_true_iff in Hp' as [Hx Hd].
      apply Ascii.eqb_eq in Hx. subst x.
      destruct s as [|y s]; [discriminate|].
      rewrite startswith_char in Hd. apply Ascii.eqb_eq in Hd. subst y.
      apply no_char_cons in Hs1 as [_ Hs1]. apply no_char_cons in Hs2 as [_ Hs2].
      rewrite decode_hit.
      destruct (replace_colon_output _ s (-1) (le_n _)) as (A & B & C & _ & _);
        try assumption; try lia.
      cbn [shape_ok contains]. change (Ascii.eqb "/" "/") with true. cbv iota.
      rewrite A, B, C, (no_char_contains "-" "/") by assumption.
      repeat split; try reflexivity; discriminate.
    + rewrite decode_miss by assumption.
      destruct (IH Hs1 Hs2) as (A & B & C & D & E & F & G).
      cbn [shape_ok contains]. rewrite Hx1, Hx2, A, B, C, D, !orb_false_r.
      rewrite !startswith_2, !startswith_char, Hx1, Hx2.
      rewrite startswith_2 in Hp.
      split; [reflexivity|]. split; [|split; [|split; [|split; [|split]]]].
      * destruct (Ascii.eqb "-" x); [|reflexivity]. cbn [andb] in *.
        destruct (startswith "-" (replace "--" ":" (-1) (replace "--" "/" 1 s))) eqn:K;
          [|reflexivity].
        destruct (E eq_refl) as [E1 _]. congruence.
      * destruct (Ascii.eqb "-" x); [|reflexivity]. cbn [andb] in *.
        destruct (startswith "/" (replace "--" ":" (-1) (replace "--" "/" 1 s))) eqn:K;
          [|reflexivity].
        pose proof (F eq_refl) as F1.
        destruct s as [|y s]; [discriminate|].
        rewrite startswith_2 in F1. apply andb_true_iff in F1 as [F1 _].
        rewrite startswith_char in Hp. congruence.
      * rewrite G. apply andb_false_r.
      * intros H. split; [exact H | reflexivity].
      * discriminate.
      * reflexivity.
Qed.

(** Only image names that satisfy [decodable_image] come back from the
    decoder. *)
Lemma decoded_is_decodable s :
  decodable_image (replace "--" ":" (-1) (replace "--" "/" 1 (enc s))) = true.
Proof.
  destruct (decoded_output (enc s)) as (A & B & C & D & _);
    try (apply no_char_enc; auto).
  unfold decodable_image. rewrite A, B, C, D. reflexivity.
Qed.

End PyStrFacts.

(** ** Service names *)

Section ServiceNames.

Import PyStr Spec PyStrFacts Knative.

Lemma decodable_image_inv image :
  decodable_image image = true ->
  shape_ok image = true /\ contains "--" image = false
  /\ contains "-/" image = false /\ contains "-:" image = false.
Proof.
  unfold decodable_image. intros H.
  repeat (apply andb_true_iff in H as [H ?]).
  repeat match goal with H : negb _ = true |- _ => apply negb_true_iff in H end.
  auto.
Qed.

Lemma memory_suffix memory :
  0 <= memory ->
  no_char "-" (str memory +:+ "mb") = true /\ str memory +:+ "mb" <> EmptyString
  /\ all_digits (str memory) = true.
Proof.
  intros Hm. destruct (str_nonneg memory Hm) as (d & Hd & Hne & _).
  assert (Hall : all_digits (str memory) = true)
    by (rewrite Hd; apply all_digits_uint).
  split; [|split; [|exact Hall]].
  - rewrite no_char_app, (all_digits_no_char "-") by (assumption || reflexivity).
    reflexivity.
  - destruct (str memory); [contradiction|discriminate].
Qed.

(** The service name splits back into the encoded image and the memory
    suffix, whatever the image. *)
Lemma unformat_format image memory :
  0 <= memory ->
  _unformat_service_name (_format_service_name image memory)
  = Ok (replace "--" ":" (-1) (replace "--" "/" 1 (enc image)), memory).
Proof.
  intros Hm. destruct (memory_suffix memory Hm) as (Hno & Hne & Hall).
  unfold _unformat_service_name, _format_service_name.
  rewrite enc_replace, rsplit1_last by assumption.
  rewrite replace_mb, int_str by assumption. reflexivity.
Qed.

(** A service name made by [_format_service_name] decodes to a pair that
    encodes to the same name, whatever the image. *)
Lemma format_unformat_format image memory :
  0 <= memory ->
  exists image',
    _unformat_service_name (_format_service_name image memory) = Ok (image', memory)
    /\ _format_service_name image' memory = _format_service_name image memory.
Proof.
  intros Hm. eexists. split; [apply unformat_format; exact Hm|].
  unfold _format_service_name. rewrite !enc_replace. f_equal.
  rewrite (enc_replace_dashes ":" _ (or_intror eq_refl) _ _ (le_n _)).
  rewrite (enc_replace_dashes "/" _ (or_introl eq_refl) _ _ (le_n _)).
  apply enc_idempotent.
Qed.

Lemma unformat_format_decodable image memory :
  decodable_image image = true -> 0 <= memory ->
  _unformat_service_name (_format_service_name image memory) = Ok (image, memory).
Proof.
  intros Hd Hm. apply decodable_image_inv in Hd as (Hs & H1 & H2 & H3).
  rewrite unformat_format by assumption.
  rewrite replace_first_dashes, replace_dashes_colon
    by (assumption || lia).
  reflexivity.
Qed.

(** C1, as amended: for an image name in which ['/'] occurs at most once
    and before every [':'], which has no ["--"] and no ['-'] directly
    before a ['/'] or [':'], and for a memory that is not negative,
    decoding the encoded service name gives back the image and the memory. *)
Theorem format_unformat_roundtrip image memory :
  decodable_image image = true -> 0 <= memory ->
  _unformat_service_name (_format_service_name image memory) = Ok (image, memory).
Proof.
  intros Hd Hm. apply decodable_image_inv in Hd as (Hs & H1 & H2 & H3).
  rewrite unformat_format by assumption.
  rewrite replace_first_dashes, replace_dashes_colon by (assumption || lia).
  reflexivity.
Qed.

(** The condition is the weakest one: an image name that comes back from
    the decoder satisfies it. *)
Lemma format_unformat_roundtrip_only image memory :
  0 <= memory ->
  _unformat_service_name (_format_service_name image memory) = Ok (image, memory) ->
  decodable_image image = true.
Proof.
  intros Hm H. rewrite unformat_format in H by assumption.
  injection H as H. rewrite <- H at 1. apply decoded_is_decodable.
Qed.

Lemma format_unformat_roundtrip_witness :
  _unformat_service_name (_format_service_name "jsampe/pywren-kn-runtime-v37:latest" 256)
  = Ok ("jsampe/pywren-kn-runtime-v37:latest", 256).
Proof. apply format_unformat_roundtrip; [reflexivity | lia]. Defined.

(** C1 as stated fails: an image name without ["--"] that has a tag but no
    user part comes back with ['/'] in place of [':']; and an image name
    that contains ["--"] is encoded like any other. *)
Lemma format_unformat_counterexample :
  contains "--" "python:3.7" = false
  /\ _unformat_service_name (_format_service_name "python:3.7" 256)
     = Ok ("python/3.7", 256)
  /\ _unformat_service_name (_format_service_name "python:3.7" 256)
     <> Ok ("python:3.7", 256)
  /\ _format_service_name "my--user/img" 256 = "my--user--img--256mb".
Proof.
  assert (E : _unformat_service_name (_format_service_name "python:3.7" 256)
              = Ok ("python/3.7", 256)) by reflexivity.
  split; [reflexivity|]. split; [exact E|]. split; [|reflexivity].
  rewrite E. discriminate.
Qed.

End ServiceNames.

(** ** The monad and the world *)

Section MonadFacts.

Lemma set_objects_id w : set_objects (objects w) w = w.
Proof. destruct w; reflexivity. Qed.

Lemma set_objects_twice v v' w : set_objects v (set_objects v' w) = set_objects v w.
Proof. reflexivity. Qed.

Lemma bind_ok {A B} (m : M A) (k : A -> M B) w a w1 :
  m w = (Ok a, w1) -> bind m k w = k a w1.
Proof. unfold bind. intros ->. reflexivity. Qed.

Lemma bind_raise {A B} (m : M A) (k : A -> M B) w e w1 :
  m w = (Raise e, w1) -> bind m k w = (Raise e, w1).
Proof. unfold bind. intros ->. reflexivity. Qed.

Lemma bind_ok_inv {A B} (m : M A) (k : A -> M B) w b w' :
  bind m k w = (Ok b, w') ->
  exists a w1, m w = (Ok a, w1) /\ k a w1 = (Ok b, w').
Proof.
  unfold bind. destruct (m w) as [[a|e] w1]; intros H; [eauto | discriminate].
Qed.

Lemma filter_all {A} (f : A -> bool) (l : list A) :
  (forall x, In x l -> f x = true) -> List.filter f l = l.
Proof.
  induction l as [|x l IH]; intros H; [reflexivity|]. simpl.
  rewrite (H x) by (left; reflexivity). f_equal. apply IH.
  intros y Hy. apply H. right. exact Hy.
Qed.

Lemma filter_and {A} (f g : A -> bool) (l : list A) :
  List.filter f (List.filter g l) = List.filter (fun x => g x && f x) l.
Proof.
  induction l as [|x l IH]; [reflexivity|]. simpl.
  destruct (g x); simpl; [destruct (f x)|]; rewrite IH; reflexivity.
Qed.

End MonadFacts.

(** ** Listing and deleting runtimes *)

Section Runtimes.

Import PyStr Spec Knative.

Lemma runtime_of_service_owned image service :
  match runtime_of_service image service with
  | Ok (Some r) =>
      owned_runtime service = Some r
      /\ String.eqb image (fst r) || String.eqb image "all" = true
  | Ok None =>
      match owned_runtime service with
      | Some r => String.eqb image (fst r) || String.eqb image "all" = false
      | None => True
      end
  | Raise _ => owned_runtime service = None
  end.
Proof.
  unfold runtime_of_service, owned_runtime, has_ownership_label, decoded, Api.name_of.
  destruct (Json.get_path service ["spec"; "template"; "metadata"; "labels"; "type"])
    as [ty|e]; [|reflexivity].
  destruct (Json.eq_str ty "pywren-runtime"); [|exact I].
  destruct (Json.get_path service ["metadata"; "name"]) as [[| | |name| |]|e];
    try reflexivity.
  destruct (_unformat_service_name name) as [[image_name memory]|e]; [|reflexivity].
  cbn [fst].
  destruct (String.eqb image image_name || String.eqb image "all") eqn:E;
    cbn [fst]; [split|]; first [exact E | reflexivity].
Qed.

(** The loop of [list_runtimes] appends, in order, the owned runtimes that
    pass the image filter. *)
Lemma list_runtimes_loop_spec image items runtimes :
  list_runtimes_loop image items runtimes
  = (runtimes ++ List.filter (fun r => String.eqb image (fst r) || String.eqb image "all")
                             (omap owned_runtime items))%list.
Proof.
  revert runtimes. induction items as [|service items IH]; intros runtimes.
  - simpl. rewrite app_nil_r. reflexivity.
  - cbn [list_runtimes_loop omap list_omap].
    pose proof (runtime_of_service_owned image service) as H.
    destruct (runtime_of_service image service) as [[r|]|e].
    + destruct H as [H1 H2]. rewrite H1, IH. cbn [List.filter]. rewrite H2.
      rewrite <- app_assoc. reflexivity.
    + rewrite IH. destruct (owned_runtime service) as [r|]; [|reflexivity].
      cbn [List.filter]. rewrite H. reflexivity.
    + rewrite H, IH. reflexivity.
Qed.

Lemma list_runtimes_spec image w :
  list_runtimes image w
  = (Ok (List.filter (fun r => String.eqb image (fst r) || String.eqb image "all")
                     (owned_runtimes w)), w).
Proof.
  unfold list_runtimes, Api.list_items, bind, gets, ret.
  rewrite list_runtimes_loop_spec. reflexivity.
Qed.

Lemma delete_runtime_spec image memory w :
  delete_runtime image memory w
  = (Ok tt, set_objects
              (List.filter
                 (fun r => negb (Api.is_obj "services" (_format_service_name image memory) r))
                 (objects w)) w).
Proof.
  unfold delete_runtime, try_except, Api.delete, bind, gets, modify, raise, ret.
  destruct (existsb _ (objects w)) eqn:E; [reflexivity|].
  rewrite filter_all, set_objects_id; [reflexivity|].
  intros r Hr. apply negb_true_iff.
  destruct (Api.is_obj _ _ r) eqn:E'; [|reflexivity].
  assert (existsb (Api.is_obj "services" (_format_service_name image memory)) (objects w)
          = true) by (apply existsb_exists; eauto).
  congruence.
Qed.

Lemma delete_each_spec runtimes w :
  delete_each runtimes w
  = (Ok tt, set_objects
              (List.filter
                 (fun r => negb (is_target
                    (List.map (fun r => _format_service_name (fst r) (snd r)) runtimes) r))
                 (objects w)) w).
Proof.
  revert w. induction runtimes as [|[image memory] runtimes IH]; intros w.
  - cbn [delete_each List.map]. unfold ret.
    rewrite filter_all, set_objects_id; [reflexivity|]. intros r _. reflexivity.
  - cbn [delete_each]. rewrite (bind_ok _ _ _ _ _ (delete_runtime_spec image memory w)).
    rewrite IH. cbn [objects set_objects]. rewrite set_objects_twice, filter_and.
    f_equal. f_equal. apply filter_ext. intros r.
    cbn [List.map fst snd is_target existsb]. rewrite negb_orb. reflexivity.
Qed.

Lemma delete_all_runtimes_spec w :
  delete_all_runtimes w
  = (Ok tt, set_objects
              (List.filter (fun r => negb (is_target (deletion_targets w) r)) (objects w)) w).
Proof.
  unfold delete_all_runtimes.
  rewrite (bind_ok _ _ _ _ _ (list_runtimes_spec "all" w)).
  rewrite delete_each_spec. unfold deletion_targets.
  rewrite (filter_all _ (owned_runtimes w)); [reflexivity|]. intros r _.
  apply orb_true_r.
Qed.

End Runtimes.
(** ** Facts on documents and on the cluster API *)

Section JsonPaths.

Import Json More.

Lemma assoc_set_eq k v kvs : assoc k (assoc_set k v kvs) = Some v.
Proof.
  induction kvs as [|[k' v'] kvs IH]; cbn [assoc_set assoc].
  - rewrite String.eqb_refl. reflexivity.
  - destruct (String.eqb k k') eqn:E; cbn [assoc].
    + rewrite String.eqb_refl. reflexivity.
    + rewrite E. exact IH.
Qed.

Lemma assoc_set_ne k k' v kvs :
  String.eqb k' k = false -> assoc k' (assoc_set k v kvs) = assoc k' kvs.
Proof.
  intros Hne. induction kvs as [|[k0 v0] kvs IH]; cbn [assoc_set assoc].
  - rewrite Hne. reflexivity.
  - destruct (String.eqb k k0) eqn:E; cbn [assoc].
    + apply String.eqb_eq in E. subst k0. rewrite Hne. reflexivity.
    + rewrite IH. reflexivity.
Qed.

Lemma getitem_setitem_eq j k v j' : setitem j k v = Ok j' -> getitem j' k = Ok v.
Proof.
  destruct j; try discriminate. intros [= <-]. cbn [getitem].
  rewrite assoc_set_eq. reflexivity.
Qed.

Lemma getitem_setitem_ne j k k' v j' :
  setitem j k v = Ok j' -> String.eqb k' k = false -> getitem j' k' = getitem j k'.
Proof.
  destruct j; try discriminate. intros [= <-] Hne. cbn [getitem].
  rewrite assoc_set_ne by exact Hne. reflexivity.
Qed.

(** What [j[p1]...[pn][k] = v] has written is read back at that path. *)
Lemma set_path_get_eq path : forall j k v j',
  set_path j path k v = Ok j' -> get_path j' (path ++ [k]) = Ok v.
Proof.
  induction path as [|p path IH]; intros j k v j' H; cbn [set_path] in H;
    cbn [app get_path].
  - rewrite (getitem_setitem_eq _ _ _ _ H). reflexivity.
  - destruct (getitem j p) as [sub|e]; [|discriminate].
    destruct (set_path sub path k v) as [sub'|e] eqn:E; [|discriminate].
    rewrite (getitem_setitem_eq _ _ _ _ H). apply (IH _ _ _ _ E).
Qed.

(** And every path that parts ways with it reads as before. *)
Lemma set_path_get_diverge path : forall j k v j' q,
  set_path j path k v = Ok j' -> diverge q (path ++ [k]) = true ->
  get_path j' q = get_path j q.
Proof.
  induction path as [|p path IH]; intros j k v j' q H Hq; cbn [set_path] in H;
    cbn [app] in Hq.
  - destruct q as [|a q]; [discriminate|]. cbn [diverge] in Hq.
    destruct (String.eqb a k) eqn:E; [destruct q; discriminate|].
    cbn [get_path]. rewrite (getitem_setitem_ne _ _ _ _ _ H E). reflexivity.
  - destruct (getitem j p) as [sub|e] eqn:Hg; [|discriminate].
    destruct (set_path sub path k v) as [sub'|e] eqn:E; [|discriminate].
    destruct q as [|a q]; [discriminate|]. cbn [diverge] in Hq. cbn [get_path].
    destruct (String.eqb a p) eqn:Ea.
    + apply String.eqb_eq in Ea. subst a.
      rewrite (getitem_setitem_eq _ _ _ _ H), Hg. apply (IH _ _ _ _ _ E Hq).
    + rewrite (getitem_setitem_ne _ _ _ _ _ H Ea). reflexivity.
Qed.


End JsonPaths.

Section ApiFacts.

Import PyStr Spec More Knative.

Lemma create_absent plural body name w :
  Api.name_of body = Some name ->
  existsb (Api.is_obj plural name) (objects w) = false ->
  Api.create plural body w
  = (Ok tt, set_objects (objects w ++ [{| r_plural := plural; r_body := body |}]) w).
Proof.
  intros Hn He. unfold Api.create, bind, gets, modify, raise. rewrite Hn, He. reflexivity.
Qed.

Lemma existsb_filter_negb {A} (f : A -> bool) (l : list A) :
  existsb f (List.filter (fun x => negb (f x)) l) = false.
Proof.
  induction l as [|x l IH]; [reflexivity|]. cbn [List.filter].
  destruct (f x) eqn:E; cbn [negb existsb]; [exact IH|]. rewrite E, IH. reflexivity.
Qed.

Lemma is_obj_plural plural name r :
  Api.is_obj plural name r = true -> r_plural r = plural.
Proof.
  unfold Api.is_obj. intros H. apply andb_true_iff in H as [H _].
  apply String.eqb_eq. exact H.
Qed.

Lemma existsb_filter_other plural name plural' name' l :
  plural <> plural' ->
  existsb (Api.is_obj plural name)
    (List.filter (fun r => negb (Api.is_obj plural' name' r)) l)
  = existsb (Api.is_obj plural name) l.
Proof.
  intros Hne. induction l as [|x l IH]; [reflexivity|]. cbn [List.filter existsb].
  destruct (Api.is_obj plural' name' x) eqn:E'; cbn [negb existsb].
  - destruct (Api.is_obj plural name x) eqn:E; [|exact IH].
    apply is_obj_plural in E, E'. congruence.
  - rewrite IH. reflexivity.
Qed.

Lemma filter_none {A} (f : A -> bool) (l : list A) :
  existsb f l = false -> List.filter (fun x => negb (f x)) l = l.
Proof.
  intros H. apply filter_all. intros x Hx. apply negb_true_iff.
  destruct (f x) eqn:E; [|reflexivity].
  rewrite <- H. symmetry. apply existsb_exists. eauto.
Qed.

Lemma delete_present plural name w :
  existsb (Api.is_obj plural name) (objects w) = true ->
  Api.delete plural name w
  = (Ok tt, set_objects
              (List.filter (fun r => negb (Api.is_obj plural name r)) (objects w)) w).
Proof. intros H. unfold Api.delete, bind, gets, modify. rewrite H. reflexivity. Qed.

Lemma delete_absent plural name w :
  existsb (Api.is_obj plural name) (objects w) = false ->
  Api.delete plural name w = (Raise (ApiException 404), w).
Proof. intros H. unfold Api.delete, bind, gets, raise. rewrite H. reflexivity. Qed.

(** [try: delete except: pass] leaves no object of the name. *)
Lemma try_delete plural name w :
  try_except (Api.delete plural name) (fun _ => ret tt) w
  = (Ok tt, set_objects
              (List.filter (fun r => negb (Api.is_obj plural name r)) (objects w)) w).
Proof.
  unfold try_except. destruct (existsb (Api.is_obj plural name) (objects w)) eqn:E.
  - rewrite (delete_present _ _ _ E). reflexivity.
  - rewrite (delete_absent _ _ _ E), (filter_none _ _ E), set_objects_id. reflexivity.
Qed.

Lemma create_conflict plural body name w :
  Api.name_of body = Some name ->
  existsb (Api.is_obj plural name) (objects w) = true ->
  Api.create plural body w = (Raise (ApiException 409), w).
Proof.
  intros Hn He. unfold Api.create, bind, gets, raise. rewrite Hn, He. reflexivity.
Qed.

Lemma name_of_setitem j k v j' name :
  Json.setitem j k v = Ok j' -> String.eqb "metadata" k = false ->
  Api.name_of j = Some name -> Api.name_of j' = Some name.
Proof.
  intros H Hk Hn. unfold Api.name_of in *.
  rewrite (set_path_get_diverge [] j k v j' ["metadata"; "name"] H); [exact Hn|].
  cbn [app diverge]. rewrite Hk. reflexivity.
Qed.

Lemma name_of_path j name :
  Api.name_of j = Some name -> Json.get_path j ["metadata"; "name"] = Ok (JStr name).
Proof.
  unfold Api.name_of. destruct (Json.get_path j ["metadata"; "name"]) as [[| | |s| |]|e];
    try discriminate. intros [= ->]. reflexivity.
Qed.

End ApiFacts.

Section RuntimeClaims.

Import PyStr Spec Knative.

Lemma In_owned_runtimes r w :
  In r (owned_runtimes w) <->
  exists service, In service (services w)
    /\ has_ownership_label service = true /\ decoded service = Some r.
Proof.
  unfold owned_runtimes. rewrite <- list_elem_of_In, list_elem_of_omap.
  split; intros (service & H1 & H2).
  - exists service. apply list_elem_of_In in H1. unfold owned_runtime in H2.
    destruct (has_ownership_label service); [auto | discriminate].
  - destruct H2 as [H2 H3]. exists service. split; [apply list_elem_of_In; exact H1|].
    unfold owned_runtime. rewrite H2. exact H3.
Qed.


(** A namespace with a runtime, a service of somebody else, and a labelled
    service whose name does not decode. *)
Example list_runtimes_example :
  let w := set_objects [Sample.svc "jsampe--kn-runtime--256mb" "pywren-runtime" None;
                        Sample.svc "frontend" "web" None;
                        Sample.svc "stray" "pywren-runtime" None] Sample.empty in
  list_runtimes "all" w = (Ok [("jsampe/kn-runtime", 256)], w)
  /\ list_runtimes "jsampe/kn-runtime" w = (Ok [("jsampe/kn-runtime", 256)], w)
  /\ list_runtimes "other/image" w = (Ok [], w).
Proof. repeat split; reflexivity. Qed.

Lemma is_target_spec targets r :
  is_target targets r = true <->
  r_plural r = "services"
  /\ exists name, In name targets /\ Api.name_of (r_body r) = Some name.
Proof.
  unfold is_target, Api.is_obj. rewrite existsb_exists. split.
  - intros (n & Hn & H). apply andb_true_iff in H as [H1 H2].
    apply String.eqb_eq in H1. split; [exact H1|].
    destruct (Api.name_of (r_body r)) as [m|]; [|discriminate].
    apply String.eqb_eq in H2. subst m. eauto.
  - intros (H1 & n & Hn & H2). exists n. split; [exact Hn|].
    rewrite H1, H2, !String.eqb_refl. reflexivity.
Qed.

Lemma owned_runtimes_filter (P : resource -> bool) w r :
  In r (owned_runtimes (set_objects (List.filter P (objects w)) w)) ->
  In r (owned_runtimes w).
Proof.
  rewrite !In_owned_runtimes. intros (service & H1 & H2). exists service.
  split; [|exact H2]. unfold services in *. cbn [objects set_objects] in H1.
  apply in_map_iff in H1 as (x & Hx & H1). apply in_map_iff. exists x.
  split; [exact Hx|]. apply filter_In in H1 as [H1 H3]. apply filter_In.
  split; [|exact H3]. apply filter_In in H1 as [H1 _]. exact H1.
Qed.

(** C8: [delete_runtime] never raises; on a service that is not there it
    returns normally and changes nothing; doing it twice is the same as
    doing it once; and the same holds of [delete_all_runtimes]. *)
Theorem delete_is_idempotent image memory w :
  fst (delete_runtime image memory w) = Ok tt
  /\ (existsb (Api.is_obj "services" (_format_service_name image memory)) (objects w)
      = false -> delete_runtime image memory w = (Ok tt, w))
  /\ delete_runtime image memory (snd (delete_runtime image memory w))
     = delete_runtime image memory w
  /\ fst (delete_all_runtimes w) = Ok tt
  /\ delete_all_runtimes (snd (delete_all_runtimes w)) = delete_all_runtimes w.
Proof.
  split; [|split; [|split; [|split]]].
  - rewrite delete_runtime_spec. reflexivity.
  - intros H. unfold delete_runtime, try_except, Api.delete, bind, gets, raise, ret.
    rewrite H. reflexivity.
  - rewrite !delete_runtime_spec. cbn [snd objects set_objects].
    rewrite set_objects_twice, filter_and. do 2 f_equal.
    apply filter_ext. intros r. apply andb_diag.
  - rewrite delete_all_runtimes_spec. reflexivity.
  - rewrite (delete_all_runtimes_spec w). cbn [snd].
    rewrite delete_all_runtimes_spec. cbn [objects set_objects].
    rewrite set_objects_twice. do 2 f_equal.
    apply filter_all. intros r Hr. apply filter_In in Hr as [_ Hr].
    apply negb_true_iff in Hr. apply negb_true_iff.
    destruct (is_target (deletion_targets (set_objects _ w)) r) eqn:E; [|reflexivity].
    rewrite <- Hr. symmetry. apply is_target_spec.
    apply is_target_spec in E as (H1 & n & Hn & H2).
    split; [exact H1|]. exists n. split; [|exact H2].
    unfold deletion_targets in *. apply in_map_iff in Hn as (x & Hx & Hn).
    apply in_map_iff. exists x. split; [exact Hx|].
    eapply owned_runtimes_filter. exact Hn.
Qed.

Example delete_runtime_absent_example :
  delete_runtime "jsampe/kn-runtime" 256 Sample.empty = (Ok tt, Sample.empty).
Proof. reflexivity. Qed.

(** When every labelled service bears a name made by
    [_format_service_name], the names that [delete_all_runtimes] deletes
    are the names of the labelled services. *)
Lemma deletion_targets_system_names w :
  (forall service, In service (services w) -> has_ownership_label service = true ->
     exists image memory,
       0 <= memory /\ Api.name_of service = Some (_format_service_name image memory)) ->
  forall name,
    In name (deletion_targets w)
    <-> exists service, In service (services w)
          /\ has_ownership_label service = true /\ Api.name_of service = Some name.
Proof.
  intros Hsys name. unfold deletion_targets. rewrite in_map_iff. split.
  - intros ([image' memory'] & <- & Hin). cbn [fst snd].
    apply In_owned_runtimes in Hin as (service & Hs & Hl & Hd).
    exists service. split; [exact Hs|]. split; [exact Hl|].
    destruct (Hsys service Hs Hl) as (image & memory & Hm & Hn).
    unfold decoded in Hd. rewrite Hn in *.
    destruct (format_unformat_format image memory Hm) as (i & Hu & Hf).
    rewrite Hu in Hd. injection Hd as <- <-. rewrite Hf. reflexivity.
  - intros (service & Hs & Hl & Hn).
    destruct (Hsys service Hs Hl) as (image & memory & Hm & Hn').
    destruct (format_unformat_format image memory Hm) as (i & Hu & Hf).
    exists (i, memory). cbn [fst snd]. split; [congruence|].
    apply In_owned_runtimes. exists service. split; [exact Hs|]. split; [exact Hl|].
    unfold decoded. rewrite Hn', Hu. reflexivity.
Qed.

(** C10, as amended: [delete_all_runtimes] removes the services whose name
    is the name that a pair returned by [list_runtimes('all')] encodes to,
    and nothing else; every other object of the namespace and the rest of
    the state are as before. In a namespace where every labelled service
    bears a name made by [_format_service_name], these names are the names
    of the labelled services. *)
Theorem delete_all_runtimes_frame w :
  exists w',
    delete_all_runtimes w = (Ok tt, w')
    /\ w' = set_objects (objects w') w
    /\ objects w'
       = List.filter (fun r => negb (is_target (deletion_targets w) r)) (objects w)
    /\ (forall r, In r (objects w') <->
          In r (objects w)
          /\ ~ (r_plural r = "services"
                /\ exists image memory,
                     In (image, memory) (owned_runtimes w)
                     /\ Api.name_of (r_body r)
                        = Some (_format_service_name image memory)))
    /\ ((forall service,
           In service (services w) -> has_ownership_label service = true ->
           exists image memory,
             0 <= memory
             /\ Api.name_of service = Some (_format_service_name image memory)) ->
        forall r, In r (objects w') <->
          In r (objects w)
          /\ ~ (r_plural r = "services"
                /\ exists service,
                     In service (services w) /\ has_ownership_label service = true
                     /\ Api.name_of service = Api.name_of (r_body r))).
Proof.
  eexists. split; [apply delete_all_runtimes_spec|].
  split; [reflexivity|]. split; [reflexivity|].
  cbn [objects set_objects]. split.
  - intros r. rewrite filter_In.
    split; intros [H1 H2]; (split; [exact H1|]).
    + apply negb_true_iff in H2. intros (Hp & image & memory & Hin & Hn).
      assert (is_target (deletion_targets w) r = true); [|congruence].
      apply is_target_spec. split; [exact Hp|]. eexists. split; [|exact Hn].
      unfold deletion_targets. apply in_map_iff. exists (image, memory). auto.
    + apply negb_true_iff.
      destruct (is_target (deletion_targets w) r) eqn:E; [|reflexivity].
      exfalso. apply H2. apply is_target_spec in E as (Hp & n & Hn & Hname).
      split; [exact Hp|]. unfold deletion_targets in Hn.
      apply in_map_iff in Hn as ([image memory] & Hx & Hn). cbn [fst snd] in Hx.
      exists image, memory. subst n. auto.
  - intros Hsys r. rewrite filter_In.
    pose proof (deletion_targets_system_names w Hsys) as Ht.
    split; intros [H1 H2]; (split; [exact H1|]).
    + apply negb_true_iff in H2. intros (Hp & service & Hs & Hl & Hn).
      assert (is_target (deletion_targets w) r = true); [|congruence].
      apply is_target_spec. split; [exact Hp|].
      destruct (Api.name_of (r_body r)) as [n|] eqn:En.
      * exists n. split; [|reflexivity]. apply Ht. eauto.
      * destruct (Hsys service Hs Hl) as (i & m & _ & Hn'). congruence.
    + apply negb_true_iff.
      destruct (is_target (deletion_targets w) r) eqn:E; [|reflexivity].
      exfalso. apply H2. apply is_target_spec in E as (Hp & n & Hn & Hname).
      split; [exact Hp|]. apply Ht in Hn as (service & Hs & Hl & Hn).
      exists service. split; [exact Hs|]. split; [exact Hl|]. congruence.
Qed.

(** C10 as stated fails: the labelled service ["foo--256"] decodes to
    [("foo", 256)], which encodes to ["foo--256mb"]; so the service of that
    name, which has no label and is not listed, is deleted, and the listed
    one stays. *)
Lemma delete_all_runtimes_counterexample :
  let listed := Sample.svc "foo--256" "pywren-runtime" None in
  let other := Sample.svc "foo--256mb" "web" None in
  let w := set_objects [listed; other] Sample.empty in
  fst (list_runtimes "all" w) = Ok [("foo", 256)]
  /\ has_ownership_label (r_body other) = false
  /\ objects (snd (delete_all_runtimes w)) = [listed].
Proof. repeat split; reflexivity. Qed.

End RuntimeClaims.

(** ** [Compute.invoke]: the retry loop *)

Section RetryLoop.

Import Spec ComputeM.

Context (self : Compute) (runtime_name : string) (memory : Z)
        (payload : gmap string json).

Let handler : M json := h_invoke (compute_handler self) runtime_name memory payload.

Lemma retry_loop_unfold act_id attempts w :
  retry_loop self runtime_name memory payload act_id attempts w
  = if (attempts <? retries self)
       && (negb (Json.truthy act_id) && invocation_retry self)
    then match retry_body self runtime_name memory payload w with
         | (Ok act_id', w') =>
             retry_loop self runtime_name memory payload act_id' (attempts + 1) w'
         | (Raise e, w') => (Raise e, w')
         end
    else (Ok act_id, w).
Proof.
  rewrite retry_loop_equation_1.
  destruct (Z_lt_dec attempts (retries self)) as [Hlt|Hge].
  - rewrite (proj2 (Z.ltb_lt _ _) Hlt), retry_loop_clause_1_equation_1.
    cbn [andb].
    destruct (negb (Json.truthy act_id) && invocation_retry self).
    + rewrite retry_loop_clause_1_clause_2_equation_1.
      destruct (retry_body self runtime_name memory payload w) as [[a|e] w'].
      * apply retry_loop_clause_1_clause_2_clause_2_equation_1.
      * apply retry_loop_clause_1_clause_2_clause_2_equation_2.
    + apply retry_loop_clause_1_clause_2_equation_2.
  - rewrite (proj2 (Z.ltb_ge _ _)) by lia.
    apply retry_loop_clause_1_equation_2.
Qed.

Lemma retry_loop_stop act_id attempts w :
  retries self <= attempts \/ Json.truthy act_id = true \/ invocation_retry self = false ->
  retry_loop self runtime_name memory payload act_id attempts w = (Ok act_id, w).
Proof.
  intros H. rewrite retry_loop_unfold.
  destruct H as [H|[H|H]].
  - rewrite (proj2 (Z.ltb_ge _ _)) by lia. reflexivity.
  - rewrite H. cbn [negb andb]. rewrite andb_false_r. reflexivity.
  - rewrite H, !andb_false_r. reflexivity.
Qed.

Lemma retry_loop_again act_id attempts w :
  attempts < retries self -> Json.truthy act_id = false ->
  invocation_retry self = true ->
  retry_loop self runtime_name memory payload act_id attempts w
  = match retry_body self runtime_name memory payload w with
    | (Ok act_id', w') =>
        retry_loop self runtime_name memory payload act_id' (attempts + 1) w'
    | (Raise e, w') => (Raise e, w')
    end.
Proof.
  intros Hlt Hf Hr. rewrite retry_loop_unfold.
  assert (E : (attempts <? retries self)
              && (negb (Json.truthy act_id) && invocation_retry self) = true).
  { apply andb_true_iff. split; [apply Z.ltb_lt; exact Hlt|].
    apply andb_true_iff. split; [apply negb_true_iff; exact Hf | exact Hr]. }
  destruct ((attempts <? retries self)
            && (negb (Json.truthy act_id) && invocation_retry self));
    [reflexivity | discriminate].
Qed.

Lemma nth_mod_In (x : Z) (l : list Z) (n : nat) :
  In (nth (n mod length (x :: l)) (x :: l) x) (x :: l).
Proof.
  apply nth_In. apply Nat.mod_upper_bound. discriminate.
Qed.

Lemma sleep_nonneg secs w :
  0 <= secs -> sleep secs w = (Ok tt, set_slept (slept w ++ [secs]) w).
Proof.
  intros H. unfold sleep. rewrite (proj2 (Z.ltb_ge secs 0) H). reflexivity.
Qed.

Lemma sleep_negative secs w : secs < 0 -> sleep secs w = (Raise ValueError, w).
Proof.
  intros H. unfold sleep. rewrite (proj2 (Z.ltb_lt secs 0) H). reflexivity.
Qed.

(** With a sleep to choose, none of them negative, and the two identifiers
    in the payload, one round of the loop is the pause followed by one
    call of the handler. *)
Lemma retry_body_pause w :
  retry_sleeps self <> [] ->
  Forall (fun s => 0 <= s) (retry_sleeps self) ->
  is_Some (payload !! "executor_id") -> is_Some (payload !! "call_id") ->
  retry_body self runtime_name memory payload w = handler (pause self w).
Proof.
  intros Hs Hpos [e He] [c Hc]. unfold retry_body, pause, random_choice, lookup_key.
  destruct (retry_sleeps self) as [|x l] eqn:E; [contradiction|].
  rewrite He, Hc.
  assert (Hn : 0 <= nth (rand w (rand_drawn w) mod length (x :: l)) (x :: l) x).
  { apply (proj1 (List.Forall_forall _ _) Hpos). apply nth_mod_In. }
  unfold bind, ret. rewrite (sleep_nonneg _ _ Hn). reflexivity.
Qed.

(** When a retry is due after the first call of the handler, what
    [Compute.invoke] goes on with is one round of the loop. *)
Lemma invoke_retry_due w r1 w1 :
  handler w = (Ok r1, w1) ->
  Json.truthy r1 = false ->
  invocation_retry self = true ->
  1 < retries self ->
  invoke self runtime_name memory payload w
  = match retry_body self runtime_name memory payload w1 with
    | (Ok act_id', w') =>
        retry_loop self runtime_name memory payload act_id' (1 + 1) w'
    | (Raise e, w') => (Raise e, w')
    end.
Proof.
  intros H1 Hf Hretry Hmax. unfold invoke. rewrite (bind_ok _ _ _ _ _ H1).
  apply retry_loop_again; assumption.
Qed.

(** A round of the loop that cannot pause raises before it calls the
    handler: no sleep to choose, an identifier missing in the payload, or
    a negative sleep. *)
Lemma retry_body_raises w :
  (retry_sleeps self = [] ->
   retry_body self runtime_name memory payload w = (Raise IndexError, w))
  /\ (retry_sleeps self <> [] -> payload !! "executor_id" = None ->
      retry_body self runtime_name memory payload w
      = (Raise (KeyError "executor_id"), set_rand_drawn (S (rand_drawn w)) w))
  /\ (retry_sleeps self <> [] -> is_Some (payload !! "executor_id") ->
      payload !! "call_id" = None ->
      retry_body self runtime_name memory payload w
      = (Raise (KeyError "call_id"), set_rand_drawn (S (rand_drawn w)) w))
  /\ (retry_sleeps self <> [] -> Forall (fun s => s < 0) (retry_sleeps self) ->
      is_Some (payload !! "executor_id") -> is_Some (payload !! "call_id") ->
      retry_body self runtime_name memory payload w
      = (Raise ValueError, set_rand_drawn (S (rand_drawn w)) w)).
Proof.
  unfold retry_body, random_choice, lookup_key, bind, raise, ret.
  split; [|split; [|split]].
  - intros ->. reflexivity.
  - intros Hs He. destruct (retry_sleeps self); [contradiction|]. rewrite He. reflexivity.
  - intros Hs [v He] Hc. destruct (retry_sleeps self); [contradiction|].
    rewrite He, Hc. reflexivity.
  - intros Hs Hneg [v He] [c Hc]. destruct (retry_sleeps self) as [|x l]; [contradiction|].
    rewrite He, Hc. rewrite sleep_negative; [reflexivity|].
    apply (proj1 (List.Forall_forall _ _) Hneg). apply nth_mod_In.
Qed.

Section Counting.

(** [calls w] counts the calls that the handler has received; each call of
    the handler adds at most one, and drawing a sleep and sleeping add
    none. *)
Context (calls : world -> nat).
Context (calls_slept : forall v w, calls (set_slept v w) = calls w).
Context (calls_drawn : forall v w, calls (set_rand_drawn v w) = calls w).
Context (calls_handler : forall w, (calls (snd (handler w)) <= S (calls w))%nat).

Lemma retry_body_calls w :
  (calls (snd (retry_body self runtime_name memory payload w)) <= S (calls w))%nat.
Proof.
  unfold retry_body, random_choice, lookup_key, sleep, modify, bind, raise, ret.
  destruct (retry_sleeps self) as [|x l]; cbn [snd]; [lia|].
  destruct (payload !! "executor_id"); cbn [snd];
    [|rewrite calls_drawn; lia].
  destruct (payload !! "call_id"); cbn [snd];
    [|rewrite calls_drawn; lia].
  destruct (_ <? 0); cbn [snd]; [rewrite calls_drawn; lia|].
  match goal with
  | |- context [h_invoke _ _ _ _ ?w'] =>
      pose proof (calls_handler w') as H; fold handler;
      destruct (handler w') as [[a|e] w'']
  end; cbn [snd] in *; rewrite calls_slept, calls_drawn in H; exact H.
Qed.

Lemma retry_loop_calls k :
  forall act_id attempts w,
  Z.to_nat (retries self - attempts) = k ->
  (calls (snd (retry_loop self runtime_name memory payload act_id attempts w))
   <= calls w + k)%nat.
Proof.
  induction k as [|k IH]; intros act_id attempts w Hk.
  - rewrite retry_loop_stop by lia. cbn [snd]. lia.
  - rewrite retry_loop_unfold.
    destruct ((attempts <? retries self)
              && (negb (Json.truthy act_id) && invocation_retry self));
      [|cbn [snd]; lia].
    pose proof (retry_body_calls w) as Hb.
    destruct (retry_body self runtime_name memory payload w) as [[a|e] w'];
      cbn [snd] in *; [|lia].
    specialize (IH a (attempts + 1) w'). lia.
Qed.

Lemma invoke_calls w :
  (calls (snd (invoke self runtime_name memory payload w))
   <= calls w + Z.to_nat (Z.max 1 (retries self)))%nat.
Proof.
  unfold invoke, bind. fold handler. pose proof (calls_handler w) as H.
  destruct (handler w) as [[a|e] w1]; cbn [snd] in *; [|lia].
  pose proof (retry_loop_calls _ a 1 w1 eq_refl). lia.
Qed.

End Counting.

End RetryLoop.
(** ** [KnativeServingBackend.invoke] *)

Section Invoke.

Import Spec More Knative.

Lemma get_service_host_hit name host w :
  service_hosts w !! name = Some host -> _get_service_host name w = (Ok host, w).
Proof. unfold _get_service_host, bind, gets, ret. intros ->. reflexivity. Qed.

Lemma set_service_hosts_id w : set_service_hosts (service_hosts w) w = w.
Proof. destruct w; reflexivity. Qed.

(** What the [except] clause of [_get_service_host] does with an
    exception: it raises, one way or another. *)
Lemma host_except_raises (e : exn) w :
  exists e',
    (match e with
     | ApiException code => if code =? 404 then raise TypeError else raise e
     | _ => raise AttributeError
     end : M string) w = (Raise e', w).
Proof.
  destruct e as [| | | | | |code| | | | |]; try (eexists; reflexivity).
  destruct (code =? 404); eexists; reflexivity.
Qed.

(** Resolving the host touches nothing but the cache. *)
Lemma get_service_host_frame name w :
  exists hosts, snd (_get_service_host name w) = set_service_hosts hosts w.
Proof.
  unfold _get_service_host, bind, gets, ret.
  destruct (service_hosts w !! name) as [h|];
    [exists (service_hosts w); symmetry; apply set_service_hosts_id|].
  unfold try_except, Api.get, bind, gets, ret, lift, modify.
  assert (Hfail : forall e,
    exists hosts,
      snd (let (r, w') :=
             (match e with
              | ApiException code => if code =? 404 then raise TypeError else raise e
              | _ => raise AttributeError
              end : M string) w in
           match r with
           | Ok a => (Ok a, set_service_hosts (<[name:=a]> (service_hosts w')) w')
           | Raise e0 => (Raise e0, w')
           end) = set_service_hosts hosts w).
  { intros e. destruct (host_except_raises e w) as [e' ->].
    exists (service_hosts w). symmetry. apply set_service_hosts_id. }
  destruct (List.find _ (objects w)) as [r|]; [|apply (Hfail (ApiException 404))].
  destruct (Json.getitem (r_body r) "status") as [st|e]; [|apply Hfail].
  destruct (Json.getitem st "url") as [url|e]; [|apply Hfail].
  destruct (slice7 url) as [host|e]; [|apply Hfail].
  eexists. reflexivity.
Qed.

Lemma lift_ok_inv {A} (r : result A) w a w' :
  lift r w = (Ok a, w') -> r = Ok a /\ w' = w.
Proof. unfold lift. intros [= -> ->]. auto. Qed.

Lemma get_service_host_miss name w host w' :
  service_hosts w !! name = None ->
  _get_service_host name w = (Ok host, w') ->
  w' = set_service_hosts (<[name := host]> (service_hosts w)) w.
Proof.
  intros Hmiss H. unfold _get_service_host in H.
  apply bind_ok_inv in H as (hosts & w1 & H1 & H). injection H1 as <- <-.
  rewrite Hmiss in H.
  apply bind_ok_inv in H as (h & w1 & H1 & H).
  apply bind_ok_inv in H as ([] & w2 & H2 & H). injection H as <- <-.
  injection H2 as <-.
  assert (w1 = w); [|subst w1; reflexivity].
  unfold try_except in H1.
  destruct (bind (Api.get "services" name) _ w) as [[a|e] w0] eqn:E.
  - injection H1 as _ <-.
    apply bind_ok_inv in E as (svc & w2 & Hg & E).
    assert (w2 = w).
    { unfold Api.get, bind, gets in Hg.
      unfold ret, raise in Hg.
      destruct (List.find _ (objects w)); [injection Hg; auto | discriminate]. }
    subst w2.
    apply bind_ok_inv in E as (st & w3 & H3 & E). apply lift_ok_inv in H3 as [_ ->].
    apply bind_ok_inv in E as (url & w4 & H4 & E). apply lift_ok_inv in H4 as [_ ->].
    apply lift_ok_inv in E as [_ ->]. reflexivity.
  - destruct (host_except_raises e w0) as [e' He]. rewrite He in H1. discriminate.
Qed.

Lemma find_none_existsb {A} (f : A -> bool) l :
  existsb f l = false -> List.find f l = None.
Proof.
  induction l as [|x l IH]; [reflexivity|]. simpl.
  destruct (f x); [discriminate | exact IH].
Qed.

Lemma get_service_host_absent name w :
  service_hosts w !! name = None ->
  existsb (Api.is_obj "services" name) (objects w) = false ->
  _get_service_host name w = (Raise TypeError, w).
Proof.
  intros Hmiss Habs. unfold _get_service_host, bind, gets. rewrite Hmiss.
  unfold try_except, Api.get, bind, gets. rewrite (find_none_existsb _ _ Habs).
  reflexivity.
Qed.

Lemma get_service_host_raise name w e w1 :
  _get_service_host name w = (Raise e, w1) -> w1 = w.
Proof.
  unfold _get_service_host, bind, gets, ret.
  destruct (service_hosts w !! name) as [h|]; [discriminate|].
  unfold try_except, Api.get, bind, gets, ret, lift, modify.
  assert (Hfail : forall e0,
    (let (r, w') :=
       (match e0 with
        | ApiException code => if code =? 404 then raise TypeError else raise e0
        | _ => raise AttributeError
        end : M string) w in
     match r with
     | Ok a => (Ok a, set_service_hosts (<[name:=a]> (service_hosts w')) w')
     | Raise e1 => (Raise e1, w')
     end) = (Raise e, w1) -> w1 = w).
  { intros e0. destruct (host_except_raises e0 w) as [e' ->]. intros [= _ <-].
    reflexivity. }
  destruct (List.find _ (objects w)) as [r|]; [|apply (Hfail (ApiException 404))].
  destruct (Json.getitem (r_body r) "status") as [st|e0]; [|apply Hfail].
  destruct (Json.getitem st "url") as [url|e0]; [|apply Hfail].
  destruct (slice7 url) as [host|e0]; [|apply Hfail].
  discriminate.
Qed.

Lemma get_service_host_cached name w host w1 :
  _get_service_host name w = (Ok host, w1) ->
  service_hosts w1 !! name = Some host
  /\ w1 = set_service_hosts (service_hosts w1) w.
Proof.
  intros H. destruct (service_hosts w !! name) as [h|] eqn:E.
  - rewrite (get_service_host_hit _ _ _ E) in H. injection H as <- <-.
    split; [exact E | symmetry; apply set_service_hosts_id].
  - rewrite (get_service_host_miss _ _ _ _ E H).
    cbn [service_hosts set_service_hosts]. split; [apply lookup_insert_eq | reflexivity].
Qed.

(** The [try] of [invoke] and its [except] clause, entered in a state
    whose endpoint is set: without a connection, [UnboundLocalError] and
    no request; with one, the request is sent and the result is that of
    its outcome. *)
Lemma invoke_try (payload : gmap string json) (return_result : bool) w ep :
  endpoint w = Some ep ->
  ((conn <- try_except (http_connection ;; ret true) (fun e => ret false) ;;
   if conn then
     try_except
       (resp <- http_post (default (JStr "/") (payload !! "service_route")) payload ;;
        let '(resp_status, resp_data) := resp in
        if (resp_status =? 200) || (resp_status =? 202) then
          data <- match resp_data with
                  | Some d => ret d
                  | None => raise ValueError
                  end ;;
          if return_result then ret data
          else lift (Json.getitem data "activationId")
        else if resp_status =? 404 then
          raise (Exception "PyWren runtime is not deployed in your k8s cluster")
        else ret JNull)
       (fun e => ret JNull)
   else raise (UnboundLocalError "conn")) : M json) w
  = match connection w ep with
    | Ok _ =>
        (Ok (invocation_result return_result (http w (posts w))),
         set_http_sent
           (http_sent w ++ [{| rq_endpoint := ep;
                               rq_route := default (JStr "/") (payload !! "service_route");
                               rq_headers := headers w;
                               rq_payload := payload |}]) w)
    | Raise _ => (Raise (UnboundLocalError "conn"), w)
    end.
Proof.
  intros Hep. unfold bind at 1. unfold try_except at 1, bind at 1, http_connection.
  rewrite Hep. change (default "" (Some ep)) with ep.
  destruct (connection w ep) as [[]|e]; unfold ret at 1; [|reflexivity].
  unfold try_except, bind, http_post, invocation_result, posts, ret, raise, lift.
  rewrite Hep. change (default "" (Some ep)) with ep.
  destruct (http w (length (http_sent w))) as [e|st data]; [reflexivity|].
  destruct ((st =? 200) || (st =? 202)).
  - destruct data as [d|]; [|reflexivity].
    destruct return_result; [reflexivity|].
    destruct (Json.getitem d "activationId"); reflexivity.
  - destruct (st =? 404); reflexivity.
Qed.

(** [invoke] in a world where the host of the runtime is in the cache. *)
Lemma invoke_hit image memory payload return_result w host :
  service_hosts w !! _format_service_name image memory = Some host ->
  invoke image memory payload return_result w
  = match connection w (endpoint_for host w) with
    | Ok _ =>
        (Ok (invocation_result return_result (http w (posts w))),
         after_invoke host payload w)
    | Raise _ => (Raise (UnboundLocalError "conn"), before_post host w)
    end.
Proof.
  intros Hh. unfold invoke.
  rewrite (bind_ok _ _ _ _ _ (get_service_host_hit _ _ _ Hh)).
  unfold bind at 1. unfold modify at 1. cbv beta iota.
  unfold bind at 1. unfold gets at 1. cbn [endpoint set_headers].
  assert (Hbp : forall w0,
            w0 = before_post host w ->
            endpoint w0 = Some (endpoint_for host w)) by (intros w0 ->; reflexivity).
  destruct (endpoint w) as [ep|] eqn:Hep.
  - unfold bind at 1. unfold ret at 1. cbv beta iota.
    rewrite (invoke_try payload return_result _ ep) by exact Hep.
    unfold after_invoke, before_post, request_of, endpoint_for. rewrite Hep.
    cbn [default connection set_headers http posts http_sent headers].
    assert (E : set_endpoint (Some ep) (set_headers (<["Host":=host]> (headers w)) w)
                = set_headers (<["Host":=host]> (headers w)) w)
      by (destruct w; cbn in *; subst; reflexivity).
    unfold id. rewrite E. reflexivity.
  - assert (Hh' : service_hosts (set_headers (<["Host":=host]> (headers w)) w)
                  !! _format_service_name image memory = Some host) by exact Hh.
    rewrite (bind_ok _ _ _ _ _ (bind_ok _ _ _ _ _ (get_service_host_hit _ _ _ Hh'))).
    rewrite (invoke_try payload return_result _ ("http://" +:+ host)) by reflexivity.
    unfold after_invoke, before_post, request_of, endpoint_for. rewrite Hep.
    reflexivity.
Qed.

(** [invoke] either fails to find the host, and then raises in the
    unchanged state, or goes on as from the state where the host is
    cached. *)
Lemma invoke_cases image memory payload return_result w :
  (exists e, invoke image memory payload return_result w = (Raise e, w)
             /\ _get_service_host (_format_service_name image memory) w = (Raise e, w))
  \/ (exists host w1,
        _get_service_host (_format_service_name image memory) w = (Ok host, w1)
        /\ service_hosts w1 !! _format_service_name image memory = Some host
        /\ w1 = set_service_hosts (service_hosts w1) w
        /\ invoke image memory payload return_result w
           = match connection w1 (endpoint_for host w1) with
             | Ok _ =>
                 (Ok (invocation_result return_result (http w1 (posts w1))),
                  after_invoke host payload w1)
             | Raise _ => (Raise (UnboundLocalError "conn"), before_post host w1)
             end).
Proof.
  destruct (_get_service_host (_format_service_name image memory) w)
    as [[host|e] w1] eqn:E.
  - right. exists host, w1. destruct (get_service_host_cached _ _ _ _ E) as [Hc Hw].
    split; [reflexivity|]. split; [exact Hc|]. split; [exact Hw|].
    rewrite <- (invoke_hit image memory payload return_result w1 host Hc).
    unfold invoke. rewrite (bind_ok _ _ _ _ _ E).
    rewrite (bind_ok _ _ _ _ _ (get_service_host_hit _ _ _ Hc)). reflexivity.
  - left. exists e. pose proof (get_service_host_raise _ _ _ _ E) as ->.
    split; [|reflexivity]. unfold invoke. apply (bind_raise _ _ _ _ _ E).
Qed.

(** One call of [invoke] sends at most one request. *)
Lemma invoke_posts image memory payload return_result w :
  (posts (snd (invoke image memory payload return_result w)) <= S (posts w))%nat.
Proof.
  destruct (invoke_cases image memory payload return_result w)
    as [(e & -> & _) | (host & w1 & _ & _ & Hw & ->)]; [cbn [snd]; lia|].
  assert (Hp : posts w1 = posts w) by (rewrite Hw; reflexivity).
  destruct (connection w1 (endpoint_for host w1)); cbn [snd].
  - unfold posts, after_invoke in *. cbn [http_sent set_http_sent].
    rewrite List.length_app. cbn [length]. lia.
  - unfold posts, before_post in *. cbn [http_sent set_endpoint set_headers]. lia.
Qed.

(** A call of [invoke] that returns has sent one request, has not slept
    and has left the objects of the namespace. *)
Lemma invoke_ok_posts image memory payload return_result w r w' :
  invoke image memory payload return_result w = (Ok r, w') ->
  posts w' = S (posts w).
Proof.
  destruct (invoke_cases image memory payload return_result w)
    as [(e & -> & _) | (host & w1 & _ & _ & Hw & ->)]; [discriminate|].
  destruct (connection w1 (endpoint_for host w1)); [|discriminate].
  intros H. injection H as _ <-. rewrite Hw. unfold posts, after_invoke.
  cbn [http_sent set_http_sent set_endpoint set_headers set_service_hosts].
  rewrite List.length_app. cbn [length]. lia.
Qed.

Lemma invoke_slept image memory payload return_result w :
  slept (snd (invoke image memory payload return_result w)) = slept w.
Proof.
  destruct (invoke_cases image memory payload return_result w)
    as [(e & -> & _) | (host & w1 & _ & _ & Hw & ->)]; [reflexivity|].
  destruct (connection w1 (endpoint_for host w1)); cbn [snd]; rewrite Hw; reflexivity.
Qed.

Lemma invoke_objects image memory payload return_result w :
  objects (snd (invoke image memory payload return_result w)) = objects w.
Proof.
  destruct (invoke_cases image memory payload return_result w)
    as [(e & -> & _) | (host & w1 & _ & _ & Hw & ->)]; [reflexivity|].
  destruct (connection w1 (endpoint_for host w1)); cbn [snd]; rewrite Hw; reflexivity.
Qed.

End Invoke.

Section RetryClaims.

Import Spec ComputeM.

(** C3, as amended: with retries enabled and [retries = 3], for a handler
    whose calls are counted by [calls]. With a sleep to choose, none of
    them negative, and [executor_id] and [call_id] in the payload: when the
    first call of the handler and the two calls that follow, each after
    one pause, all return a false value, [Compute.invoke] returns the third
    of them, in the state that the third call leaves, without raising.
    When the first call returns a true value, [Compute.invoke] returns it
    in the state that this one call leaves, whatever the sleeps and the
    payload. In every case the handler is called at most three times. And
    when the first call returns a false value and the loop cannot pause,
    [Compute.invoke] raises after this one call: [IndexError] with no
    sleep to choose, [KeyError] with an identifier missing, [ValueError]
    with negative sleeps. *)
Theorem compute_invoke_attempts (self : Compute) (runtime_name : string)
    (memory : Z) (payload : gmap string json) (calls : world -> nat) :
  invocation_retry self = true ->
  retries self = 3 ->
  (forall v w, calls (set_slept v w) = calls w) ->
  (forall v w, calls (set_rand_drawn v w) = calls w) ->
  (forall w, (calls (snd (h_invoke (compute_handler self) runtime_name memory payload w))
              <= S (calls w))%nat) ->
  forall w,
    (retry_sleeps self <> [] ->
     Forall (fun s => 0 <= s) (retry_sleeps self) ->
     is_Some (payload !! "executor_id") ->
     is_Some (payload !! "call_id") ->
     forall r1 w1 r2 w2 r3 w3,
       h_invoke (compute_handler self) runtime_name memory payload w = (Ok r1, w1) ->
       Json.truthy r1 = false ->
       h_invoke (compute_handler self) runtime_name memory payload (pause self w1)
       = (Ok r2, w2) ->
       Json.truthy r2 = false ->
       h_invoke (compute_handler self) runtime_name memory payload (pause self w2)
       = (Ok r3, w3) ->
       Json.truthy r3 = false ->
       invoke self runtime_name memory payload w = (Ok r3, w3))
    /\ (forall r1 w1,
          h_invoke (compute_handler self) runtime_name memory payload w = (Ok r1, w1) ->
          Json.truthy r1 = true ->
          invoke self runtime_name memory payload w = (Ok r1, w1))
    /\ (calls (snd (invoke self runtime_name memory payload w)) <= calls w + 3)%nat
    /\ (forall r1 w1,
          h_invoke (compute_handler self) runtime_name memory payload w = (Ok r1, w1) ->
          Json.truthy r1 = false ->
          (retry_sleeps self = [] ->
           invoke self runtime_name memory payload w = (Raise IndexError, w1))
          /\ (retry_sleeps self <> [] -> payload !! "executor_id" = None ->
              invoke self runtime_name memory payload w
              = (Raise (KeyError "executor_id"), set_rand_drawn (S (rand_drawn w1)) w1))
          /\ (retry_sleeps self <> [] -> is_Some (payload !! "executor_id") ->
              payload !! "call_id" = None ->
              invoke self runtime_name memory payload w
              = (Raise (KeyError "call_id"), set_rand_drawn (S (rand_drawn w1)) w1))
          /\ (retry_sleeps self <> [] ->
              Forall (fun s => s < 0) (retry_sleeps self) ->
              is_Some (payload !! "executor_id") -> is_Some (payload !! "call_id") ->
              invoke self runtime_name memory payload w
              = (Raise ValueError, set_rand_drawn (S (rand_drawn w1)) w1))).
Proof.
  intros Hretry Hmax Hslept Hdrawn Hhandler w.
  split; [|split; [|split]].
  - intros Hsleeps Hpos Hexec Hcall r1 w1 r2 w2 r3 w3 H1 F1 H2 F2 H3 F3.
    unfold invoke. rewrite (bind_ok _ _ _ _ _ H1).
    rewrite retry_loop_again by (assumption || lia).
    rewrite retry_body_pause by assumption. rewrite H2.
    rewrite retry_loop_again by (assumption || lia).
    rewrite retry_body_pause by assumption. rewrite H3.
    apply retry_loop_stop. left. lia.
  - intros r1 w1 H1 T1. unfold invoke. rewrite (bind_ok _ _ _ _ _ H1).
    apply retry_loop_stop. auto.
  - pose proof (invoke_calls self runtime_name memory payload calls
                  Hslept Hdrawn Hhandler w) as H.
    rewrite Hmax in H. exact H.
  - intros r1 w1 H1 F1.
    pose proof (invoke_retry_due self runtime_name memory payload w r1 w1 H1 F1 Hretry
                  ltac:(lia)) as E.
    destruct (retry_body_raises self runtime_name memory payload w1)
      as (R1 & R2 & R3 & R4).
    split; [|split; [|split]].
    + intros Hs. rewrite E, (R1 Hs). reflexivity.
    + intros Hs He. rewrite E, (R2 Hs He). reflexivity.
    + intros Hs He Hc. rewrite E, (R3 Hs He Hc). reflexivity.
    + intros Hs Hn He Hc. rewrite E, (R4 Hs Hn He Hc). reflexivity.
Qed.

(** The runtime answers every request with a 500: three requests, two
    sleeps, and [None]. It accepts the first request: one request. *)
Lemma compute_invoke_attempts_witness :
  let failing := Sample.with_http (fun _ => HttpResponse 500 None) Sample.deployed in
  let accepting :=
    Sample.with_http
      (fun _ => HttpResponse 202 (Some (JObj [("activationId", JStr "a1")])))
      Sample.deployed in
  let invoke := invoke (Sample.compute 3) "jsampe/kn-runtime" 256 Sample.payload in
  (fst (invoke failing) = Ok JNull
   /\ posts (snd (invoke failing)) = 3%nat
   /\ length (slept (snd (invoke failing))) = 2%nat)
  /\ (fst (invoke accepting) = Ok (JStr "a1")
      /\ posts (snd (invoke accepting)) = 1%nat
      /\ slept (snd (invoke accepting)) = [])
  /\ (posts (snd (invoke failing)) <= posts failing + 3)%nat.
Proof.
  intros failing accepting invoke.
  assert (Hexec : is_Some (Sample.payload !! "executor_id")) by (eexists; reflexivity).
  assert (Hcall : is_Some (Sample.payload !! "call_id")) by (eexists; reflexivity).
  assert (Hsleeps : retry_sleeps (Sample.compute 3) <> []) by discriminate.
  assert (Hpos : Forall (fun s => 0 <= s) (retry_sleeps (Sample.compute 3)))
    by (repeat constructor; lia).
  pose proof (fun w =>
    compute_invoke_attempts (Sample.compute 3) "jsampe/kn-runtime" 256 Sample.payload
      posts eq_refl eq_refl (fun v w => eq_refl) (fun v w => eq_refl)
      (fun w => invoke_posts "jsampe/kn-runtime" 256 Sample.payload false w) w) as H.
  split; [|split].
  - destruct (H failing) as [Hfail _]. unfold invoke.
    set (h := h_invoke (compute_handler (Sample.compute 3)) "jsampe/kn-runtime" 256
                Sample.payload) in *.
    set (w1 := snd (h failing)).
    set (w2 := snd (h (pause (Sample.compute 3) w1))).
    set (w3 := snd (h (pause (Sample.compute 3) w2))).
    assert (E1 : h failing = (Ok JNull, w1)) by (vm_compute; reflexivity).
    assert (E2 : h (pause (Sample.compute 3) w1) = (Ok JNull, w2)) by (vm_compute; reflexivity).
    assert (E3 : h (pause (Sample.compute 3) w2) = (Ok JNull, w3)) by (vm_compute; reflexivity).
    rewrite (Hfail Hsleeps Hpos Hexec Hcall _ _ _ _ _ _ E1 eq_refl E2 eq_refl E3 eq_refl).
    repeat split; vm_compute; reflexivity.
  - destruct (H accepting) as [_ [Hacc _]]. unfold invoke.
    set (h := h_invoke (compute_handler (Sample.compute 3)) "jsampe/kn-runtime" 256
                Sample.payload) in *.
    assert (E1 : h accepting = (Ok (JStr "a1"), snd (h accepting))) by (vm_compute; reflexivity).
    rewrite (Hacc _ _ E1 eq_refl).
    repeat split; vm_compute; reflexivity.
  - destruct (H failing) as [_ [_ [Hle _]]]. exact Hle.
Defined.

(** C3 as stated fails: with retries enabled, [retries = 3] and a runtime
    that answers every request with a 500, [Compute.invoke] with no sleep
    to choose raises [IndexError] after one request, and with a negative
    sleep it raises [ValueError] after one request. *)
Lemma compute_invoke_attempts_counterexample :
  let failing := Sample.with_http (fun _ => HttpResponse 500 None) Sample.deployed in
  let sleeping sleeps :=
    {| invocation_retry := true; retry_sleeps := sleeps; retries := 3;
       compute_handler := knative_backend Sample.kconfig "1.2.0" "3.7" |} in
  let invoke sleeps := invoke (sleeping sleeps) "jsampe/kn-runtime" 256 Sample.payload in
  (fst (invoke [] failing) = Raise IndexError
   /\ posts (snd (invoke [] failing)) = 1%nat)
  /\ (fst (invoke [-1] failing) = Raise ValueError
      /\ posts (snd (invoke [-1] failing)) = 1%nat).
Proof. repeat split; vm_compute; reflexivity. Qed.

(** C2, on the code: when the runtime answers 404, [invoke] of the backend
    returns [None] instead of raising, and [Compute.invoke], with retries
    enabled and [retries = 3], goes on to send three requests. *)
Lemma invoke_404_is_retried :
  let w := Sample.with_http (fun _ => HttpResponse 404 None) Sample.deployed in
  Knative.invoke "jsampe/kn-runtime" 256 Sample.payload false w
  = (Ok JNull,
     set_http_sent
       [{| rq_endpoint := "http://10.0.0.1:31380"; rq_route := JStr "/";
           rq_headers := <["Host" := "kn.default.example.com"]> (headers w);
           rq_payload := Sample.payload |}]
       (set_headers (<["Host" := "kn.default.example.com"]> (headers w)) w))
  /\ fst (invoke (Sample.compute 3) "jsampe/kn-runtime" 256 Sample.payload w) = Ok JNull
  /\ posts (snd (invoke (Sample.compute 3) "jsampe/kn-runtime" 256 Sample.payload w))
     = 3%nat.
Proof.
  intros w. split; [vm_compute; reflexivity|].
  split; vm_compute; reflexivity.
Qed.

End RetryClaims.

(** ** Readiness waits *)

Section Readiness.

Import Spec Knative.

Lemma condition_true_spec l i :
  condition_true (JList l) i
  = match nth_error l i with
    | Some c =>
        match Json.getitem c "status" with
        | Ok s => Ok (Json.eq_str s "True")
        | Raise e => Raise e
        end
    | None => Raise IndexError
    end.
Proof. unfold condition_true, Json.index. destruct (nth_error l i); reflexivity. Qed.

Lemma condition_true_iff l i :
  condition_true (JList l) i = Ok true
  <-> exists c, nth_error l i = Some c /\ has_true_status c = true.
Proof.
  rewrite condition_true_spec. unfold has_true_status. split.
  - destruct (nth_error l i) as [c|]; [|discriminate]. intros H. exists c.
    split; [reflexivity|]. destruct (Json.getitem c "status"); congruence.
  - intros (c & -> & H). destruct (Json.getitem c "status"); congruence.
Qed.

Lemma conditions_ready_iff conditions :
  conditions_ready conditions = Ok true
  <-> Json.truthy conditions = true
      /\ condition_true conditions 0 = Ok true
      /\ condition_true conditions 1 = Ok true
      /\ condition_true conditions 2 = Ok true.
Proof.
  unfold conditions_ready. destruct (Json.truthy conditions).
  - destruct (condition_true conditions 0) as [[|]|e];
      destruct (condition_true conditions 1) as [[|]|e'];
      destruct (condition_true conditions 2) as [[|]|e''];
      split; intros H; try discriminate; try (decompose [and] H; discriminate);
      auto.
  - split; [discriminate|]. intros [H _]. discriminate.
Qed.

(** C4, as amended: the readiness test of the watch loop reads the
    conditions array by position. It succeeds exactly when the array has
    entries 0, 1 and 2 and the [status] of each of them is ['True']; the
    types of the conditions play no part: two arrays with the same
    statuses, position by position, give the same answer. *)
Theorem conditions_ready_positional :
  (forall l,
     conditions_ready (JList l) = Ok true
     <-> exists c0 c1 c2 rest,
           l = c0 :: c1 :: c2 :: rest
           /\ has_true_status c0 = true /\ has_true_status c1 = true
           /\ has_true_status c2 = true)
  /\ (forall l l',
        List.map (fun c => Json.getitem c "status") l
        = List.map (fun c => Json.getitem c "status") l' ->
        conditions_ready (JList l) = conditions_ready (JList l')).
Proof.
  split.
  - intros l. rewrite conditions_ready_iff, !condition_true_iff. split.
    + intros (_ & (c0 & H0 & S0) & (c1 & H1 & S1) & (c2 & H2 & S2)).
      destruct l as [|x0 [|x1 [|x2 rest]]]; try discriminate.
      cbn in H0, H1, H2. injection H0 as ->. injection H1 as ->. injection H2 as ->.
      exists c0, c1, c2, rest. auto.
    + intros (c0 & c1 & c2 & rest & -> & S0 & S1 & S2).
      split; [reflexivity|]. repeat split; eexists; (split; [reflexivity|assumption]).
  - intros l l' H. unfold conditions_ready. rewrite !condition_true_spec.
    assert (Hn : forall i,
      match nth_error l i with
      | Some c => match Json.getitem c "status" with
                  | Ok s => Ok (Json.eq_str s "True") | Raise e => Raise e end
      | None => Raise IndexError
      end
      = match nth_error l' i with
        | Some c => match Json.getitem c "status" with
                    | Ok s => Ok (Json.eq_str s "True") | Raise e => Raise e end
        | None => Raise IndexError
        end).
    { intros i.
      pose proof (f_equal (fun m => nth_error m i) H) as Hi. cbv beta in Hi.
      rewrite !nth_error_map in Hi.
      destruct (nth_error l i), (nth_error l' i); try discriminate; [|reflexivity].
      cbn in Hi. injection Hi as ->. reflexivity. }
    rewrite !Hn.
    destruct l, l'; try discriminate; reflexivity.
Qed.

(** C4 as stated fails: with a fourth condition in the array, the three
    entries in front are ['True'] and the test succeeds although the
    condition of type [Ready] is ['False']; and the same conditions in
    another order give another answer. *)
Lemma conditions_ready_counterexample :
  let front := [Sample.condition "Active" "True";
                Sample.condition "ConfigurationsReady" "True";
                Sample.condition "RoutesReady" "True"] in
  let ready := Sample.condition "Ready" "False" in
  conditions_ready (JList (front ++ [ready])) = Ok true
  /\ ready_by_type ["ConfigurationsReady"; "Ready"; "RoutesReady"] (front ++ [ready])
     = false
  /\ Permutation (front ++ [ready]) (ready :: front)
  /\ conditions_ready (JList (ready :: front)) = Ok false.
Proof.
  intros front ready. split; [reflexivity|]. split; [reflexivity|].
  split; [|reflexivity].
  symmetry. apply (Permutation_cons_append front ready).
Qed.

End Readiness.

Section Waits.

Import Spec Knative.

Lemma get_none_not_ready object :
  Json.get object "status" = Ok JNull -> ~ ready_event object.
Proof.
  unfold Json.get, ready_event, Json.getitem.
  destruct object as [| | | | |kvs]; try discriminate.
  destruct (Json.assoc "status" kvs) as [v|]; cbn [default].
  - intros [= ->] (st & cs & [= <-] & H & _). discriminate.
  - intros _ (st & cs & H & _). discriminate.
Qed.

Lemma watch_service_no_status object rest url w :
  Json.get object "status" = Ok JNull ->
  watch_service (object :: rest) url w = watch_service rest url w.
Proof.
  intros H. cbn [watch_service]. unfold bind, lift, ret. rewrite H. reflexivity.
Qed.

Lemma watch_task_run_no_status object rest pod_name w :
  Json.get object "status" = Ok JNull ->
  watch_task_run (object :: rest) pod_name w = watch_task_run rest pod_name w.
Proof.
  intros H. cbn [watch_task_run]. unfold bind, lift. rewrite H. reflexivity.
Qed.

(** The watch loop of [_create_service] ends normally in two ways only:
    at the first event that passes the readiness test, after the settle
    sleep, or at the end of the stream, having changed nothing. *)
Lemma watch_service_ok events :
  forall url w r w',
  watch_service events url w = (Ok r, w') ->
  (w' = w /\ Forall (fun object => ~ ready_event object) events)
  \/ exists pre object post,
       events = (pre ++ object :: post)%list
       /\ Forall (fun object => ~ ready_event object) pre
       /\ ready_event object
       /\ w' = set_slept (slept w ++ [1]) w.
Proof.
  induction events as [|object rest IH]; intros url w r w' H.
  - injection H as _ <-. left. split; [reflexivity | constructor].
  - assert (Hrec : forall url0, ~ ready_event object ->
              watch_service rest url0 w = (Ok r, w') ->
              (w' = w /\ Forall (fun object => ~ ready_event object) (object :: rest))
              \/ exists pre object0 post,
                   object :: rest = (pre ++ object0 :: post)%list
                   /\ Forall (fun object => ~ ready_event object) pre
                   /\ ready_event object0
                   /\ w' = set_slept (slept w ++ [1]) w).
    { intros url0 Hn H0. destruct (IH _ _ _ _ H0) as [[-> Hall]|(pre & o & post & -> & Hpre & Ho & ->)].
      - left. split; [reflexivity | constructor; assumption].
      - right. exists (object :: pre), o, post. repeat split; auto. }
    cbn [watch_service] in H. unfold bind, lift, ret in H.
    destruct (Json.get object "status") as [st|e] eqn:Hget; [|discriminate].
    destruct (Json.is_none st) eqn:Hnone; cbn [negb] in H.
    + destruct st; try discriminate. cbn in H.
      apply (Hrec url); [apply get_none_not_ready; exact Hget | exact H].
    + destruct (Json.getitem object "status") as [st'|e] eqn:Hst; [|discriminate].
      destruct (Json.getitem st' "conditions") as [cs|e] eqn:Hcs; [|discriminate].
      destruct (Json.get st' "url") as [u|e]; [|discriminate].
      assert (Hnot : conditions_ready cs = Ok false -> ~ ready_event object).
      { intros Hf (st0 & cs0 & H1 & H2 & H3). congruence. }
      destruct (Json.is_none u); cbn [negb] in H.
      * destruct (conditions_ready cs) as [[|]|e] eqn:Hr; [| |discriminate].
        -- unfold sleep, modify in H. injection H as _ <-.
           right. exists [], object, rest. repeat split; [constructor|].
           exists st', cs. auto.
        -- apply (Hrec url); [apply Hnot; reflexivity | exact H].
      * destruct (Json.getitem st' "url") as [url'|e]; [|discriminate].
        destruct (conditions_ready cs) as [[|]|e] eqn:Hr; [| |discriminate].
        -- unfold sleep, modify in H. injection H as _ <-.
           right. exists [], object, rest. repeat split; [constructor|].
           exists st', cs. auto.
        -- apply (Hrec (Some url')); [apply Hnot; reflexivity | exact H].
Qed.

Lemma watch_pod_failed pod rest w :
  pod_phase pod = Ok (Some "Failed") ->
  watch_pod (pod :: rest) w
  = (Raise (Exception "Unable to create the Docker image from the git repository"), w).
Proof. intros H. cbn [watch_pod]. unfold bind, lift. rewrite H. reflexivity. Qed.

Lemma watch_pod_succeeded pod rest w :
  pod_phase pod = Ok (Some "Succeeded") -> watch_pod (pod :: rest) w = (Ok tt, w).
Proof. intros H. cbn [watch_pod]. unfold bind, lift. rewrite H. reflexivity. Qed.

Lemma watch_pod_other pod rest w ph :
  pod_phase pod = Ok ph -> phase_is ph "Succeeded" = false ->
  phase_is ph "Failed" = false ->
  watch_pod (pod :: rest) w = watch_pod rest w.
Proof.
  intros H H1 H2. cbn [watch_pod]. unfold bind, lift. rewrite H, H1, H2. reflexivity.
Qed.

(** C5, as amended: the wait of [_create_service] returns normally only at
    the first event whose conditions pass the positional readiness test,
    after one settle sleep of a second, or when the stream of events ends;
    it takes no deadline. An event without a status is skipped, in this
    wait and in the wait on the task run. The wait on the build's pod ends
    with an exception at the first event in phase [Failed], ends normally
    at the first in phase [Succeeded], and goes on at any other phase. *)
Theorem readiness_wait_behaviour :
  (forall events url w r w',
     watch_service events url w = (Ok r, w') ->
     (w' = w /\ Forall (fun object => ~ ready_event object) events)
     \/ exists pre object post,
          events = (pre ++ object :: post)%list
          /\ Forall (fun object => ~ ready_event object) pre
          /\ ready_event object
          /\ w' = set_slept (slept w ++ [1]) w)
  /\ (forall object rest url w,
        Json.get object "status" = Ok JNull ->
        watch_service (object :: rest) url w = watch_service rest url w)
  /\ (forall object rest pod_name w,
        Json.get object "status" = Ok JNull ->
        watch_task_run (object :: rest) pod_name w = watch_task_run rest pod_name w)
  /\ (forall pod rest w,
        pod_phase pod = Ok (Some "Failed") ->
        watch_pod (pod :: rest) w
        = (Raise (Exception "Unable to create the Docker image from the git repository"),
           w))
  /\ (forall pod rest w,
        pod_phase pod = Ok (Some "Succeeded") -> watch_pod (pod :: rest) w = (Ok tt, w))
  /\ (forall pod rest w ph,
        pod_phase pod = Ok ph -> phase_is ph "Succeeded" = false ->
        phase_is ph "Failed" = false ->
        watch_pod (pod :: rest) w = watch_pod rest w).
Proof.
  split; [exact watch_service_ok|].
  split; [exact watch_service_no_status|].
  split; [exact watch_task_run_no_status|].
  split; [exact watch_pod_failed|].
  split; [exact watch_pod_succeeded | exact watch_pod_other].
Qed.

(** C5 as stated fails. First stream: the only event has three conditions
    without a type, all ['True']; the wait reports ready although no
    condition type at all was observed true. Second stream: the first
    event reports the three conditions ['False'], a failure; the wait goes
    on and ends, ready, at the second event. *)
Lemma readiness_wait_counterexample :
  let url := JStr "http://kn.default.example.com" in
  let untyped := JObj [("status", JStr "True")] in
  let ev_untyped :=
    Sample.service "s" "pywren-runtime"
      (Some (JObj [("conditions", JList [untyped; untyped; untyped]); ("url", url)])) in
  let failed :=
    Sample.service "s" "pywren-runtime"
      (Some (JObj [("conditions",
                    JList [Sample.condition "ConfigurationsReady" "False";
                           Sample.condition "Ready" "False";
                           Sample.condition "RoutesReady" "False"])])) in
  let ready :=
    Sample.service "s" "pywren-runtime"
      (Some (JObj [("conditions",
                    JList [Sample.condition "ConfigurationsReady" "True";
                           Sample.condition "Ready" "True";
                           Sample.condition "RoutesReady" "True"]); ("url", url)])) in
  (watch_service [ev_untyped] None Sample.empty
   = (Ok (Some url), set_slept [1] Sample.empty)
   /\ forall ty, observed_true ty [ev_untyped] = false)
  /\ watch_service [failed; ready] None Sample.empty
     = (Ok (Some url), set_slept [1] Sample.empty).
Proof.
  intros url untyped ev_untyped failed ready.
  split; [split; [reflexivity|]|reflexivity].
  intros ty. reflexivity.
Qed.

End Waits.
(** ** Facts on the lifecycle methods *)

Section LifecycleFacts.

Import PyStr Spec More Knative.

Context (kconfig : Kconfig) (version : string).

Lemma watch_service_objects events url w r w' :
  watch_service events url w = (Ok r, w') ->
  objects w' = objects w /\ namespace w' = namespace w
  /\ knative_config w' = knative_config w.
Proof.
  intros H. destruct (watch_service_ok _ _ _ _ _ H) as [[-> _] | (? & ? & ? & _ & _ & _ & ->)];
    repeat split.
Qed.

Lemma keeps_hosts_bind {A B} (m : M A) (k : A -> M B) :
  keeps_hosts m -> (forall a, keeps_hosts (k a)) -> keeps_hosts (bind m k).
Proof.
  intros Hm Hk w r w'. unfold bind. destruct (m w) as [[a|e] w1] eqn:E.
  - intros H. rewrite (Hk a _ _ _ H). apply (Hm _ _ _ E).
  - intros [= _ <-]. apply (Hm _ _ _ E).
Qed.

Lemma raises_keeping_hosts_bind {A B} (m : M A) (k : A -> M B) :
  keeps_hosts m -> (forall a, raises_keeping_hosts (k a)) ->
  raises_keeping_hosts (bind m k).
Proof.
  intros Hm Hk w e w'. unfold bind. destruct (m w) as [[a|e0] w1] eqn:E.
  - intros H. rewrite (Hk a _ _ _ H). apply (Hm _ _ _ E).
  - intros [= _ <-]. apply (Hm _ _ _ E).
Qed.

Lemma keeps_hosts_lift {A} (r : result A) : keeps_hosts (lift r).
Proof. intros w r0 w' [= _ <-]. reflexivity. Qed.

Lemma keeps_hosts_gets {A} (f : world -> A) : keeps_hosts (gets f).
Proof. intros w r0 w' [= _ <-]. reflexivity. Qed.

Lemma keeps_hosts_ret {A} (a : A) : keeps_hosts (ret a).
Proof. intros w r0 w' [= _ <-]. reflexivity. Qed.

Lemma keeps_hosts_raise {A} (e : exn) : keeps_hosts (raise e : M A).
Proof. intros w r0 w' [= _ <-]. reflexivity. Qed.

Lemma keeps_hosts_lookup_key {V} (d : gmap string V) k : keeps_hosts (lookup_key d k).
Proof.
  unfold lookup_key. destruct (d !! k); [apply keeps_hosts_ret | apply keeps_hosts_raise].
Qed.

Lemma keeps_hosts_sleep secs : keeps_hosts (sleep secs).
Proof.
  unfold sleep. destruct (secs <? 0); [apply keeps_hosts_raise|].
  intros w r w' [= _ <-]. reflexivity.
Qed.

Lemma keeps_hosts_try_delete plural name :
  keeps_hosts (try_except (Api.delete plural name) (fun _ => ret tt)).
Proof. intros w r w'. rewrite try_delete. intros [= _ <-]. reflexivity. Qed.

Lemma keeps_hosts_create plural body : keeps_hosts (Api.create plural body).
Proof.
  intros w r w'. unfold Api.create, bind, gets, modify, raise.
  destruct (Api.name_of body); [|intros [= _ <-]; reflexivity].
  destruct (existsb _ (objects w)); intros [= _ <-]; reflexivity.
Qed.

Lemma keeps_hosts_watch_service events : forall url, keeps_hosts (watch_service events url).
Proof.
  induction events as [|object rest IH]; intros url; cbn [watch_service].
  - apply keeps_hosts_ret.
  - apply keeps_hosts_bind; [apply keeps_hosts_lift|]. intros st.
    apply keeps_hosts_bind.
    + destruct (negb (Json.is_none st)); [|apply keeps_hosts_ret].
      apply keeps_hosts_bind; [apply keeps_hosts_lift|]. intros st'.
      apply keeps_hosts_bind; [apply keeps_hosts_lift|]. intros cs.
      apply keeps_hosts_bind; [apply keeps_hosts_lift|]. intros u.
      destruct (negb (Json.is_none u)); [|apply keeps_hosts_ret].
      apply keeps_hosts_bind; [apply keeps_hosts_lift|]. intros u'.
      apply keeps_hosts_ret.
    + intros [cs su]. apply keeps_hosts_bind; [apply keeps_hosts_lift|]. intros [|].
      * apply keeps_hosts_bind; [apply keeps_hosts_sleep|]. intros _.
        apply keeps_hosts_ret.
      * apply IH.
Qed.

(** When [_create_service] raises, at whatever step, also after it has
    deleted and created the service, the host cache is as it was. *)
Lemma create_service_raise_cache image memory timeout w e w' :
  _create_service kconfig version image memory timeout w = (Raise e, w') ->
  service_hosts w' = service_hosts w.
Proof.
  revert w e w'. change (raises_keeping_hosts
                           (_create_service kconfig version image memory timeout)).
  unfold _create_service.
  apply raises_keeping_hosts_bind; [apply keeps_hosts_lift|]. intros s1.
  apply raises_keeping_hosts_bind; [apply keeps_hosts_gets|]. intros ns.
  apply raises_keeping_hosts_bind; [apply keeps_hosts_lift|]. intros s2.
  apply raises_keeping_hosts_bind; [apply keeps_hosts_lift|]. intros s3.
  apply raises_keeping_hosts_bind; [apply keeps_hosts_gets|]. intros cfg.
  apply raises_keeping_hosts_bind; [apply keeps_hosts_lookup_key|]. intros repo.
  apply raises_keeping_hosts_bind; [apply keeps_hosts_lift|]. intros s4.
  apply raises_keeping_hosts_bind; [apply keeps_hosts_lift|]. intros s5.
  apply raises_keeping_hosts_bind; [apply keeps_hosts_try_delete|]. intros _.
  apply raises_keeping_hosts_bind; [apply keeps_hosts_create|]. intros _.
  apply raises_keeping_hosts_bind; [apply keeps_hosts_gets|]. intros events.
  apply raises_keeping_hosts_bind; [apply keeps_hosts_watch_service|]. intros [url|].
  - apply raises_keeping_hosts_bind; [apply keeps_hosts_lift|]. intros host.
    intros w e w'. unfold bind, modify, ret. discriminate.
  - intros w e w' [= _ <-]. reflexivity.
Qed.

(** The service document that [_create_service] sends, and the state it
    leaves, when it returns. *)
Lemma create_service_ok image memory timeout w url w' :
  _create_service kconfig version image memory timeout w = (Ok url, w') ->
  exists svc repo,
    knative_config w !! "docker_repo" = Some repo
    /\ objects w'
       = (List.filter
            (fun r => negb (Api.is_obj "services" (_format_service_name image memory) r))
            (objects w)
          ++ [{| r_plural := "services"; r_body := svc |}])%list
    /\ Json.get_path svc ["metadata"; "name"]
       = Ok (JStr (_format_service_name image memory))
    /\ Json.get_path svc ["metadata"; "namespace"] = Ok (JStr (namespace w))
    /\ Json.get_path svc ["spec"; "template"; "spec"; "timeoutSeconds"] = Ok (JNum timeout)
    /\ Json.get_path svc ["spec"; "template"; "spec"; "container"; "image"]
       = Ok (JStr ((repo +:+ "/" +:+ image) +:+ ":" +:+ revision version))
    /\ Json.get_path svc
         ["spec"; "template"; "spec"; "container"; "resources"; "limits"; "memory"]
       = Ok (JStr (str memory +:+ "Mi"))
    /\ (forall q, forallb (diverge q) written_paths = true ->
          Json.get_path svc q = Json.get_path (service_res kconfig) q).
Proof.
  intros H. unfold _create_service in H. fold (revision version) in H.
  apply bind_ok_inv in H as (s1 & w1 & H1 & H). apply lift_ok_inv in H1 as [H1 ->].
  apply bind_ok_inv in H as (ns & w1 & Hns & H). injection Hns as <- <-.
  apply bind_ok_inv in H as (s2 & w1 & H2 & H). apply lift_ok_inv in H2 as [H2 ->].
  apply bind_ok_inv in H as (s3 & w1 & H3 & H). apply lift_ok_inv in H3 as [H3 ->].
  apply bind_ok_inv in H as (cfg & w1 & Hc & H). injection Hc as <- <-.
  apply bind_ok_inv in H as (repo & w1 & Hr & H).
  unfold lookup_key in Hr.
  destruct (knative_config w !! "docker_repo") as [repo'|] eqn:Hrepo; [|discriminate].
  injection Hr as <- <-.
  apply bind_ok_inv in H as (s4 & w1 & H4 & H). apply lift_ok_inv in H4 as [H4 ->].
  apply bind_ok_inv in H as (s5 & w1 & H5 & H). apply lift_ok_inv in H5 as [H5 ->].
  apply bind_ok_inv in H as ([] & w1 & Hd & H).
  change (try_except (Api.delete "services" (_format_service_name image memory))
            (fun _ => ret tt) w)
    with (delete_runtime image memory w) in Hd.
  rewrite delete_runtime_spec in Hd. injection Hd as <-.
  assert (N1 : Json.get_path s1 ["metadata"; "name"]
               = Ok (JStr (_format_service_name image memory)))
    by (apply (set_path_get_eq ["metadata"] _ _ _ _ H1)).
  assert (N5 : Json.get_path s5 ["metadata"; "name"]
               = Ok (JStr (_format_service_name image memory))).
  { rewrite (set_path_get_diverge _ _ _ _ _ ["metadata"; "name"] H5 eq_refl),
            (set_path_get_diverge _ _ _ _ _ ["metadata"; "name"] H4 eq_refl),
            (set_path_get_diverge _ _ _ _ _ ["metadata"; "name"] H3 eq_refl),
            (set_path_get_diverge _ _ _ _ _ ["metadata"; "name"] H2 eq_refl). exact N1. }
  apply bind_ok_inv in H as ([] & w1 & Hcr & H).
  rewrite (create_absent "services" s5 (_format_service_name image memory)) in Hcr.
  2:{ unfold Api.name_of. rewrite N5. reflexivity. }
  2:{ cbn [objects set_objects]. apply existsb_filter_negb. }
  injection Hcr as <-. cbn [objects set_objects] in H.
  apply bind_ok_inv in H as (events & w1 & He & H). injection He as <- <-.
  apply bind_ok_inv in H as (su & w1 & Hw & H).
  apply watch_service_objects in Hw as (Ho & _ & _). cbn [objects set_objects] in Ho.
  destruct su as [u|]; [|discriminate].
  apply bind_ok_inv in H as (host & w2 & Hh & H). apply lift_ok_inv in Hh as [_ ->].
  apply bind_ok_inv in H as ([] & w2 & Hm & H). injection Hm as <-. injection H as _ <-.
  exists s5, repo'. split; [reflexivity|]. split; [exact Ho|]. split; [exact N5|].
  split.
  { rewrite (set_path_get_diverge _ _ _ _ _ ["metadata"; "namespace"] H5 eq_refl),
            (set_path_get_diverge _ _ _ _ _ ["metadata"; "namespace"] H4 eq_refl),
            (set_path_get_diverge _ _ _ _ _ ["metadata"; "namespace"] H3 eq_refl).
    apply (set_path_get_eq ["metadata"] _ _ _ _ H2). }
  split.
  { rewrite (set_path_get_diverge _ _ _ _ _
               ["spec"; "template"; "spec"; "timeoutSeconds"] H5 eq_refl),
            (set_path_get_diverge _ _ _ _ _
               ["spec"; "template"; "spec"; "timeoutSeconds"] H4 eq_refl).
    apply (set_path_get_eq ["spec"; "template"; "spec"] _ _ _ _ H3). }
  split.
  { rewrite (set_path_get_diverge _ _ _ _ _
               ["spec"; "template"; "spec"; "container"; "image"] H5 eq_refl).
    apply (set_path_get_eq ["spec"; "template"; "spec"; "container"] _ _ _ _ H4). }
  split.
  { apply (set_path_get_eq
             ["spec"; "template"; "spec"; "container"; "resources"; "limits"] _ _ _ _ H5). }
  intros q Hq. cbn [forallb written_paths] in Hq.
  apply andb_true_iff in Hq as [Q1 Hq]. apply andb_true_iff in Hq as [Q2 Hq].
  apply andb_true_iff in Hq as [Q3 Hq]. apply andb_true_iff in Hq as [Q4 Hq].
  apply andb_true_iff in Hq as [Q5 _].
  rewrite (set_path_get_diverge _ _ _ _ _ _ H5 Q5),
          (set_path_get_diverge _ _ _ _ _ _ H4 Q4),
          (set_path_get_diverge _ _ _ _ _ _ H3 Q3),
          (set_path_get_diverge _ _ _ _ _ _ H2 Q2),
          (set_path_get_diverge _ _ _ _ _ _ H1 Q1). reflexivity.
Qed.

Lemma create_service_owned image memory timeout w url w' :
  has_ownership_label (service_res kconfig) = true ->
  decodable_image image = true -> 0 <= memory ->
  _create_service kconfig version image memory timeout w = (Ok url, w') ->
  In (image, memory) (owned_runtimes w').
Proof.
  intros Hl Hd Hm H.
  destruct (create_service_ok _ _ _ _ _ _ H) as (svc & repo & _ & Ho & Hn & _ & _ & _ & _ & Hq).
  apply In_owned_runtimes. exists svc. split; [|split].
  - unfold services. rewrite Ho, List.filter_app, List.map_app. apply in_or_app. right.
    left. reflexivity.
  - unfold has_ownership_label in *.
    rewrite (Hq ["spec"; "template"; "metadata"; "labels"; "type"] eq_refl). exact Hl.
  - unfold decoded, Api.name_of. rewrite Hn.
    rewrite (unformat_format_decodable _ _ Hd Hm). reflexivity.
Qed.

(** [_generate_runtime_meta] in terms of the outcome of its call of
    [invoke]. *)
Lemma generate_runtime_meta_invoke image memory w :
  _generate_runtime_meta image memory w
  = match invoke image memory {["service_route" := JStr "/preinstalls"]} true w with
    | (Raise e, w') => (Raise (ExceptionOf "Unable to invoke 'modules' action {}" e), w')
    | (Ok meta, w') =>
        if Json.truthy meta then
          match Json.contains "preinstalls" meta with
          | Ok true => (Ok meta, w')
          | Ok false =>
              (Raise (ExceptionAbout "Failed getting runtime metadata: {}" meta), w')
          | Raise e => (Raise e, w')
          end
        else (Raise (ExceptionAbout "Failed getting runtime metadata: {}" meta), w')
    end.
Proof.
  unfold _generate_runtime_meta, try_except, bind, raise, ret, lift.
  destruct (invoke image memory {["service_route" := JStr "/preinstalls"]} true w)
    as [[meta|e] w1]; [|reflexivity].
  destruct (Json.truthy meta); cbn [negb]; [|reflexivity].
  destruct (Json.contains "preinstalls" meta) as [[]|e]; reflexivity.
Qed.

Lemma generate_runtime_meta_objects image memory w :
  objects (snd (_generate_runtime_meta image memory w)) = objects w.
Proof.
  rewrite generate_runtime_meta_invoke.
  pose proof (invoke_objects image memory {["service_route" := JStr "/preinstalls"]} true w)
    as Hi.
  destruct (invoke image memory {["service_route" := JStr "/preinstalls"]} true w)
    as [[meta|e] w1]; cbn [snd] in Hi; [|exact Hi].
  destruct (Json.truthy meta); [|exact Hi].
  destruct (Json.contains "preinstalls" meta) as [[]|e]; exact Hi.
Qed.

Lemma generate_runtime_meta_ok image memory w meta w' :
  _generate_runtime_meta image memory w = (Ok meta, w') ->
  Json.truthy meta = true /\ Json.contains "preinstalls" meta = Ok true.
Proof.
  rewrite generate_runtime_meta_invoke.
  destruct (invoke image memory {["service_route" := JStr "/preinstalls"]} true w)
    as [[m|e] w1]; [|discriminate].
  destruct (Json.truthy m) eqn:Ht; [|discriminate].
  destruct (Json.contains "preinstalls" m) as [[]|e] eqn:Hc; try discriminate.
  intros [= <- _]. auto.
Qed.

(** [_create_account_resources] with the default repository: the one case
    that ends in a conflict, and the namespace it leaves otherwise. *)
Lemma create_account_resources_ok w user token sname aname :
  knative_config w !! "docker_user" = Some user ->
  knative_config w !! "docker_token" = Some token ->
  knative_config w !! "docker_repo" = Some (DOCKER_REPO_DEFAULT kconfig) ->
  Api.name_of (secret_res kconfig) = Some sname ->
  Api.name_of (account_res kconfig) = Some aname ->
  exists secret,
    Api.name_of secret = Some sname
    /\ Json.getitem secret "stringData"
       = Ok (JObj [("username", JStr user); ("password", JStr token)])
    /\ _create_account_resources kconfig w
       = if negb (existsb (Api.is_obj "secrets" sname) (objects w))
            && existsb (Api.is_obj "serviceaccounts" aname) (objects w)
         then (Raise (ApiException 409),
               set_objects
                 (objects w ++ [{| r_plural := "secrets"; r_body := secret |}]) w)
         else (Ok tt,
               set_objects
                 (List.filter
                    (fun r => negb (Api.is_obj "secrets" sname r)
                              && negb (Api.is_obj "serviceaccounts" aname r))
                    (objects w)
                  ++ [{| r_plural := "secrets"; r_body := secret |};
                      {| r_plural := "serviceaccounts";
                         r_body := account_res kconfig |}]) w).
Proof.
  intros Hu Ht Hr Hs Ha.
  destruct (Json.setitem (secret_res kconfig) "stringData"
              (JObj [("username", JStr user); ("password", JStr token)]))
    as [secret|e] eqn:Hset.
  2:{ exfalso. unfold Api.name_of in Hs. cbn [Json.get_path] in Hs.
      destruct (secret_res kconfig); cbn in Hs, Hset; discriminate. }
  assert (Hn : Api.name_of secret = Some sname)
    by (apply (name_of_setitem _ _ _ _ _ Hset eq_refl Hs)).
  exists secret. split; [exact Hn|].
  split; [apply (getitem_setitem_eq _ _ _ _ Hset)|].
  unfold _create_account_resources.
  unfold bind at 1, gets at 1. unfold bind at 1, lookup_key at 1. rewrite Hu.
  unfold ret at 1. unfold bind at 1, lookup_key at 1. rewrite Ht. unfold ret at 1.
  unfold bind at 1, lift at 1. rewrite Hset.
  unfold bind at 1, lookup_key at 1. rewrite Hr. unfold ret at 1.
  rewrite String.eqb_refl. cbn [negb]. unfold bind at 1, ret at 1.
  unfold bind at 1, lift at 1. rewrite (name_of_path _ _ Hn).
  unfold bind at 1, lift at 1. rewrite (name_of_path _ _ Ha).
  cbn [delete_named].
  assert (Hss : "secrets" <> "serviceaccounts") by discriminate.
  assert (Hss' : "serviceaccounts" <> "secrets") by discriminate.
  assert (Hnew : forall l,
            existsb (Api.is_obj "serviceaccounts" aname)
              (l ++ [{| r_plural := "secrets"; r_body := secret |}])
            = existsb (Api.is_obj "serviceaccounts" aname) l).
  { intros l. rewrite existsb_app. cbn [existsb]. unfold Api.is_obj at 2.
    cbn [r_plural]. change (String.eqb "secrets" "serviceaccounts") with false.
    cbn [andb orb]. apply orb_false_r. }
  destruct (existsb (Api.is_obj "secrets" sname) (objects w)) eqn:ES; cbn [negb andb].
  - (* the secret is there: both deletions are tried *)
    unfold bind at 1. unfold try_except at 1. unfold bind at 1.
    rewrite (delete_present _ _ _ ES).
    destruct (existsb (Api.is_obj "serviceaccounts" aname) (objects w)) eqn:EA.
    + rewrite delete_present
        by (cbn [objects set_objects]; rewrite existsb_filter_other by exact Hss';
            exact EA).
      cbn [objects set_objects]. rewrite set_objects_twice, filter_and.
      unfold bind at 1.
      rewrite (create_absent "secrets" secret sname) by
        (try exact Hn; cbn [objects set_objects]; rewrite <- filter_and;
         rewrite existsb_filter_other by exact Hss; apply existsb_filter_negb).
      cbn [objects set_objects]. rewrite set_objects_twice.
      rewrite (create_absent "serviceaccounts" (account_res kconfig) aname) by
        (try exact Ha; cbn [objects set_objects]; rewrite Hnew;
         rewrite (filter_ext _ (fun r => negb (Api.is_obj "serviceaccounts" aname r)
                                         && negb (Api.is_obj "secrets" sname r)))
           by (intros r; apply andb_comm);
         rewrite <- filter_and; rewrite existsb_filter_other by exact Hss';
         apply existsb_filter_negb).
      cbn [objects set_objects]. rewrite set_objects_twice, <- List.app_assoc.
      reflexivity.
    + rewrite delete_absent
        by (cbn [objects set_objects]; rewrite existsb_filter_other by exact Hss';
            exact EA).
      unfold ret at 1. unfold bind at 1.
      rewrite (create_absent "secrets" secret sname) by
        (try exact Hn; cbn [objects set_objects]; apply existsb_filter_negb).
      cbn [objects set_objects]. rewrite set_objects_twice.
      rewrite (create_absent "serviceaccounts" (account_res kconfig) aname) by
        (try exact Ha; cbn [objects set_objects]; rewrite Hnew;
         rewrite existsb_filter_other by exact Hss'; exact EA).
      cbn [objects set_objects]. rewrite set_objects_twice, <- List.app_assoc.
      rewrite <- filter_and.
      rewrite (filter_none (Api.is_obj "serviceaccounts" aname))
        by (rewrite existsb_filter_other by exact Hss'; exact EA).
      reflexivity.
  - (* no secret: the first deletion raises and the second is skipped *)
    unfold bind at 1. unfold try_except at 1. unfold bind at 1.
    rewrite (delete_absent _ _ _ ES). unfold ret at 1. unfold bind at 1.
    rewrite (create_absent "secrets" secret sname) by assumption.
    destruct (existsb (Api.is_obj "serviceaccounts" aname) (objects w)) eqn:EA.
    + apply (create_conflict _ _ aname); [exact Ha|].
      cbn [objects set_objects]. rewrite Hnew. exact EA.
    + rewrite (create_absent "serviceaccounts" (account_res kconfig) aname) by
        (try exact Ha; cbn [objects set_objects]; rewrite Hnew; exact EA).
      cbn [objects set_objects]. rewrite set_objects_twice, <- List.app_assoc.
      rewrite <- filter_and.
      rewrite (filter_none (Api.is_obj "secrets" sname)) by exact ES.
      rewrite (filter_none (Api.is_obj "serviceaccounts" aname)) by exact EA.
      reflexivity.
Qed.

(** [_create_build_resources]: it returns, and the namespace it leaves. *)
Lemma create_build_resources_ok w gname tname spec :
  Api.name_of (git_res kconfig) = Some gname ->
  Api.name_of (task_def kconfig) = Some tname ->
  Json.getitem (git_res kconfig) "spec" = Ok (JObj spec) ->
  exists git,
    _create_build_resources kconfig version w
    = (Ok tt,
       set_objects
         (List.filter
            (fun r => negb (Api.is_obj "tasks" tname r)
                      && negb (Api.is_obj "pipelineresources" gname r))
            (objects w)
          ++ [{| r_plural := "pipelineresources"; r_body := git |};
              {| r_plural := "tasks"; r_body := task_def kconfig |}]) w)
    /\ Api.name_of git = Some gname
    /\ Json.get_path git ["spec"; "params"]
       = Ok (JList
               [JObj [("name", JStr "url");
                      ("value", JStr (default (GIT_URL_DEFAULT kconfig)
                                        (knative_config w !! "git_url")))];
                JObj [("name", JStr "revision");
                      ("value",
                       JStr (default
                               (if contains "SNAPSHOT" version then "master" else version)
                               (knative_config w !! "git_rev")))]]).
Proof.
  intros Hg Ht Hspec.
  set (params :=
         JList
           [JObj [("name", JStr "url");
                  ("value", JStr (default (GIT_URL_DEFAULT kconfig)
                                    (knative_config w !! "git_url")))];
            JObj [("name", JStr "revision");
                  ("value",
                   JStr (default
                           (if contains "SNAPSHOT" version then "master" else version)
                           (knative_config w !! "git_rev")))]]).
  destruct (Json.set_path (git_res kconfig) ["spec"] "params" params) as [git|e] eqn:Hset.
  2:{ exfalso. cbn [Json.set_path] in Hset. rewrite Hspec in Hset.
      cbn [Json.setitem] in Hset. destruct (git_res kconfig); discriminate. }
  assert (Hn : Api.name_of git = Some gname).
  { unfold Api.name_of in *.
    rewrite (set_path_get_diverge ["spec"] _ _ _ _ ["metadata"; "name"] Hset eq_refl).
    exact Hg. }
  exists git. split; [|split; [exact Hn | apply (set_path_get_eq ["spec"] _ _ _ _ Hset)]].
  unfold _create_build_resources.
  unfold bind at 1, lift at 1. rewrite (name_of_path _ _ Hg).
  unfold bind at 1, lift at 1. rewrite (name_of_path _ _ Ht).
  unfold bind at 1, gets at 1. fold params.
  unfold bind at 1, lift at 1. rewrite Hset. cbn [delete_named].
  unfold bind at 1. rewrite try_delete.
  unfold bind at 1. rewrite try_delete. cbn [objects set_objects].
  rewrite set_objects_twice, filter_and.
  assert (Htp : "tasks" <> "pipelineresources") by discriminate.
  assert (Hpt : "pipelineresources" <> "tasks") by discriminate.
  unfold bind at 1.
  rewrite (create_absent "pipelineresources" git gname) by
    (try exact Hn; cbn [objects set_objects]; rewrite <- filter_and;
     apply existsb_filter_negb).
  cbn [objects set_objects]. rewrite set_objects_twice.
  rewrite (create_absent "tasks" (task_def kconfig) tname).
  - cbn [objects set_objects]. rewrite set_objects_twice, <- List.app_assoc. reflexivity.
  - exact Ht.
  - cbn [objects set_objects]. rewrite existsb_app. cbn [existsb].
    unfold Api.is_obj at 2. cbn [r_plural].
    change (String.eqb "pipelineresources" "tasks") with false. cbn [andb orb].
    rewrite orb_false_r, <- filter_and.
    rewrite existsb_filter_other by exact Htp. apply existsb_filter_negb.
Qed.

End LifecycleFacts.

Section BuildFacts.

Import PyStr Spec More Knative.

Context (kconfig : Kconfig) (version : string).









End BuildFacts.

(** ** The host cache *)

Section HostCache.

Import PyStr Spec Knative.

Lemma create_service_cache kconfig version image memory timeout w url w' :
  _create_service kconfig version image memory timeout w = (Ok url, w') ->
  exists u, url = JStr u
    /\ service_hosts w' !! _format_service_name image memory = Some (skip 7 u).
Proof.
  intros H. unfold _create_service in H.
  repeat (apply bind_ok_inv in H as (? & ? & _ & H)).
  match type of H with
  | match ?s with _ => _ end _ = _ => destruct s as [u|]; [|discriminate]
  end.
  apply bind_ok_inv in H as (host & w1 & H1 & H).
  apply lift_ok_inv in H1 as [H1 ->].
  apply bind_ok_inv in H as ([] & w2 & H2 & H).
  injection H2 as <-. injection H as <- <-.
  destruct u as [| | |s| |]; try discriminate. injection H1 as <-.
  exists s. split; [reflexivity|]. cbn [service_hosts set_service_hosts].
  apply lookup_insert_eq.
Qed.

(** C6, as amended: the cached host of a service is created by the first
    successful resolution and returned, with no call to the cluster, by the
    later ones; it is overwritten when [_create_service] returns, and left
    as it was when [_create_service] raises, also after it has deleted and
    created the service again; [delete_runtime] and [delete_all_runtimes]
    leave the cache as it is. *)
Theorem host_cache_lifecycle :
  (forall name w host w',
     service_hosts w !! name = None ->
     _get_service_host name w = (Ok host, w') ->
     w' = set_service_hosts (<[name := host]> (service_hosts w)) w)
  /\ (forall name w host,
        service_hosts w !! name = Some host ->
        _get_service_host name w = (Ok host, w))
  /\ (forall kconfig version image memory timeout w url w',
        _create_service kconfig version image memory timeout w = (Ok url, w') ->
        exists u, url = JStr u
          /\ service_hosts w' !! _format_service_name image memory = Some (skip 7 u))
  /\ (forall kconfig version image memory timeout w e w',
        _create_service kconfig version image memory timeout w = (Raise e, w') ->
        service_hosts w' = service_hosts w)
  /\ (forall image memory w,
        service_hosts (snd (delete_runtime image memory w)) = service_hosts w)
  /\ (forall w, service_hosts (snd (delete_all_runtimes w)) = service_hosts w).
Proof.
  split; [exact get_service_host_miss|].
  split; [intros name w host; apply get_service_host_hit|].
  split; [exact create_service_cache|].
  split; [exact create_service_raise_cache|].
  split.
  - intros image memory w. rewrite delete_runtime_spec. reflexivity.
  - intros w. rewrite delete_all_runtimes_spec. reflexivity.
Qed.

(** C6 as stated fails: after [delete_runtime] the service is gone from
    the namespace and its host is still in the cache. *)
Lemma host_cache_counterexample :
  let w' := snd (delete_runtime "jsampe/kn-runtime" 256 Sample.deployed) in
  objects Sample.deployed
  = [Sample.svc "jsampe--kn-runtime--256mb" "pywren-runtime"
       (Some (JObj [("url", JStr "http://kn.default.example.com")]))]
  /\ objects w' = []
  /\ service_hosts w' !! _format_service_name "jsampe/kn-runtime" 256
     = Some "kn.default.example.com".
Proof. repeat split; vm_compute; reflexivity. Qed.

End HostCache.

(** ** [create_runtime] and the build of the default image *)

Section DefaultBuild.

Import PyStr Spec More Knative.

Context (kconfig : Kconfig) (version this_version_str : string).


Lemma create_runtime_no_build image name memory timeout w w1 :
  _get_default_runtime_image_name kconfig this_version_str w = (Ok name, w1) ->
  String.eqb image "default" || String.eqb image name = false ->
  create_runtime kconfig version this_version_str image memory timeout w
  = deploy kconfig version image memory timeout w1.
Proof.
  intros Hname Hdef. unfold create_runtime.
  rewrite (bind_ok _ _ _ _ _ Hname), Hdef. reflexivity.
Qed.



End DefaultBuild.



(** Without the image in the registry, the same call builds it first: the
    objects of the build are created, the pod is waited for, and the
    runtime is deployed and probed on ["/preinstalls"]. *)
Example create_runtime_default_example :
  let r := Knative.create_runtime Sample.kconfig "1.2.0" "3.7" "default" 256 60
             Sample.building in
  fst r = Ok (JObj [("preinstalls", JList [JStr "numpy"])])
  /\ List.map (fun o => (r_plural o, Api.name_of (r_body o))) (objects (snd r))
     = [("secrets", Some "dockerhub-user-token");
        ("serviceaccounts", Some "pywren-build-pipeline");
        ("pipelineresources", Some "pywren-git");
        ("tasks", Some "git-source-to-image");
        ("services", Some "jsampe--pywren-kn-runtime-v37--256mb")]
  /\ List.map rq_route (http_sent (snd r)) = [JStr "/preinstalls"]
  /\ slept (snd r) = [1].
Proof. repeat split; vm_compute; reflexivity. Qed.

(** * Further properties of the code *)

(** ** Service names, beyond the round trip *)

Section MoreServiceNames.

Import PyStr Spec PyStrFacts Knative.

#[local] Arguments Ascii.eqb : simpl never.

Lemma str_length_app s t :
  String.length (s +:+ t) = (String.length s + String.length t)%nat.
Proof.
  induction s as [|x s IH]; [reflexivity|].
  change (S (String.length (s +:+ t)) = S (String.length s + String.length t)).
  f_equal. exact IH.
Qed.

Lemma str_app_inv_tail s1 s2 t : s1 +:+ t = s2 +:+ t -> s1 = s2.
Proof.
  revert s2. induction s1 as [|x s1 IH]; intros s2 H.
  - destruct s2 as [|y s2]; [reflexivity|]. exfalso.
    apply (f_equal String.length) in H.
    change (String y s2 +:+ t) with (String y (s2 +:+ t)) in H.
    cbn [String.app String.length] in H. rewrite !str_length_app in H. simpl in H. lia.
  - destruct s2 as [|y s2].
    + exfalso. apply (f_equal String.length) in H.
      change (String x s1 +:+ t) with (String x (s1 +:+ t)) in H.
      cbn [String.app String.length] in H. rewrite !str_length_app in H. simpl in H. lia.
    + change (String x (s1 +:+ t) = String y (s2 +:+ t)) in H.
      injection H as -> H. f_equal. apply IH. exact H.
Qed.

Lemma str_app_assoc s t u : (s +:+ t) +:+ u = s +:+ t +:+ u.
Proof.
  induction s as [|x s IH]; [reflexivity|].
  change (String x ((s +:+ t) +:+ u) = String x (s +:+ t +:+ u)).
  f_equal. exact IH.
Qed.

Lemma str_negative p : str (Zneg p) = String "-" (str (Zpos p)).
Proof.
  unfold str. change (Z.to_int (Zneg p)) with (Decimal.Neg (Pos.to_uint p)).
  change (Z.to_int (Zpos p)) with (Decimal.Pos (Pos.to_uint p)). reflexivity.
Qed.

(** Only digits and a sign are printed for a number. *)
Lemma no_char_str a n :
  isdigit a = false -> Ascii.eqb a "-" = false -> no_char a (str n) = true.
Proof.
  intros Hd Hm.
  assert (Hpos : forall m, 0 <= m -> no_char a (str m) = true).
  { intros m Hle. destruct (memory_suffix m Hle) as (_ & _ & Hall).
    apply all_digits_no_char; assumption. }
  destruct n as [|p|p]; [apply Hpos; lia | apply Hpos; lia |].
  rewrite str_negative. cbn [no_char]. rewrite Hm, Hpos by lia. reflexivity.
Qed.

Lemma rsplit1_none sep s : contains sep s = false -> rsplit1 sep s = None.
Proof.
  induction s as [|x s IH]; [reflexivity|]. intros H.
  apply contains_cons in H as [H1 H2]. cbn [rsplit1].
  rewrite IH, H1 by assumption. reflexivity.
Qed.

(** X1: the name that [_format_service_name] makes contains neither ['/']
    nor [':'], whatever the image name and the memory. *)
Theorem format_service_name_no_separator image memory :
  no_char "/" (_format_service_name image memory) = true
  /\ no_char ":" (_format_service_name image memory) = true.
Proof.
  unfold _format_service_name. rewrite enc_replace, !no_char_app.
  rewrite !no_char_enc by auto.
  rewrite !no_char_str by reflexivity. split; reflexivity.
Qed.

(** X2: a name in which ["--"] does not occur does not decode: the
    unpacking of [rsplit]'s one-element result raises [ValueError]; and
    [ValueError] is the only exception that decoding raises. *)
Theorem unformat_service_name_errors name :
  (contains "--" name = false -> _unformat_service_name name = Raise ValueError)
  /\ (forall e, _unformat_service_name name = Raise e -> e = ValueError).
Proof.
  unfold _unformat_service_name. split.
  - intros H. rewrite rsplit1_none by assumption. reflexivity.
  - intros e. destruct (rsplit1 "--" name) as [[l r]|]; [|congruence].
    destruct (int _); congruence.
Qed.

(** X3: for memories that are not negative, two runtimes get the same
    service name exactly when the memories are equal and the image names
    are equal once ['/'] and [':'] are replaced by ["--"]; so on image
    names that decode to themselves the naming is injective. *)
Theorem format_service_name_collisions image1 memory1 image2 memory2 :
  0 <= memory1 -> 0 <= memory2 ->
  (_format_service_name image1 memory1 = _format_service_name image2 memory2
   <-> replace ":" "--" (-1) (replace "/" "--" (-1) image1)
       = replace ":" "--" (-1) (replace "/" "--" (-1) image2)
       /\ memory1 = memory2)
  /\ (decodable_image image1 = true -> decodable_image image2 = true ->
      _format_service_name image1 memory1 = _format_service_name image2 memory2 ->
      image1 = image2 /\ memory1 = memory2).
Proof.
  intros H1 H2.
  assert (Hmem : _format_service_name image1 memory1
                 = _format_service_name image2 memory2 ->
                 memory1 = memory2
                 /\ replace "--" ":" (-1) (replace "--" "/" 1 (enc image1))
                    = replace "--" ":" (-1) (replace "--" "/" 1 (enc image2))).
  { intros E. pose proof (unformat_format image1 memory1 H1) as U1.
    rewrite E, unformat_format in U1 by assumption. injection U1 as Ha Hb.
    split; [symmetry; exact Hb | symmetry; exact Ha]. }
  split.
  - split.
    + intros E. destruct (Hmem E) as [-> _]. split; [|reflexivity].
      unfold _format_service_name in E. eapply str_app_inv_tail. exact E.
    + intros [E ->]. unfold _format_service_name. rewrite E. reflexivity.
  - intros D1 D2 E. destruct (Hmem E) as [-> Himg]. split; [|reflexivity].
    apply decodable_image_inv in D1 as (S1 & A1 & B1 & C1).
    apply decodable_image_inv in D2 as (S2 & A2 & B2 & C2).
    rewrite (replace_first_dashes image1), (replace_first_dashes image2) in Himg
      by assumption.
    rewrite (replace_dashes_colon image1), (replace_dashes_colon image2) in Himg
      by (assumption || lia).
    exact Himg.
Qed.

Lemma enc_app s t : enc (s +:+ t) = enc s +:+ enc t.
Proof.
  induction s as [|x s IH]; [reflexivity|].
  change (String x s +:+ t) with (String x (s +:+ t)). cbn [enc]. rewrite IH.
  destruct (Ascii.eqb "/" x || Ascii.eqb ":" x); [|reflexivity].
  rewrite str_app_assoc. reflexivity.
Qed.

(** The name of a runtime with a negative memory is the name of another
    runtime, with the sign at the end of the image name. *)
Lemma format_negative image p :
  _format_service_name image (Zneg p) = _format_service_name (image +:+ "-") (Zpos p).
Proof.
  unfold _format_service_name. rewrite !enc_replace, str_negative, enc_app.
  change (enc "-") with "-". rewrite !str_app_assoc. reflexivity.
Qed.

(** X4: a negative memory does not come back. The service name of an
    image with the memory [-m] is the service name of the image name
    followed by ['-'] with the memory [m]; it decodes to the memory [m]
    and to an image name that has this same service name with [m]; and
    when the image name followed by ['-'] is one that decodes to itself,
    it decodes to that name and [m]. *)
Theorem unformat_negative_memory image memory :
  memory < 0 ->
  _format_service_name image memory = _format_service_name (image +:+ "-") (- memory)
  /\ (exists image',
        _unformat_service_name (_format_service_name image memory)
        = Ok (image', - memory)
        /\ _format_service_name image' (- memory) = _format_service_name image memory)
  /\ (decodable_image (image +:+ "-") = true ->
      _unformat_service_name (_format_service_name image memory)
      = Ok (image +:+ "-", - memory)).
Proof.
  intros Hm. destruct memory as [|p|p]; try lia.
  change (- Zneg p) with (Zpos p). rewrite format_negative.
  split; [reflexivity|]. split.
  - apply format_unformat_format. lia.
  - intros Hd. apply unformat_format_decodable; [exact Hd | lia].
Qed.

Lemma unformat_negative_memory_witness :
  _format_service_name "jsampe/runtime" (-256) = "jsampe--runtime---256mb"
  /\ _unformat_service_name (_format_service_name "jsampe/runtime" (-256))
     = Ok ("jsampe/runtime-", 256).
Proof.
  destruct (unformat_negative_memory "jsampe/runtime" (-256)) as (H1 & _ & H3); [lia|].
  split; [rewrite H1; vm_compute; reflexivity | apply H3; vm_compute; reflexivity].
Defined.

Lemma format_service_name_collisions_witness :
  _format_service_name "jsampe/runtime:v1" 256 = _format_service_name "jsampe:runtime/v1" 256
  /\ (_format_service_name "jsampe/runtime:v1" 256 = _format_service_name "jsampe/runtime:v1" 256
      -> "jsampe/runtime:v1" = "jsampe/runtime:v1" /\ 256 = 256).
Proof.
  destruct (format_service_name_collisions "jsampe/runtime:v1" 256 "jsampe:runtime/v1" 256)
    as [H _]; [lia | lia |].
  split; [apply H; split; reflexivity|].
  destruct (format_service_name_collisions "jsampe/runtime:v1" 256 "jsampe/runtime:v1" 256)
    as [_ H']; [lia | lia |].
  apply H'; reflexivity.
Defined.

End MoreServiceNames.

(** ** [_get_service_host] and [invoke], beyond the retry claims *)

Section MoreInvoke.

Import Spec More Knative.

(** X5: for a runtime that is not deployed and whose host is not cached,
    [invoke] raises before any request is sent ([TypeError]: the message
    that [_get_service_host] means to raise is a string), the state is
    unchanged, and [Compute.invoke] lets the exception through without a
    retry, whatever the retry settings. *)
Theorem invoke_not_deployed (kconfig : Kconfig) (version this_version_str : string)
    (retry : bool) (sleeps : list Z) (max_attempts : Z)
    image memory payload return_result w :
  service_hosts w !! _format_service_name image memory = None ->
  existsb (Api.is_obj "services" (_format_service_name image memory)) (objects w)
  = false ->
  invoke image memory payload return_result w = (Raise TypeError, w)
  /\ ComputeM.invoke
       {| invocation_retry := retry; retry_sleeps := sleeps; retries := max_attempts;
          compute_handler := knative_backend kconfig version this_version_str |}
       image memory payload w
     = (Raise TypeError, w).
Proof.
  intros Hmiss Habs.
  pose proof (get_service_host_absent _ _ Hmiss Habs) as Hg.
  assert (Hi : forall rr, invoke image memory payload rr w = (Raise TypeError, w)).
  { intros rr. unfold invoke. apply (bind_raise _ _ _ _ _ Hg). }
  split; [apply Hi|]. unfold ComputeM.invoke. cbn [compute_handler knative_backend h_invoke].
  apply (bind_raise _ _ _ _ _ (Hi false)).
Qed.

Lemma invoke_not_deployed_witness :
  invoke "jsampe/kn-runtime" 256 Sample.payload false Sample.empty
  = (Raise TypeError, Sample.empty)
  /\ ComputeM.invoke (Sample.compute 3) "jsampe/kn-runtime" 256 Sample.payload Sample.empty
     = (Raise TypeError, Sample.empty).
Proof.
  apply (invoke_not_deployed Sample.kconfig "1.2.0" "3.7" true [1; 5; 10] 3);
    vm_compute; reflexivity.
Defined.

(** X6: the host of a service that is in the cluster and not in the cache
    is its [status.url] without the first seven characters, and it is
    cached: the host for an ["http://"] URL, and a string that begins with
    ['/'] for an ["https://"] URL. *)
Theorem get_service_host_resolves name w r url :
  service_hosts w !! name = None ->
  List.find (Api.is_obj "services" name) (objects w) = Some r ->
  Json.get_path (r_body r) ["status"; "url"] = Ok (JStr url) ->
  _get_service_host name w
  = (Ok (PyStr.skip 7 url),
     set_service_hosts (<[name := PyStr.skip 7 url]> (service_hosts w)) w)
  /\ (forall host, url = "http://" +:+ host -> PyStr.skip 7 url = host)
  /\ (forall host, url = "https://" +:+ host -> PyStr.skip 7 url = "/" +:+ host).
Proof.
  intros Hmiss Hfind Hurl. split; [|split; intros host ->; reflexivity].
  unfold _get_service_host, bind, gets. rewrite Hmiss.
  unfold try_except, Api.get, bind, gets, ret, lift, modify. rewrite Hfind.
  cbn [Json.get_path] in Hurl.
  destruct (Json.getitem (r_body r) "status") as [st|e]; [|discriminate].
  destruct (Json.getitem st "url") as [u|e]; [|discriminate].
  injection Hurl as ->. reflexivity.
Qed.

Lemma get_service_host_resolves_witness :
  let w := set_service_hosts ∅ Sample.deployed in
  _get_service_host "jsampe--kn-runtime--256mb" w
  = (Ok "kn.default.example.com",
     set_service_hosts {[ "jsampe--kn-runtime--256mb" := "kn.default.example.com" ]} w).
Proof.
  intros w.
  destruct (get_service_host_resolves "jsampe--kn-runtime--256mb" w
              (Sample.svc "jsampe--kn-runtime--256mb" "pywren-runtime"
                 (Some (JObj [("url", JStr "http://kn.default.example.com")])))
              "http://kn.default.example.com") as [H _];
    [vm_compute; reflexivity ..|].
  rewrite H. vm_compute. reflexivity.
Defined.

(** X7: once the host of the runtime is in the cache, what [invoke] sends
    turns on the connection. When the HTTP library accepts the endpoint
    (the known one, or the host itself when none is known yet), [invoke]
    does not raise and sends exactly one request: to that endpoint, on the
    route that the payload names, or ['/'], with the host in the [Host]
    header and the payload as body; besides the request, only the headers
    and the endpoint of the backend change. When the library refuses the
    endpoint, [conn] is not bound, the [except] clause fails on
    [conn.close()], and [invoke] raises [UnboundLocalError] having sent
    nothing; the [Host] header and the endpoint are set all the same. *)
Theorem invoke_sends_one_request image memory payload return_result w host :
  service_hosts w !! _format_service_name image memory = Some host ->
  (connection w (default ("http://" +:+ host) (endpoint w)) = Ok tt ->
   exists r w' rq,
     invoke image memory payload return_result w = (Ok r, w')
     /\ http_sent w' = (http_sent w ++ [rq])%list
     /\ rq_endpoint rq = default ("http://" +:+ host) (endpoint w)
     /\ rq_route rq = default (JStr "/") (payload !! "service_route")
     /\ rq_headers rq !! "Host" = Some host
     /\ rq_payload rq = payload
     /\ w' = set_http_sent (http_sent w')
               (set_endpoint (endpoint w') (set_headers (headers w') w)))
  /\ (forall e,
        connection w (default ("http://" +:+ host) (endpoint w)) = Raise e ->
        exists w',
          invoke image memory payload return_result w
          = (Raise (UnboundLocalError "conn"), w')
          /\ http_sent w' = http_sent w
          /\ headers w' !! "Host" = Some host
          /\ endpoint w' = Some (default ("http://" +:+ host) (endpoint w))
          /\ w' = set_endpoint (endpoint w') (set_headers (headers w') w)).
Proof.
  intros Hh. rewrite (invoke_hit _ _ _ _ _ _ Hh). unfold endpoint_for. split.
  - intros ->. eexists _, _, (request_of host payload w). split; [reflexivity|].
    unfold after_invoke, before_post, request_of, endpoint_for.
    cbn [http_sent set_http_sent rq_endpoint rq_route rq_headers rq_payload].
    repeat split. apply lookup_insert_eq.
  - intros e ->. eexists. split; [reflexivity|]. unfold before_post, endpoint_for.
    cbn [http_sent headers endpoint set_endpoint set_headers].
    repeat split. apply lookup_insert_eq.
Qed.

Lemma invoke_sends_one_request_witness :
  (exists r w' rq,
     invoke "jsampe/kn-runtime" 256 Sample.payload false Sample.deployed = (Ok r, w')
     /\ http_sent w' = [rq]
     /\ rq_endpoint rq = "http://10.0.0.1:31380"
     /\ rq_route rq = JStr "/"
     /\ rq_headers rq !! "Host" = Some "kn.default.example.com")
  /\ (exists w',
        invoke "jsampe/kn-runtime" 256 Sample.payload false Sample.unreadable_port
        = (Raise (UnboundLocalError "conn"), w')
        /\ http_sent w' = []).
Proof.
  split.
  - destruct (invoke_sends_one_request "jsampe/kn-runtime" 256 Sample.payload false
                Sample.deployed "kn.default.example.com") as [H _];
      [vm_compute; reflexivity|].
    destruct H as (r & w' & rq & H1 & H2 & H3 & H4 & H5 & _); [vm_compute; reflexivity|].
    exists r, w', rq. repeat split; assumption.
  - destruct (invoke_sends_one_request "jsampe/kn-runtime" 256 Sample.payload false
                Sample.unreadable_port "kn.default.example.com") as [_ H];
      [vm_compute; reflexivity|].
    destruct (H InvalidURL) as (w' & H1 & H2 & _); [vm_compute; reflexivity|].
    exists w'. split; assumption.
Defined.

(** X8: what [invoke] returns once the host is known. When the HTTP
    library accepts the endpoint: for a response with status 200 or 202
    and a JSON body, the body when a result is asked for, else its
    [activationId], or [None] when the body has none; for every other
    status, for a body that is not JSON and for a failure of the request
    once the connection exists, [None]. When the library refuses the
    endpoint, nothing is returned: [invoke] raises [UnboundLocalError]. *)
Theorem invoke_result image memory payload return_result w host :
  service_hosts w !! _format_service_name image memory = Some host ->
  (connection w (default ("http://" +:+ host) (endpoint w)) = Ok tt ->
   (forall st d,
      http w (posts w) = HttpResponse st (Some d) -> st = 200 \/ st = 202 ->
      fst (invoke image memory payload return_result w)
      = Ok (if return_result then d
            else match Json.getitem d "activationId" with
                 | Ok a => a
                 | Raise _ => JNull
                 end))
   /\ (forall st data,
         http w (posts w) = HttpResponse st data ->
         (st <> 200 /\ st <> 202) \/ data = None ->
         fst (invoke image memory payload return_result w) = Ok JNull)
   /\ (forall e,
         http w (posts w) = HttpFail e ->
         fst (invoke image memory payload return_result w) = Ok JNull))
  /\ (forall e,
        connection w (default ("http://" +:+ host) (endpoint w)) = Raise e ->
        fst (invoke image memory payload return_result w)
        = Raise (UnboundLocalError "conn")).
Proof.
  intros Hh. rewrite (invoke_hit _ _ _ _ _ _ Hh). unfold endpoint_for.
  split; [|intros e ->; reflexivity].
  intros ->. cbn [fst]. unfold invocation_result. split; [|split].
  - intros st d -> Hst.
    assert (E : (st =? 200) || (st =? 202) = true)
      by (destruct Hst as [-> | ->]; reflexivity).
    rewrite E. reflexivity.
  - intros st data -> [[H1 H2] | ->].
    + apply Z.eqb_neq in H1, H2. rewrite H1, H2. reflexivity.
    + destruct ((st =? 200) || (st =? 202)); reflexivity.
  - intros e ->. reflexivity.
Qed.

Lemma invoke_result_witness :
  let body := JObj [("activationId", JStr "a1"); ("elapsed", JNum 3)] in
  let w := Sample.with_http (fun _ => HttpResponse 202 (Some body)) Sample.deployed in
  fst (invoke "jsampe/kn-runtime" 256 Sample.payload true w) = Ok body
  /\ fst (invoke "jsampe/kn-runtime" 256 Sample.payload false w) = Ok (JStr "a1")
  /\ fst (invoke "jsampe/kn-runtime" 256 Sample.payload false Sample.unreadable_port)
     = Raise (UnboundLocalError "conn").
Proof.
  intros body w. split; [|split].
  - destruct (invoke_result "jsampe/kn-runtime" 256 Sample.payload true w
                "kn.default.example.com") as [H _]; [vm_compute; reflexivity|].
    destruct H as [H _]; [vm_compute; reflexivity|].
    apply (H 202 body); [vm_compute; reflexivity | auto].
  - destruct (invoke_result "jsampe/kn-runtime" 256 Sample.payload false w
                "kn.default.example.com") as [H _]; [vm_compute; reflexivity|].
    destruct H as [H _]; [vm_compute; reflexivity|].
    apply (H 202 body); [vm_compute; reflexivity | auto].
  - destruct (invoke_result "jsampe/kn-runtime" 256 Sample.payload false
                Sample.unreadable_port "kn.default.example.com") as [_ H];
      [vm_compute; reflexivity|].
    apply (H InvalidURL). vm_compute. reflexivity.
Defined.

(** X9: [invoke] sets the endpoint of the backend at most once: an
    endpoint that is known is kept, whatever the call does; and with no
    endpoint known, a call that finds the host of its runtime makes
    ["http://"] followed by that host the endpoint, for this and every
    later request. *)
Theorem invoke_endpoint image memory payload return_result w :
  (forall e, endpoint w = Some e ->
     endpoint (snd (invoke image memory payload return_result w)) = Some e)
  /\ (forall host w1,
        endpoint w = None ->
        _get_service_host (_format_service_name image memory) w = (Ok host, w1) ->
        endpoint (snd (invoke image memory payload return_result w))
        = Some ("http://" +:+ host)).
Proof.
  destruct (invoke_cases image memory payload return_result w)
    as [(e & -> & Hr) | (host & w1 & Hg & _ & Hw & ->)].
  - split; [intros e0 H; exact H|]. intros host w1 _ H.
    rewrite Hr in H. discriminate H.
  - assert (He1 : endpoint w1 = endpoint w) by (rewrite Hw; reflexivity).
    assert (Hend : endpoint
                     (snd (match connection w1 (endpoint_for host w1) with
                           | Ok _ =>
                               (Ok (invocation_result return_result (http w1 (posts w1))),
                                after_invoke host payload w1)
                           | Raise _ =>
                               (Raise (UnboundLocalError "conn"), before_post host w1)
                           end))
                   = Some (default ("http://" +:+ host) (endpoint w))).
    { destruct (connection w1 (endpoint_for host w1)); cbn [snd];
        unfold after_invoke, before_post, endpoint_for;
        cbn [endpoint set_http_sent set_endpoint set_headers]; rewrite He1; reflexivity. }
    split.
    + intros e He. rewrite Hend, He. reflexivity.
    + intros host' w1' He Hg'. rewrite Hg in Hg'. injection Hg' as <- <-.
      rewrite Hend, He. reflexivity.
Qed.

End MoreInvoke.

(** ** More on [Compute.invoke] *)

Section MoreCompute.

Import Spec More ComputeM.

Lemma retry_loop_sleeps (self : Compute) runtime_name memory payload :
  (forall w, slept (snd (h_invoke (compute_handler self) runtime_name memory payload w))
             = slept w) ->
  forall k act_id attempts w,
    Z.to_nat (retries self - attempts) = k ->
    exists l,
      slept (snd (retry_loop self runtime_name memory payload act_id attempts w))
      = (slept w ++ l)%list
      /\ Forall (fun s => In s (retry_sleeps self)) l
      /\ (length l <= k)%nat.
Proof.
  intros Hh. induction k as [|k IH]; intros act_id attempts w Hk.
  - rewrite retry_loop_stop by lia. exists []. cbn [snd length].
    rewrite List.app_nil_r. repeat split; [constructor | lia].
  - destruct (Json.truthy act_id) eqn:Ht.
    { rewrite retry_loop_stop by auto. exists []. cbn [snd length].
      rewrite List.app_nil_r. repeat split; [constructor | lia]. }
    destruct (invocation_retry self) eqn:Hr.
    2:{ rewrite retry_loop_stop by auto. exists []. cbn [snd length].
        rewrite List.app_nil_r. repeat split; [constructor | lia]. }
    rewrite retry_loop_again by (lia || assumption).
    unfold retry_body, random_choice, lookup_key, sleep, modify, bind, raise, ret.
    destruct (retry_sleeps self) as [|x l0] eqn:Es.
    { exists []. cbn [snd length]. rewrite List.app_nil_r.
      repeat split; [constructor | lia]. }
    destruct (payload !! "executor_id").
    2:{ exists []. cbn [snd length slept set_rand_drawn]. rewrite List.app_nil_r.
        repeat split; [constructor | lia]. }
    destruct (payload !! "call_id").
    2:{ exists []. cbn [snd length slept set_rand_drawn]. rewrite List.app_nil_r.
        repeat split; [constructor | lia]. }
    destruct (_ <? 0).
    { exists []. cbn [snd length slept set_rand_drawn]. rewrite List.app_nil_r.
      repeat split; [constructor | lia]. }
    match goal with
    | |- context [h_invoke _ _ _ _ ?w'] =>
        pose proof (Hh w') as Hs;
        destruct (h_invoke (compute_handler self) runtime_name memory payload w')
          as [[a|e] w'']
    end; cbn [snd slept set_slept set_rand_drawn] in Hs.
    + destruct (IH a (attempts + 1) w'' ltac:(lia)) as (l & E & HF & HL).
      exists (nth (rand w (rand_drawn w) mod length (x :: l0)) (x :: l0) x :: l).
      rewrite E, Hs, <- List.app_assoc. split; [reflexivity|].
      split; [constructor; [apply nth_mod_In | exact HF] | cbn [length]; lia].
    + exists [nth (rand w (rand_drawn w) mod length (x :: l0)) (x :: l0) x].
      cbn [snd]. split; [exact Hs|].
      split; [constructor; [apply nth_mod_In | constructor] | cbn [length]; lia].
Qed.

Lemma retry_loop_exhausts (self : Compute) runtime_name memory payload
    (calls : world -> nat) :
  (forall v w, calls (set_slept v w) = calls w) ->
  (forall v w, calls (set_rand_drawn v w) = calls w) ->
  (forall w r w', h_invoke (compute_handler self) runtime_name memory payload w
                  = (Ok r, w') -> calls w' = S (calls w)) ->
  invocation_retry self = true ->
  forall k act_id attempts w a w',
    Z.to_nat (retries self - attempts) = k ->
    retry_loop self runtime_name memory payload act_id attempts w = (Ok a, w') ->
    Json.truthy a = false ->
    calls w' = (calls w + k)%nat.
Proof.
  intros Hsl Hdr Hh Hretry. induction k as [|k IH]; intros act_id attempts w a w' Hk H Hf.
  - rewrite retry_loop_stop in H by lia. injection H as _ <-. lia.
  - destruct (Json.truthy act_id) eqn:Ht.
    { rewrite retry_loop_stop in H by auto. injection H as <- _. congruence. }
    rewrite retry_loop_again in H by (lia || assumption).
    unfold retry_body, random_choice, lookup_key, sleep, modify, bind, raise, ret in H.
    destruct (retry_sleeps self) as [|x l0]; [discriminate|].
    destruct (payload !! "executor_id"); [|discriminate].
    destruct (payload !! "call_id"); [|discriminate].
    destruct (_ <? 0); [discriminate|].
    match type of H with
    | context [h_invoke _ _ _ _ ?w0] =>
        pose proof (Hh w0) as Hc;
        destruct (h_invoke (compute_handler self) runtime_name memory payload w0)
          as [[a1|e] w1]; [|discriminate]
    end.
    specialize (Hc _ _ eq_refl). rewrite Hsl, Hdr in Hc.
    rewrite (IH a1 (attempts + 1) w1 a w' ltac:(lia) H Hf). lia.
Qed.

(** X10: [Compute.invoke] is one call of the backend, with its result, its
    exception and its state, when retries are switched off, when [retries]
    is one or less (zero and negative values too), and when the first call
    raises: an exception of the backend is never retried. *)
Theorem compute_invoke_single_call (self : Compute) runtime_name memory payload w :
  invocation_retry self = false
  \/ retries self <= 1
  \/ (exists e w1,
        h_invoke (compute_handler self) runtime_name memory payload w = (Raise e, w1)) ->
  invoke self runtime_name memory payload w
  = h_invoke (compute_handler self) runtime_name memory payload w.
Proof.
  intros H. unfold invoke, bind.
  destruct (h_invoke (compute_handler self) runtime_name memory payload w)
    as [[a|e] w1] eqn:E; [|reflexivity].
  apply retry_loop_stop. destruct H as [H | [H | (e & w2 & H)]];
    [right; right; exact H | left; exact H | discriminate H].
Qed.

Lemma compute_invoke_single_call_witness :
  let failing := Sample.with_http (fun _ => HttpResponse 500 None) Sample.deployed in
  invoke (Sample.compute 0) "jsampe/kn-runtime" 256 Sample.payload failing
  = Knative.invoke "jsampe/kn-runtime" 256 Sample.payload false failing
  /\ posts (snd (invoke (Sample.compute 0) "jsampe/kn-runtime" 256 Sample.payload failing))
     = 1%nat.
Proof.
  intros failing.
  rewrite (compute_invoke_single_call (Sample.compute 0) "jsampe/kn-runtime" 256
             Sample.payload failing);
    [|right; left; vm_compute; discriminate].
  split; [reflexivity | vm_compute; reflexivity].
Defined.

(** X11: when a retry is due (the first call returned a false value,
    retries are on and [retries] is above one), the loop needs a sleep to
    choose and the two identifiers of its log message before it calls the
    backend again: with [retry_sleeps] empty, [Compute.invoke] raises
    [IndexError]; with a payload without ['executor_id'], or with it and
    without ['call_id'], it raises [KeyError]. In each case the backend has
    been called once and nothing was slept. *)
Theorem compute_invoke_retry_needs (self : Compute) runtime_name memory payload w r1 w1 :
  h_invoke (compute_handler self) runtime_name memory payload w = (Ok r1, w1) ->
  Json.truthy r1 = false ->
  invocation_retry self = true ->
  1 < retries self ->
  (retry_sleeps self = [] ->
   invoke self runtime_name memory payload w = (Raise IndexError, w1))
  /\ (retry_sleeps self <> [] -> payload !! "executor_id" = None ->
      invoke self runtime_name memory payload w
      = (Raise (KeyError "executor_id"), set_rand_drawn (S (rand_drawn w1)) w1))
  /\ (retry_sleeps self <> [] -> is_Some (payload !! "executor_id") ->
      payload !! "call_id" = None ->
      invoke self runtime_name memory payload w
      = (Raise (KeyError "call_id"), set_rand_drawn (S (rand_drawn w1)) w1)).
Proof.
  intros H1 Hf Hretry Hmax.
  assert (E : invoke self runtime_name memory payload w
              = match retry_body self runtime_name memory payload w1 with
                | (Ok act_id', w') =>
                    retry_loop self runtime_name memory payload act_id' (1 + 1) w'
                | (Raise e, w') => (Raise e, w')
                end).
  { unfold invoke. rewrite (bind_ok _ _ _ _ _ H1).
    apply retry_loop_again; assumption. }
  rewrite E. unfold retry_body, random_choice, lookup_key, bind, raise, ret.
  split; [|split].
  - intros ->. reflexivity.
  - intros Hs He. destruct (retry_sleeps self); [contradiction|]. rewrite He. reflexivity.
  - intros Hs [v He] Hc. destruct (retry_sleeps self); [contradiction|].
    rewrite He, Hc. reflexivity.
Qed.

Lemma compute_invoke_retry_needs_witness :
  let failing := Sample.with_http (fun _ => HttpResponse 500 None) Sample.deployed in
  let no_sleeps :=
    {| invocation_retry := true; retry_sleeps := []; retries := 3;
       compute_handler := knative_backend Sample.kconfig "1.2.0" "3.7" |} in
  fst (invoke no_sleeps "jsampe/kn-runtime" 256 Sample.payload failing) = Raise IndexError
  /\ fst (invoke (Sample.compute 3) "jsampe/kn-runtime" 256 ∅ failing)
     = Raise (KeyError "executor_id").
Proof.
  intros failing no_sleeps.
  set (w1 := snd (Knative.invoke "jsampe/kn-runtime" 256 Sample.payload false failing)).
  set (w2 := snd (Knative.invoke "jsampe/kn-runtime" 256 ∅ false failing)).
  split.
  - destruct (compute_invoke_retry_needs no_sleeps "jsampe/kn-runtime" 256 Sample.payload
                failing JNull w1) as [H _];
      [vm_compute; reflexivity | reflexivity | reflexivity | reflexivity |].
    rewrite (H eq_refl). reflexivity.
  - destruct (compute_invoke_retry_needs (Sample.compute 3) "jsampe/kn-runtime" 256 ∅
                failing JNull w2) as [_ [H _]];
      [vm_compute; reflexivity | reflexivity | reflexivity | reflexivity |].
    rewrite (H ltac:(discriminate) eq_refl). reflexivity.
Defined.

(** X12: [Compute.invoke] sleeps only for lengths taken from
    [retry_sleeps], and at most [retries] - 1 times: with a backend that
    does not sleep itself, what one call adds to the log of sleeps is a
    list of members of [retry_sleeps] of at most that length. *)
Theorem compute_invoke_sleeps (self : Compute) runtime_name memory payload :
  (forall w, slept (snd (h_invoke (compute_handler self) runtime_name memory payload w))
             = slept w) ->
  forall w, exists l,
    slept (snd (invoke self runtime_name memory payload w)) = (slept w ++ l)%list
    /\ Forall (fun s => In s (retry_sleeps self)) l
    /\ (length l <= Z.to_nat (retries self - 1))%nat.
Proof.
  intros Hh w. unfold invoke, bind. pose proof (Hh w) as Hs.
  destruct (h_invoke (compute_handler self) runtime_name memory payload w)
    as [[a|e] w1]; cbn [snd] in Hs.
  - destruct (retry_loop_sleeps self runtime_name memory payload Hh _ a 1 w1 eq_refl)
      as (l & E & HF & HL).
    exists l. rewrite E, Hs. repeat split; assumption.
  - exists []. cbn [snd length]. rewrite List.app_nil_r.
    repeat split; [exact Hs | constructor | lia].
Qed.

Lemma compute_invoke_sleeps_witness :
  let failing := Sample.with_http (fun _ => HttpResponse 500 None) Sample.deployed in
  exists l,
    slept (snd (invoke (Sample.compute 3) "jsampe/kn-runtime" 256 Sample.payload failing))
    = l
    /\ Forall (fun s => In s [1; 5; 10]) l
    /\ (length l <= 2)%nat.
Proof.
  intros failing.
  destruct (compute_invoke_sleeps (Sample.compute 3) "jsampe/kn-runtime" 256 Sample.payload
              (fun w => invoke_slept "jsampe/kn-runtime" 256 Sample.payload false w)
              failing) as (l & E & HF & HL).
  exists l. split; [exact E|]. split; [exact HF | exact HL].
Defined.

(** X13: with retries on, [Compute.invoke] gives up only after its last
    attempt: when it returns a false value, the backend has been called
    max(1, [retries]) times, for a backend whose every returning call
    counts as one. *)
Theorem compute_invoke_exhausts (self : Compute) runtime_name memory payload
    (calls : world -> nat) :
  (forall v w, calls (set_slept v w) = calls w) ->
  (forall v w, calls (set_rand_drawn v w) = calls w) ->
  (forall w r w', h_invoke (compute_handler self) runtime_name memory payload w
                  = (Ok r, w') -> calls w' = S (calls w)) ->
  invocation_retry self = true ->
  forall w a w',
    invoke self runtime_name memory payload w = (Ok a, w') ->
    Json.truthy a = false ->
    calls w' = (calls w + Z.to_nat (Z.max 1 (retries self)))%nat.
Proof.
  intros Hsl Hdr Hh Hretry w a w' H Hf. unfold invoke, bind in H.
  destruct (h_invoke (compute_handler self) runtime_name memory payload w)
    as [[a1|e] w1] eqn:E; [|discriminate].
  rewrite (retry_loop_exhausts self runtime_name memory payload calls Hsl Hdr Hh Hretry
             _ a1 1 w1 a w' eq_refl H Hf).
  rewrite (Hh _ _ _ E). lia.
Qed.

Lemma compute_invoke_exhausts_witness :
  let failing := Sample.with_http (fun _ => HttpResponse 500 None) Sample.deployed in
  posts (snd (invoke (Sample.compute 5) "jsampe/kn-runtime" 256 Sample.payload failing))
  = 5%nat.
Proof.
  intros failing.
  set (r := invoke (Sample.compute 5) "jsampe/kn-runtime" 256 Sample.payload failing).
  assert (E : r = (Ok JNull, snd r)) by (vm_compute; reflexivity).
  apply (compute_invoke_exhausts (Sample.compute 5) "jsampe/kn-runtime" 256 Sample.payload
           posts (fun v w => eq_refl) (fun v w => eq_refl)
           (fun w r0 w' =>
              invoke_ok_posts "jsampe/kn-runtime" 256 Sample.payload false w r0 w')
           eq_refl failing JNull (snd r) E eq_refl).
Defined.

End MoreCompute.

(** ** More on the runtimes of a namespace *)

Section MoreRuntimes.

Import PyStr Spec More Knative.

Lemma services_filter (P : resource -> bool) w service :
  In service (services (set_objects (List.filter P (objects w)) w))
  <-> exists r, In r (objects w) /\ r_plural r = "services" /\ r_body r = service
                /\ P r = true.
Proof.
  unfold services. cbn [objects set_objects]. rewrite in_map_iff. split.
  - intros (r & Hb & Hr). apply filter_In in Hr as [Hr Hp].
    apply filter_In in Hr as [Hr HP]. apply String.eqb_eq in Hp. eauto 6.
  - intros (r & Hr & Hp & Hb & HP). exists r. split; [exact Hb|].
    apply filter_In. split; [apply filter_In; auto|]. apply String.eqb_eq. exact Hp.
Qed.

Lemma services_In w service :
  In service (services w)
  <-> exists r, In r (objects w) /\ r_plural r = "services" /\ r_body r = service.
Proof.
  unfold services. rewrite in_map_iff. split.
  - intros (r & Hb & Hr). apply filter_In in Hr as [Hr Hp].
    apply String.eqb_eq in Hp. eauto.
  - intros (r & Hr & Hp & Hb). exists r. split; [exact Hb|].
    apply filter_In. split; [exact Hr|]. apply String.eqb_eq. exact Hp.
Qed.

Lemma is_obj_services name r :
  r_plural r = "services" ->
  Api.is_obj "services" name r = true <-> Api.name_of (r_body r) = Some name.
Proof.
  intros Hp. unfold Api.is_obj. rewrite Hp. cbn [String.eqb Ascii.eqb Bool.eqb andb].
  change (String.eqb "services" "services") with true. cbn [andb].
  destruct (Api.name_of (r_body r)) as [n|]; [|split; discriminate].
  rewrite String.eqb_eq. split; [intros ->; reflexivity | intros [= ->]; reflexivity].
Qed.

(** In a namespace of system names, the name of a listed service is the
    name that its pair encodes to. *)
Lemma owned_name w service r :
  system_names w ->
  In service (services w) -> has_ownership_label service = true ->
  decoded service = Some r ->
  Api.name_of service = Some (_format_service_name (fst r) (snd r)).
Proof.
  intros Hsys Hs Hl Hd. destruct (Hsys service Hs Hl) as (image & memory & Hm & Hn).
  unfold decoded in Hd. rewrite Hn in *.
  destruct (format_unformat_format image memory Hm) as (i & Hu & Hf).
  rewrite Hu in Hd. injection Hd as <-. cbn [fst snd]. rewrite Hf. reflexivity.
Qed.

Lemma owned_after_delete image memory w r :
  system_names w ->
  In r (owned_runtimes (snd (delete_runtime image memory w)))
  <-> In r (owned_runtimes w)
      /\ _format_service_name (fst r) (snd r) <> _format_service_name image memory.
Proof.
  intros Hsys. rewrite delete_runtime_spec. cbn [snd]. rewrite !In_owned_runtimes. split.
  - intros (service & Hs & Hl & Hd).
    apply services_filter in Hs as (o & Ho & Hp & Hb & HP). subst service.
    assert (Hs : In (r_body o) (services w)) by (apply services_In; eauto).
    split; [eauto|]. intros E.
    pose proof (owned_name w _ r Hsys Hs Hl Hd) as Hn. rewrite E in Hn.
    apply (is_obj_services _ o Hp) in Hn. rewrite Hn in HP. discriminate.
  - intros [(service & Hs & Hl & Hd) Hne]. exists service. split; [|auto].
    pose proof (owned_name w _ r Hsys Hs Hl Hd) as Hn.
    apply services_In in Hs as (o & Ho & Hp & Hb). subst service.
    apply services_filter. exists o. repeat split; auto.
    apply negb_true_iff.
    destruct (Api.is_obj "services" (_format_service_name image memory) o) eqn:E;
      [|reflexivity].
    apply (is_obj_services _ o Hp) in E. congruence.
Qed.

(** X14: in a namespace where every labelled service bears a name made by
    [_format_service_name], [delete_runtime] takes from the listing of
    [list_runtimes('all')] the pairs that encode to the name of the deleted
    service, and no other; the deleted pair itself is no longer listed. *)
Theorem delete_runtime_unlists image memory w :
  system_names w ->
  exists before after,
    list_runtimes "all" w = (Ok before, w)
    /\ fst (list_runtimes "all" (snd (delete_runtime image memory w))) = Ok after
    /\ (forall r, In r after <->
          In r before
          /\ _format_service_name (fst r) (snd r) <> _format_service_name image memory)
    /\ ~ In (image, memory) after.
Proof.
  intros Hsys. exists (owned_runtimes w), (owned_runtimes (snd (delete_runtime image memory w))).
  assert (Hall : forall w0, list_runtimes "all" w0 = (Ok (owned_runtimes w0), w0)).
  { intros w0. rewrite list_runtimes_spec, filter_all; [reflexivity|].
    intros r _. apply orb_true_r. }
  split; [apply Hall|]. split; [rewrite Hall; reflexivity|].
  split; [intros r; apply owned_after_delete; exact Hsys|].
  intros H. apply (owned_after_delete _ _ _ _ Hsys) in H as [_ H]. apply H. reflexivity.
Qed.

Lemma delete_runtime_unlists_witness :
  let w := set_objects [Sample.svc "jsampe--kn-runtime--256mb" "pywren-runtime" None;
                        Sample.svc "jsampe--kn-runtime--512mb" "pywren-runtime" None;
                        Sample.svc "frontend" "web" None] Sample.empty in
  exists before after,
    list_runtimes "all" w = (Ok before, w)
    /\ fst (list_runtimes "all" (snd (delete_runtime "jsampe/kn-runtime" 256 w))) = Ok after
    /\ (forall r, In r after <->
          In r before
          /\ _format_service_name (fst r) (snd r)
             <> _format_service_name "jsampe/kn-runtime" 256)
    /\ ~ In ("jsampe/kn-runtime", 256) after.
Proof.
  intros w. apply (delete_runtime_unlists "jsampe/kn-runtime" 256 w).
  intros service [<- | [<- | [<- | []]]] Hl.
  - exists "jsampe/kn-runtime", 256. split; [lia | reflexivity].
  - exists "jsampe/kn-runtime", 512. split; [lia | reflexivity].
  - vm_compute in Hl. discriminate Hl.
Defined.

(** X15: in such a namespace, [list_runtimes('all')] after
    [delete_all_runtimes] returns the empty list. *)
Theorem delete_all_runtimes_empties w :
  system_names w ->
  list_runtimes "all" (snd (delete_all_runtimes w))
  = (Ok [], snd (delete_all_runtimes w)).
Proof.
  intros Hsys. rewrite list_runtimes_spec.
  assert (E : owned_runtimes (snd (delete_all_runtimes w)) = []).
  { destruct (owned_runtimes (snd (delete_all_runtimes w))) as [|r l] eqn:E;
      [reflexivity|]. exfalso.
    assert (Hin : In r (owned_runtimes (snd (delete_all_runtimes w))))
      by (rewrite E; left; reflexivity).
    rewrite delete_all_runtimes_spec in Hin. cbn [snd] in Hin.
    apply In_owned_runtimes in Hin as (service & Hs & Hl & Hd).
    apply services_filter in Hs as (o & Ho & Hp & Hb & HP). subst service.
    assert (Hs : In (r_body o) (services w)) by (apply services_In; eauto).
    destruct (Hsys _ Hs Hl) as (image & memory & Hm & Hn).
    assert (Ht : In (_format_service_name image memory) (deletion_targets w)).
    { apply (deletion_targets_system_names w Hsys). eauto. }
    assert (is_target (deletion_targets w) o = true).
    { apply is_target_spec. split; [exact Hp|]. eauto. }
    rewrite H in HP. discriminate. }
  rewrite E. reflexivity.
Qed.

Lemma delete_all_runtimes_empties_witness :
  let w := set_objects [Sample.svc "jsampe--kn-runtime--256mb" "pywren-runtime" None;
                        Sample.svc "jsampe--kn-runtime--512mb" "pywren-runtime" None;
                        Sample.svc "frontend" "web" None] Sample.empty in
  list_runtimes "all" (snd (delete_all_runtimes w)) = (Ok [], snd (delete_all_runtimes w))
  /\ objects (snd (delete_all_runtimes w)) = [Sample.svc "frontend" "web" None].
Proof.
  intros w. split; [|vm_compute; reflexivity].
  apply (delete_all_runtimes_empties w).
  intros service [<- | [<- | [<- | []]]] Hl.
  - exists "jsampe/kn-runtime", 256. split; [lia | reflexivity].
  - exists "jsampe/kn-runtime", 512. split; [lia | reflexivity].
  - vm_compute in Hl. discriminate Hl.
Defined.

End MoreRuntimes.

(** ** More on [_create_service] and [create_runtime] *)

Section MoreLifecycle.

Import PyStr Spec More Knative.

Context (kconfig : Kconfig) (version this_version_str : string).

(** X16: when [_create_service] returns, the namespace holds the objects
    it held, but for the services of the runtime's name, followed by one
    new service. In the new service the name, the namespace, the timeout,
    the image with its repository and tag, and the memory limit read as
    the call has set them, and every field of the template off these five
    paths reads as in the template. *)
Theorem create_service_writes image memory timeout w url w' :
  _create_service kconfig version image memory timeout w = (Ok url, w') ->
  exists svc repo,
    knative_config w !! "docker_repo" = Some repo
    /\ objects w'
       = (List.filter
            (fun r => negb (Api.is_obj "services" (_format_service_name image memory) r))
            (objects w)
          ++ [{| r_plural := "services"; r_body := svc |}])%list
    /\ Json.get_path svc ["metadata"; "name"]
       = Ok (JStr (_format_service_name image memory))
    /\ Json.get_path svc ["metadata"; "namespace"] = Ok (JStr (namespace w))
    /\ Json.get_path svc ["spec"; "template"; "spec"; "timeoutSeconds"] = Ok (JNum timeout)
    /\ Json.get_path svc ["spec"; "template"; "spec"; "container"; "image"]
       = Ok (JStr ((repo +:+ "/" +:+ image) +:+ ":" +:+ revision version))
    /\ Json.get_path svc
         ["spec"; "template"; "spec"; "container"; "resources"; "limits"; "memory"]
       = Ok (JStr (str memory +:+ "Mi"))
    /\ (forall q, forallb (diverge q) written_paths = true ->
          Json.get_path svc q = Json.get_path (service_res kconfig) q).
Proof. apply create_service_ok. Qed.

(** X17: a runtime that [create_runtime] reports as created is deployed
    and listed. When the call returns, the image that was deployed is the
    default image, as [_get_default_runtime_image_name] makes its name, if
    ['default'] or that name was asked for, and else the image asked for;
    the namespace holds a service of the name of that image and the memory
    asked for; with a service template that carries the ownership label,
    and if the name of the deployed image decodes, [list_runtimes('all')]
    lists it with that memory; and the metadata returned has a
    ['preinstalls'] entry. *)
Theorem create_runtime_listed image memory timeout w meta w' :
  has_ownership_label (service_res kconfig) = true ->
  0 <= memory ->
  create_runtime kconfig version this_version_str image memory timeout w = (Ok meta, w') ->
  exists default_name deployed,
    _get_default_runtime_image_name kconfig this_version_str w = (Ok default_name, w)
    /\ deployed = (if String.eqb image "default" || String.eqb image default_name
                   then default_name else image)
    /\ existsb (Api.is_obj "services" (_format_service_name deployed memory)) (objects w')
       = true
    /\ (decodable_image deployed = true ->
        exists l, list_runtimes "all" w' = (Ok l, w') /\ In (deployed, memory) l)
    /\ Json.contains "preinstalls" meta = Ok true.
Proof.
  intros Hl Hm H. unfold create_runtime in H.
  apply bind_ok_inv in H as (dn & w1 & Hdn & H).
  assert (w1 = w) as ->.
  { revert Hdn. unfold _get_default_runtime_image_name, bind, gets, lookup_key, raise, ret.
    destruct (knative_config w !! "docker_user"); [|discriminate].
    destruct (String.eqb this_version_str "3.5"); [intros [= _ <-]; reflexivity|].
    destruct (String.eqb this_version_str "3.6"); [intros [= _ <-]; reflexivity|].
    destruct (String.eqb this_version_str "3.7"); [intros [= _ <-]; reflexivity|].
    discriminate. }
  apply bind_ok_inv in H as (name & w2 & Hname & H).
  assert (Hdep : name = (if String.eqb image "default" || String.eqb image dn
                         then dn else image)).
  { destruct (String.eqb image "default" || String.eqb image dn).
    - apply bind_ok_inv in Hname as ([] & w0 & _ & Hr). injection Hr as <- _.
      reflexivity.
    - injection Hname as <- _. reflexivity. }
  apply bind_ok_inv in H as (url & w3 & Hcs & H).
  apply bind_ok_inv in H as (ep & w4 & Hep & H). injection Hep as <- <-.
  apply bind_ok_inv in H as ([] & w4 & Hset & H).
  assert (Ho : objects w4 = objects w3).
  { destruct (endpoint w3).
    - injection Hset as <-. reflexivity.
    - apply bind_ok_inv in Hset as (u & w5 & Hu & Hset).
      apply lift_ok_inv in Hu as [_ ->]. injection Hset as <-. reflexivity. }
  pose proof (generate_runtime_meta_objects name memory w4) as Hg.
  rewrite H in Hg. cbn [snd] in Hg.
  destruct (generate_runtime_meta_ok _ _ _ _ _ H) as [_ Hc].
  exists dn, name. split; [exact Hdn|]. split; [exact Hdep|].
  split; [|split; [|exact Hc]].
  - rewrite Hg, Ho.
    destruct (create_service_ok kconfig version _ _ _ _ _ _ Hcs)
      as (svc & repo & _ & Hobj & Hn & _).
    assert (Hi : Api.is_obj "services" (_format_service_name name memory)
                   {| r_plural := "services"; r_body := svc |} = true).
    { unfold Api.is_obj, Api.name_of. cbn [r_plural r_body].
      rewrite Hn, !String.eqb_refl. reflexivity. }
    rewrite Hobj, existsb_app. cbn [existsb]. rewrite Hi. apply orb_true_r.
  - intros Hd. exists (owned_runtimes w'). split.
    + rewrite list_runtimes_spec, filter_all; [reflexivity|]. intros r _. apply orb_true_r.
    + pose proof (create_service_owned kconfig version _ _ _ _ _ _ Hl Hd Hm Hcs) as Hin.
      unfold owned_runtimes, services in *. rewrite Hg, Ho. exact Hin.
Qed.

(** X18: [create_runtime] works out the name of the default image before
    anything else, whatever image it is asked for: without a
    ['docker_user'] in the configuration it raises [KeyError], and under a
    Python version other than 3.5, 3.6 and 3.7 it raises
    [UnboundLocalError]; in both cases nothing has been done. *)
Theorem create_runtime_needs_default_name image memory timeout w :
  (knative_config w !! "docker_user" = None ->
   create_runtime kconfig version this_version_str image memory timeout w
   = (Raise (KeyError "docker_user"), w))
  /\ (is_Some (knative_config w !! "docker_user") ->
      this_version_str <> "3.5" -> this_version_str <> "3.6" ->
      this_version_str <> "3.7" ->
      create_runtime kconfig version this_version_str image memory timeout w
      = (Raise (UnboundLocalError "image_name"), w)).
Proof.
  split.
  - intros Hu. unfold create_runtime. apply bind_raise.
    unfold _get_default_runtime_image_name, bind, gets, lookup_key, raise.
    rewrite Hu. reflexivity.
  - intros [u Hu] H5 H6 H7. unfold create_runtime. apply bind_raise.
    unfold _get_default_runtime_image_name, bind, gets, lookup_key, raise, ret.
    rewrite Hu. apply String.eqb_neq in H5, H6, H7. rewrite H5, H6, H7. reflexivity.
Qed.

(** X19: [_generate_runtime_meta] probes the runtime with one call of
    [invoke] on the route ["/preinstalls"] and leaves the objects of the
    namespace as they are, whatever its outcome: a service deployed before
    a failed probe stays deployed. When [invoke] raises, it raises
    [Exception] with the message ["Unable to invoke 'modules' action"] and
    the exception. When [invoke] returns an answer, it returns the answer
    if it is true and has a ['preinstalls'] entry; it raises [Exception]
    with the message ['Failed getting runtime metadata: '] and the answer
    if the answer is false or has no such entry; and the membership test
    raises on an answer that has no members. With the host of the runtime
    known and an endpoint that the HTTP library accepts: a 200 or 202 whose
    body is true and has the entry is returned, every other response and
    every failed request raise the second exception with [None], and one
    request is sent; with an endpoint that the library refuses, no request
    is sent and the first exception reports [UnboundLocalError]. *)
Theorem generate_runtime_meta_outcomes image memory w :
  let probe := invoke image memory {["service_route" := JStr "/preinstalls"]} true in
  let unable := ExceptionOf "Unable to invoke 'modules' action {}" in
  let failed := ExceptionAbout "Failed getting runtime metadata: {}" in
  objects (snd (_generate_runtime_meta image memory w)) = objects w
  /\ (forall e w', probe w = (Raise e, w') ->
        _generate_runtime_meta image memory w = (Raise (unable e), w'))
  /\ (forall meta w', probe w = (Ok meta, w') ->
        (Json.truthy meta = true -> Json.contains "preinstalls" meta = Ok true ->
         _generate_runtime_meta image memory w = (Ok meta, w'))
        /\ (Json.truthy meta = false \/ Json.contains "preinstalls" meta = Ok false ->
            _generate_runtime_meta image memory w = (Raise (failed meta), w'))
        /\ (forall e, Json.truthy meta = true ->
              Json.contains "preinstalls" meta = Raise e ->
              _generate_runtime_meta image memory w = (Raise e, w')))
  /\ (forall host,
        service_hosts w !! _format_service_name image memory = Some host ->
        (connection w (default ("http://" +:+ host) (endpoint w)) = Ok tt ->
         (exists rq,
            http_sent (snd (_generate_runtime_meta image memory w))
            = (http_sent w ++ [rq])%list
            /\ rq_route rq = JStr "/preinstalls")
         /\ (forall st d,
               http w (posts w) = HttpResponse st (Some d) -> st = 200 \/ st = 202 ->
               Json.truthy d = true -> Json.contains "preinstalls" d = Ok true ->
               fst (_generate_runtime_meta image memory w) = Ok d)
         /\ (match http w (posts w) with
             | HttpFail _ => True
             | HttpResponse st data => (st <> 200 /\ st <> 202) \/ data = None
             end ->
             fst (_generate_runtime_meta image memory w) = Raise (failed JNull)))
        /\ (forall e,
              connection w (default ("http://" +:+ host) (endpoint w)) = Raise e ->
              fst (_generate_runtime_meta image memory w)
              = Raise (unable (UnboundLocalError "conn"))
              /\ http_sent (snd (_generate_runtime_meta image memory w)) = http_sent w)).
Proof.
  intros probe unable failed. subst probe unable failed.
  split; [apply generate_runtime_meta_objects|].
  split; [intros e w' E; rewrite generate_runtime_meta_invoke, E; reflexivity|].
  split.
  - intros meta w' E. rewrite generate_runtime_meta_invoke, E. split; [|split].
    + intros -> ->. reflexivity.
    + intros [-> | Hc]; [reflexivity|]. rewrite Hc. destruct (Json.truthy meta); reflexivity.
    + intros e -> ->. reflexivity.
  - intros host Hh. rewrite generate_runtime_meta_invoke, (invoke_hit _ _ _ _ _ _ Hh).
    unfold endpoint_for. split.
    + intros ->. split; [|split].
      * exists (request_of host {["service_route" := JStr "/preinstalls"]} w).
        split; [|reflexivity].
        destruct (Json.truthy _); [|reflexivity].
        destruct (Json.contains "preinstalls" _) as [[]|e]; reflexivity.
      * intros st d -> Hst Ht Hc. unfold invocation_result.
        assert (E : (st =? 200) || (st =? 202) = true)
          by (destruct Hst as [-> | ->]; reflexivity).
        rewrite E, Ht, Hc. reflexivity.
      * intros Hr. unfold invocation_result.
        destruct (http w (posts w)) as [e|st data]; [reflexivity|].
        destruct Hr as [[H1 H2] | ->].
        -- apply Z.eqb_neq in H1, H2. rewrite H1, H2. reflexivity.
        -- destruct ((st =? 200) || (st =? 202)); reflexivity.
    + intros e ->. split; reflexivity.
Qed.

End MoreLifecycle.

Lemma create_service_writes_witness :
  exists svc,
    List.map (fun o => Api.name_of (r_body o))
      (objects (snd (Knative._create_service Sample.kconfig "1.2.0" "jsampe/kn-runtime"
                       512 60 Sample.building)))
    = [Api.name_of svc]
    /\ Json.get_path svc ["spec"; "template"; "spec"; "container"; "image"]
       = Ok (JStr "docker.io/jsampe/kn-runtime:1.2.0")
    /\ Json.get_path svc ["spec"; "template"; "spec"; "containerConcurrency"]
       = Ok (JNum 1).
Proof.
  set (r := Knative._create_service Sample.kconfig "1.2.0" "jsampe/kn-runtime" 512 60
              Sample.building).
  assert (E : r = (Ok (JStr "http://jsampe--kn-runtime--512mb.default.example.com"), snd r))
    by (vm_compute; reflexivity).
  destruct (create_service_writes Sample.kconfig "1.2.0" "jsampe/kn-runtime" 512 60
              Sample.building _ _ E)
    as (svc & repo & Hrepo & Ho & _ & _ & _ & Hi & _ & Hq).
  exists svc. rewrite Ho. split; [reflexivity|]. split.
  - rewrite Hi. injection Hrepo as <-. reflexivity.
  - rewrite (Hq ["spec"; "template"; "spec"; "containerConcurrency"] eq_refl). reflexivity.
Defined.

Lemma create_runtime_listed_witness :
  let w' := snd (Knative.create_runtime Sample.kconfig "1.2.0" "3.7" "default"
                   512 60 Sample.building) in
  exists l,
    Knative.list_runtimes "all" w' = (Ok l, w')
    /\ In ("jsampe/pywren-kn-runtime-v37", 512) l.
Proof.
  intros w'.
  set (r := Knative.create_runtime Sample.kconfig "1.2.0" "3.7" "default" 512 60
              Sample.building).
  assert (E : r = (Ok (JObj [("preinstalls", JList [JStr "numpy"])]), w'))
    by (vm_compute; reflexivity).
  destruct (create_runtime_listed Sample.kconfig "1.2.0" "3.7" "default" 512 60
              Sample.building _ _ eq_refl ltac:(lia) E)
    as (dn & deployed & Hdn & Hdep & _ & Hlist & _).
  assert (Hname : dn = "jsampe/pywren-kn-runtime-v37").
  { assert (Hc : Knative._get_default_runtime_image_name Sample.kconfig "3.7"
                   Sample.building
                 = (Ok "jsampe/pywren-kn-runtime-v37", Sample.building))
      by (vm_compute; reflexivity).
    rewrite Hc in Hdn. injection Hdn as <-. reflexivity. }
  subst dn. cbn [String.eqb orb] in Hdep.
  change (String.eqb "default" "default") with true in Hdep. cbn [orb] in Hdep.
  subst deployed. apply Hlist. vm_compute. reflexivity.
Defined.

Lemma generate_runtime_meta_outcomes_witness :
  let answering :=
    Sample.with_http
      (fun _ => HttpResponse 200 (Some (JObj [("preinstalls", JList [JStr "numpy"])])))
      Sample.deployed in
  fst (Knative._generate_runtime_meta "jsampe/kn-runtime" 256 answering)
  = Ok (JObj [("preinstalls", JList [JStr "numpy"])])
  /\ fst (Knative._generate_runtime_meta "jsampe/kn-runtime" 256 Sample.deployed)
     = Raise (ExceptionAbout "Failed getting runtime metadata: {}" JNull)
  /\ fst (Knative._generate_runtime_meta "jsampe/kn-runtime" 256 Sample.unreadable_port)
     = Raise (ExceptionOf "Unable to invoke 'modules' action {}"
                (UnboundLocalError "conn")).
Proof.
  intros answering. split; [|split].
  - destruct (generate_runtime_meta_outcomes "jsampe/kn-runtime" 256 answering)
      as (_ & _ & _ & H).
    destruct (H "kn.default.example.com") as [H1 _]; [vm_compute; reflexivity|].
    destruct H1 as (_ & H2 & _); [vm_compute; reflexivity|].
    apply (H2 200); [vm_compute; reflexivity | auto | reflexivity | reflexivity].
  - destruct (generate_runtime_meta_outcomes "jsampe/kn-runtime" 256 Sample.deployed)
      as (_ & _ & _ & H).
    destruct (H "kn.default.example.com") as [H1 _]; [vm_compute; reflexivity|].
    destruct H1 as (_ & _ & H3); [vm_compute; reflexivity|].
    apply H3. vm_compute. exact I.
  - destruct (generate_runtime_meta_outcomes "jsampe/kn-runtime" 256
                Sample.unreadable_port) as (_ & _ & _ & H).
    destruct (H "kn.default.example.com") as [_ H1]; [vm_compute; reflexivity|].
    destruct (H1 InvalidURL) as [H2 _]; [vm_compute; reflexivity|]. exact H2.
Defined.

Lemma create_runtime_needs_default_name_witness :
  Knative.create_runtime Sample.kconfig "1.2.0" "3.8" "jsampe/kn-runtime" 512 60
    Sample.building
  = (Raise (UnboundLocalError "image_name"), Sample.building).
Proof.
  destruct (create_runtime_needs_default_name Sample.kconfig "1.2.0" "3.8"
              "jsampe/kn-runtime" 512 60 Sample.building) as [_ H].
  apply H; [eexists; reflexivity | discriminate ..].
Defined.

(** ** The constructor and the runtime key *)

Section MoreInit.

Import PyStr Spec PyStrFacts Knative PyPath KnativeInit.

#[local] Arguments Ascii.eqb : simpl never.

Lemma no_char_startswith a s :
  no_char a s = true -> startswith (String a EmptyString) s = false.
Proof.
  destruct s as [|x s]; [reflexivity|]. intros H.
  apply no_char_cons in H as [H _]. rewrite startswith_char. exact H.
Qed.

Lemma service_name_no_slash image memory :
  no_char "/" (_format_service_name image memory) = true.
Proof.
  unfold _format_service_name. rewrite enc_replace, !no_char_app.
  rewrite no_char_enc by auto. rewrite no_char_str by reflexivity. reflexivity.
Qed.

Lemma str_app_inv_head p s t : p +:+ s = p +:+ t -> s = t.
Proof.
  induction p as [|x p IH]; intros H; [exact H|].
  change (String x (p +:+ s) = String x (p +:+ t)) in H.
  injection H as H. apply IH. exact H.
Qed.

(** The part of the runtime key before the service name. *)
Lemma get_runtime_key_prefix urlparse cluster w :
  exists prefix, forall image memory,
    get_runtime_key urlparse cluster image memory w
    = (Ok (prefix +:+ _format_service_name image memory), w).
Proof.
  set (ck := if negb (String.eqb (netloc (urlparse cluster)) "")
             then netloc (urlparse cluster) else path (urlparse cluster)).
  set (P := join_step ck (namespace w)).
  exists (if String.eqb P "" || endswith "/" P then P else P +:+ "/").
  intros image memory. unfold get_runtime_key, bind, gets, ret, join.
  cbn [fold_left]. fold ck. fold P. unfold join_step at 1.
  rewrite (no_char_startswith _ _ (service_name_no_slash image memory)).
  destruct (String.eqb P "" || endswith "/" P); [reflexivity|].
  rewrite str_app_assoc. reflexivity.
Qed.

(** X20: [get_runtime_key] never fails and changes nothing; for one
    cluster and namespace, the key is one prefix followed by the service
    name of the runtime, so two runtimes have the same key exactly when
    they have the same service name. *)
Theorem runtime_key_of_service_name urlparse cluster w :
  exists prefix,
    (forall image memory,
       get_runtime_key urlparse cluster image memory w
       = (Ok (prefix +:+ _format_service_name image memory), w))
    /\ (forall image1 memory1 image2 memory2,
          fst (get_runtime_key urlparse cluster image1 memory1 w)
          = fst (get_runtime_key urlparse cluster image2 memory2 w)
          <-> _format_service_name image1 memory1 = _format_service_name image2 memory2).
Proof.
  destruct (get_runtime_key_prefix urlparse cluster w) as [prefix H].
  exists prefix. split; [exact H|]. intros i1 m1 i2 m2. rewrite !H. cbn [fst]. split.
  - intros [= E]. apply (str_app_inv_head _ _ _ E).
  - intros ->. reflexivity.
Qed.

(** X21: the endpoint of a new backend. An endpoint in the configuration
    is taken as it is. Without one, the constructor looks the ingress
    gateway up and does not raise: the endpoint is ["http://ip:port"] with
    the node port of the first port 80 of the gateway and the address of
    its first load-balancer entry, or, when the gateway has no load
    balancer, the first address of the first node; it stays [None] when
    the lookup fails, when the gateway has no port 80, no port 443 (whose
    node port is read and not used) or an empty load-balancer list. *)
Theorem init_endpoint_discovery knative_config context ingress nodes env :
  (forall e, knative_config !! "endpoint" = Some e ->
     endpoint (__init__ knative_config context ingress nodes env) = Some e)
  /\ (knative_config !! "endpoint" = None ->
      (forall e, ingress = Raise e ->
         endpoint (__init__ knative_config context ingress nodes env) = None)
      /\ (forall svc, ingress = Ok svc ->
            List.filter (fun p => port p =? 80) (spec_ports svc) = []
            \/ List.filter (fun p => port p =? 443) (spec_ports svc) = []
            \/ load_balancer_ingress svc = Some [] ->
            endpoint (__init__ knative_config context ingress nodes env) = None)
      /\ (forall svc p80 ps p443 ps' n, ingress = Ok svc ->
            List.filter (fun p => port p =? 80) (spec_ports svc) = p80 :: ps ->
            List.filter (fun p => port p =? 443) (spec_ports svc) = p443 :: ps' ->
            node_port p80 = Some n ->
            (forall i lb a,
               load_balancer_ingress svc = Some (i :: lb) -> ip i = Some a ->
               endpoint (__init__ knative_config context ingress nodes env)
               = Some ("http://" +:+ a +:+ ":" +:+ str n))
            /\ (forall node items addr addrs a,
                  load_balancer_ingress svc = None ->
                  nodes = Ok (node :: items) ->
                  status_addresses node = addr :: addrs -> address addr = Some a ->
                  endpoint (__init__ knative_config context ingress nodes env)
                  = Some ("http://" +:+ a +:+ ":" +:+ str n)))).
Proof.
  unfold __init__. cbn [endpoint]. split; [intros e ->; reflexivity|].
  intros ->. split; [intros e ->; reflexivity|]. split.
  - intros svc -> H. unfold ingress_endpoint.
    destruct H as [H | [H | H]].
    + rewrite H. reflexivity.
    + rewrite H. destruct (first _); reflexivity.
    + rewrite H. destruct (first _); [|reflexivity]. destruct (first _); reflexivity.
  - intros svc p80 ps p443 ps' n -> H80 H443 Hn. unfold ingress_endpoint.
    rewrite H80, H443. cbn [first]. rewrite Hn. split.
    + intros i lb a Hlb Hip. rewrite Hlb. cbn [first]. rewrite Hip. reflexivity.
    + intros node items addr addrs a Hlb Hnodes Ha Haddr. rewrite Hlb, Hnodes.
      cbn [first]. rewrite Ha. cbn [first]. rewrite Haddr. reflexivity.
Qed.

Lemma init_endpoint_discovery_witness :
  let gateway ports :=
    Ok {| spec_ports := ports;
          load_balancer_ingress := Some [{| ip := Some "10.0.0.1" |}] |} in
  let p80 := {| port := 80; node_port := Some 31380 |} in
  let p443 := {| port := 443; node_port := Some 31390 |} in
  endpoint (__init__ ∅ ∅ (gateway [p80; p443]) (Ok []) Sample.empty)
  = Some "http://10.0.0.1:31380"
  /\ endpoint (__init__ ∅ ∅ (gateway [p80]) (Ok []) Sample.empty) = None
  /\ endpoint (__init__ {[ "endpoint" := "http://kn.example.com" ]} ∅ (gateway [p80])
                 (Ok []) Sample.empty)
     = Some "http://kn.example.com".
Proof.
  intros gateway p80 p443. split; [|split].
  - destruct (init_endpoint_discovery ∅ ∅ (gateway [p80; p443]) (Ok []) Sample.empty)
      as [_ H].
    destruct (H eq_refl) as (_ & _ & H3).
    destruct (H3 _ p80 [] p443 [] 31380 eq_refl eq_refl eq_refl eq_refl) as [H4 _].
    apply (H4 {| ip := Some "10.0.0.1" |} [] "10.0.0.1" eq_refl eq_refl).
  - destruct (init_endpoint_discovery ∅ ∅ (gateway [p80]) (Ok []) Sample.empty)
      as [_ H].
    destruct (H eq_refl) as (_ & H2 & _).
    apply (H2 _ eq_refl). right. left. reflexivity.
  - destruct (init_endpoint_discovery {[ "endpoint" := "http://kn.example.com" ]} ∅
                (gateway [p80]) (Ok []) Sample.empty) as [H _].
    apply H. reflexivity.
Defined.

End MoreInit.

(** ** The resources of a build *)

Section MoreBuild.

Import PyStr Spec More Knative.

Context (kconfig : Kconfig) (version : string).

(** X22: [_create_account_resources] with the default repository. The
    deletions of the old secret and of the old service account share one
    [try]: when there is no secret to delete, the service account is not
    deleted either. So with a service account and no secret in the
    namespace, the call creates the secret and then fails with a conflict
    (409) on the service account; in every other case it returns, and the
    namespace holds its other objects followed by the new secret, which
    carries the user and the token, and the new service account. *)
Theorem create_account_resources_outcome w user token sname aname :
  knative_config w !! "docker_user" = Some user ->
  knative_config w !! "docker_token" = Some token ->
  knative_config w !! "docker_repo" = Some (DOCKER_REPO_DEFAULT kconfig) ->
  Api.name_of (secret_res kconfig) = Some sname ->
  Api.name_of (account_res kconfig) = Some aname ->
  exists secret,
    Api.name_of secret = Some sname
    /\ Json.getitem secret "stringData"
       = Ok (JObj [("username", JStr user); ("password", JStr token)])
    /\ _create_account_resources kconfig w
       = if negb (existsb (Api.is_obj "secrets" sname) (objects w))
            && existsb (Api.is_obj "serviceaccounts" aname) (objects w)
         then (Raise (ApiException 409),
               set_objects
                 (objects w ++ [{| r_plural := "secrets"; r_body := secret |}]) w)
         else (Ok tt,
               set_objects
                 (List.filter
                    (fun r => negb (Api.is_obj "secrets" sname r)
                              && negb (Api.is_obj "serviceaccounts" aname r))
                    (objects w)
                  ++ [{| r_plural := "secrets"; r_body := secret |};
                      {| r_plural := "serviceaccounts";
                         r_body := account_res kconfig |}]) w).
Proof. apply create_account_resources_ok. Qed.

(** X23: [_create_build_resources] deletes the old task and the old
    pipeline resource each in a [try] of its own, so it never meets a
    conflict: with templates that have names, and a pipeline resource
    whose [spec] is a dictionary, it returns, and the namespace holds its
    other objects followed by the new pipeline resource and the new task.
    The new pipeline resource has the name of the template and the two
    parameters: the URL and the revision of the configuration when it has
    them, else the default URL and the version, or ['master'] for a
    snapshot. *)
Theorem create_build_resources_outcome w gname tname spec :
  Api.name_of (git_res kconfig) = Some gname ->
  Api.name_of (task_def kconfig) = Some tname ->
  Json.getitem (git_res kconfig) "spec" = Ok (JObj spec) ->
  exists git,
    _create_build_resources kconfig version w
    = (Ok tt,
       set_objects
         (List.filter
            (fun r => negb (Api.is_obj "tasks" tname r)
                      && negb (Api.is_obj "pipelineresources" gname r))
            (objects w)
          ++ [{| r_plural := "pipelineresources"; r_body := git |};
              {| r_plural := "tasks"; r_body := task_def kconfig |}]) w)
    /\ Api.name_of git = Some gname
    /\ Json.get_path git ["spec"; "params"]
       = Ok (JList
               [JObj [("name", JStr "url");
                      ("value", JStr (default (GIT_URL_DEFAULT kconfig)
                                        (knative_config w !! "git_url")))];
                JObj [("name", JStr "revision");
                      ("value",
                       JStr (default
                               (if contains "SNAPSHOT" version then "master" else version)
                               (knative_config w !! "git_rev")))]]).
Proof. apply create_build_resources_ok. Qed.

End MoreBuild.

Lemma create_account_resources_outcome_witness :
  let leftover :=
    set_objects [{| r_plural := "serviceaccounts";
                    r_body := account_res Sample.kconfig |}] Sample.empty in
  fst (Knative._create_account_resources Sample.kconfig leftover)
  = Raise (ApiException 409)
  /\ List.map r_plural
       (objects (snd (Knative._create_account_resources Sample.kconfig leftover)))
     = ["serviceaccounts"; "secrets"]
  /\ fst (Knative._create_account_resources Sample.kconfig Sample.empty) = Ok tt.
Proof.
  intros leftover.
  destruct (create_account_resources_outcome Sample.kconfig leftover "jsampe" "t0k3n"
              "dockerhub-user-token" "pywren-build-pipeline"
              eq_refl eq_refl eq_refl eq_refl eq_refl) as (s1 & _ & _ & H1).
  destruct (create_account_resources_outcome Sample.kconfig Sample.empty "jsampe" "t0k3n"
              "dockerhub-user-token" "pywren-build-pipeline"
              eq_refl eq_refl eq_refl eq_refl eq_refl) as (s2 & _ & _ & H2).
  rewrite H1, H2. repeat split.
Defined.

Lemma create_build_resources_outcome_witness :
  let stale :=
    set_objects [{| r_plural := "tasks"; r_body := task_def Sample.kconfig |}]
      Sample.empty in
  fst (Knative._create_build_resources Sample.kconfig "1.2.0" stale) = Ok tt
  /\ List.map r_plural
       (objects (snd (Knative._create_build_resources Sample.kconfig "1.2.0" stale)))
     = ["pipelineresources"; "tasks"].
Proof.
  intros stale.
  destruct (create_build_resources_outcome Sample.kconfig "1.2.0" stale "pywren-git"
              "git-source-to-image" [("type", JStr "git"); ("params", JList [])]
              eq_refl eq_refl eq_refl) as (git & H & _).
  rewrite H. repeat split.
Defined.
